(** * The SARIF import pipeline of the triage portal

    A shallow embedding of [triage/util/finding_importers/sarif_importer.py]
    (class [SARIFImporter]) together with the properties of its path
    normaliser, title normaliser, source-file resolver and import loop.

    Conventions of the embedding.
    - A Python [str] is a [string] holding its UTF-8 bytes.  Splitting,
      stripping and suffix tests on ["/"] and on ASCII text act on bytes
      exactly as they act on code points; where Python works character by
      character ([for c in s], [re], [str.upper]) the bytes are grouped into
      characters first.  [str.title] is computed on ASCII text; on any
      other text it is the library's function, a collaborator.
    - A value read from the SARIF document is a [pyval]: the document is the
      result of [json.load], so it is made of [None], booleans, numbers,
      strings, lists and dicts (a dict keeps its insertion order).  Numbers
      are integers, as the line numbers of SARIF are.
    - An exception is a value of [exn]; code that can raise returns a
      [Result], code that also reads or writes the database lives in the
      state monad [M] over the [Store].  A raised exception leaves the
      store as it was at that point: every [save] commits on its own.
    - The database is the list of rows of each table.  A column keeps the
      value assigned to it, [path__endswith] is the case-sensitive suffix
      test, and two column values are equal when they are the same value.
    - [os.path] is the POSIX flavour ([os.path.sep] is ["/"]). *)

From Stdlib Require Import ZArith Ascii String List Bool Lia.
From stdpp Require Import base decidable option list gmap strings pretty.

Open Scope string_scope.

(** ** Python strings *)

Module Str.

(** [s.split(sep)] for a one-character separator: never empty. *)
Fixpoint split (sep : ascii) (s : string) : list string :=
  match s with
  | "" => [""]
  | String c r =>
      if Ascii.eqb c sep then "" :: split sep r
      else match split sep r with
           | seg :: segs => String c seg :: segs
           | [] => [String c ""]
           end
  end.

(** [sep.join(parts)]. *)
Definition join (sep : string) (parts : list string) : string :=
  String.concat sep parts.

(** [s.endswith(suffix)], as [s[len(s) - len(suffix):] == suffix]. *)
Definition endswith (s suffix : string) : bool :=
  let n := String.length s in
  let m := String.length suffix in
  (m <=? n)%nat && String.eqb (substring (n - m) m s) suffix.

Fixpoint lstrip (c : ascii) (s : string) : string :=
  match s with
  | "" => ""
  | String a r => if Ascii.eqb a c then lstrip c r else s
  end.

Definition rstrip (c : ascii) (s : string) : string :=
  String.rev (lstrip c (String.rev s)).

(** [s.strip(c)] for a one-character argument. *)
Definition strip (c : ascii) (s : string) : string :=
  rstrip c (lstrip c s).

Definition is_ascii_lower (c : ascii) : bool :=
  let n := nat_of_ascii c in (97 <=? n)%nat && (n <=? 122)%nat.

Definition is_ascii_upper (c : ascii) : bool :=
  let n := nat_of_ascii c in (65 <=? n)%nat && (n <=? 90)%nat.

Definition ascii_upper (c : ascii) : ascii :=
  if is_ascii_lower c then ascii_of_nat (nat_of_ascii c - 32) else c.

Definition ascii_lower (c : ascii) : ascii :=
  if is_ascii_upper c then ascii_of_nat (nat_of_ascii c + 32) else c.

(** A UTF-8 continuation byte, [10xxxxxx]. *)
Definition is_continuation (c : ascii) : bool :=
  let n := nat_of_ascii c in (128 <=? n)%nat && (n <? 192)%nat.

(** The characters of a string, each with its continuation bytes:
    what [for c in s] yields. *)
Fixpoint chars (s : string) : list string :=
  match s with
  | "" => []
  | String c r =>
      let starts_inside :=
        match r with String d _ => is_continuation d | "" => false end in
      match chars r with
      | h :: t =>
          if starts_inside then String c h :: t else String c "" :: h :: t
      | [] => [String c ""]
      end
  end.

(** The non-ASCII characters that Python's case mappings send to ASCII
    letters: U+0130, U+0131, U+017F and U+212A. *)
Definition dotted_I : string := String "196" (String "176" "").
Definition dotless_i : string := String "196" (String "177" "").
Definition long_s : string := String "197" (String "191" "").
Definition kelvin : string := String "226" (String "132" (String "170" "")).

(** [c.upper()] for one character.  Exact on ASCII, on U+017F and on
    U+0131; every other character is kept, where Python may map it to
    other text (never to text made of the letters of [SRCROOT] only). *)
Definition upper_char (c : string) : string :=
  match c with
  | String a "" => String (ascii_upper a) ""
  | _ => if String.eqb c long_s then "S"
         else if String.eqb c dotless_i then "I" else c
  end.

(** [s.upper()]. *)
Definition upper (s : string) : string :=
  String.concat "" (map upper_char (chars s)).

(** [s.replace(a, b)] for one-character arguments. *)
Fixpoint replace (a b : ascii) (s : string) : string :=
  match s with
  | "" => ""
  | String c r => String (if Ascii.eqb c a then b else c) (replace a b r)
  end.

(** [s.isascii()]. *)
Definition isascii (s : string) : bool :=
  forallb (fun c => (nat_of_ascii c <? 128)%nat) (list_ascii_of_string s).

(** [s.title()] on ASCII text: a letter that follows a letter is
    lowered, any other letter is raised. *)
Fixpoint title_from (previous_is_cased : bool) (s : string) : string :=
  match s with
  | "" => ""
  | String c r =>
      if is_ascii_lower c || is_ascii_upper c then
        String (if previous_is_cased then ascii_lower c else ascii_upper c)
               (title_from true r)
      else String c (title_from false r)
  end.

Definition title (s : string) : string := title_from false s.

End Str.

(** [os.path] on POSIX. *)
Module os_path.

Definition sep : ascii := "/"%char.

(** [os.path.basename(p)]: the text after the last separator, which is
    the last element of [p.split("/")]. *)
Definition basename (p : string) : string :=
  List.last (Str.split sep p) "".

End os_path.

(** The part of the regular-expression language that the title table
    uses: an optional leading [^], literal characters, [.] and [*]. *)
Module re.

(** How the engine lowers one character of the subject.  Exact on ASCII
    and on the two characters whose lower case is an ASCII letter. *)
Definition lower_char (c : string) : string :=
  match c with
  | String a "" => String (Str.ascii_lower a) ""
  | _ => if String.eqb c Str.dotted_I then "i"
         else if String.eqb c Str.kelvin then "k" else c
  end.

(** A literal [p] of the pattern against the character [t] under
    [re.IGNORECASE]: equal after lowering, or one of the two extra
    pairs [i]/U+0131 and [s]/U+017F. *)
Definition literal_ignorecase (p t : string) : bool :=
  let lo := lower_char p in
  String.eqb (lower_char t) lo
  || (String.eqb lo "i" && String.eqb t Str.dotless_i)
  || (String.eqb lo "s" && String.eqb t Str.long_s).

Definition newline : string := String "010" "".

(** One pattern character against one subject character. *)
Definition char_ignorecase (p t : string) : bool :=
  if String.eqb p "." then negb (String.eqb t newline)
  else literal_ignorecase p t.

(** Does the pattern match at the start of the text? *)
Fixpoint match_here (pattern text : list string) {struct pattern} : bool :=
  match pattern with
  | [] => true
  | p :: pattern' =>
      let one := fun text =>
        match text with
        | t :: text' => char_ignorecase p t && match_here pattern' text'
        | [] => false
        end in
      match pattern' with
      | q :: rest =>
          if String.eqb q "*" then
            (fix match_star (text : list string) : bool :=
               match_here rest text
               || match text with
                  | t :: text' => char_ignorecase p t && match_star text'
                  | [] => false
                  end) text
          else one text
      | [] => one text
      end
  end.

(** [re.match(regex, s, re.IGNORECASE) is not None]. *)
Definition match_ignorecase (regex s : string) : bool :=
  let pattern := Str.chars regex in
  let pattern := match pattern with
                 | p :: rest => if String.eqb p "^" then rest else pattern
                 | [] => pattern
                 end in
  match_here pattern (Str.chars s).

End re.

(** ** Python values and exceptions *)

#[local] Set Warnings "-register-all".

(** What [json.load] produces. *)
Inductive pyval : Type :=
| PNone
| PBool (b : bool)
| PInt (z : Z)
| PStr (s : string)
| PList (items : list pyval)
| PDict (entries : list (string * pyval)).

(** Equality of two values as stored column values. *)
Fixpoint pyval_eqb (a b : pyval) : bool :=
  match a, b with
  | PNone, PNone => true
  | PBool x, PBool y => Bool.eqb x y
  | PInt x, PInt y => Z.eqb x y
  | PStr x, PStr y => String.eqb x y
  | PList x, PList y =>
      (fix items x y :=
         match x, y with
         | [], [] => true
         | p :: x', q :: y' => pyval_eqb p q && items x' y'
         | _, _ => false
         end) x y
  | PDict x, PDict y =>
      (fix entries x y :=
         match x, y with
         | [], [] => true
         | (k, p) :: x', (l, q) :: y' =>
             String.eqb k l && pyval_eqb p q && entries x' y'
         | _, _ => false
         end) x y
  | _, _ => false
  end.

Inductive exn : Type :=
| ValueError (msg : string)
| TypeError
| AttributeError
| IndexError
| KeyError
| DoesNotExist.

Inductive Result (A : Type) : Type :=
| Ok (a : A)
| Raise (e : exn).

Arguments Ok {A} a.
Arguments Raise {A} e.

(** [bool(v)]. *)
Definition truthy (v : pyval) : bool :=
  match v with
  | PNone => false
  | PBool b => b
  | PInt z => negb (Z.eqb z 0)
  | PStr s => negb (String.eqb s "")
  | PList items => match items with [] => false | _ => true end
  | PDict entries => match entries with [] => false | _ => true end
  end.

(** Can the value be a dict key? *)
Definition hashable (v : pyval) : bool :=
  match v with
  | PList _ | PDict _ => false
  | _ => true
  end.

(** [d[k]] on the entries of a dict. *)
Fixpoint lookup_key (k : string) (entries : list (string * pyval))
  : option pyval :=
  match entries with
  | [] => None
  | (k', v) :: rest => if String.eqb k' k then Some v else lookup_key k rest
  end.

(** [v.get(k, default)]: only a dict has the method. *)
Definition dict_get (v : pyval) (k : string) (default : pyval)
  : Result pyval :=
  match v with
  | PDict entries =>
      Ok (match lookup_key k entries with Some x => x | None => default end)
  | _ => Raise AttributeError
  end.

(** The elements [for x in v] runs over. *)
Definition py_iter (v : pyval) : Result (list pyval) :=
  match v with
  | PList items => Ok items
  | PStr s => Ok (map PStr (Str.chars s))
  | PDict entries => Ok (map (fun e => PStr (fst e)) entries)
  | _ => Raise TypeError
  end.

(** [len(v)]. *)
Definition py_len (v : pyval) : Result nat :=
  match v with
  | PList items => Ok (length items)
  | PStr s => Ok (length (Str.chars s))
  | PDict entries => Ok (length entries)
  | _ => Raise TypeError
  end.

(** [v[0]]; the keys of a dict of the document are strings, never [0]. *)
Definition py_first (v : pyval) : Result pyval :=
  match v with
  | PList (x :: _) => Ok x
  | PList [] => Raise IndexError
  | PStr s => match Str.chars s with
              | c :: _ => Ok (PStr c)
              | [] => Raise IndexError
              end
  | PDict _ => Raise KeyError
  | _ => Raise TypeError
  end.

(** ** The data model

    The model classes live in [triage/models/*.py], which are not among the
    sources; the records carry the fields the importer reads or assigns.
    A row keeps the value the importer assigned to the field. *)

Record User : Type := { user_id : Z }.

Record File : Type := { file_id : Z; path : string }.

Record ProjectVersion : Type :=
  { project_version_id : Z;
    files : list File   (* [project_version.files], in query order *) }.

(** Modelled from the spec: [Tool.ToolType] is declared in
    [triage/models/tool.py]; only the member the importer names is listed. *)
Inductive ToolType : Type := STATIC_ANALYSIS.

(** Modelled from the spec: [WorkItemState] is declared in
    [triage/models/base.py]; the members named under [src/] are listed. *)
Inductive WorkItemState : Type := NEW | DELETED.

(** Modelled from the spec: [Finding.ConfidenceLevel] is declared in
    [triage/models/finding.py]; only the member the importer names is
    listed. *)
Inductive ConfidenceLevel : Type := Confidence_NOT_SPECIFIED.

Record Tool : Type :=
  { tool_name : pyval;
    tool_version : pyval;
    tool_type : ToolType;
    tool_created_by : User;
    tool_updated_by : User }.

Record AssertionsPerPackage : Type :=
  { package_uuid : pyval;
    package_name : pyval;
    total_assertions : nat }.

Record Assertion : Type :=
  { assertion_uuid : pyval;
    assertion_name : string;
    assertions_per_package : AssertionsPerPackage }.

(** What lies outside the sources and outside the repository: the severity
    enumeration of [triage/models/finding.py] with its parser, the default
    of the two-argument form of [get_complex], the two library functions
    behind the fingerprint, and [str.title] on text that is not ASCII,
    whose case mappings are those of the Unicode character database.  Of
    these mappings one fact is used: none of them yields a full stop or an
    underscore, so a titled text has one only where the text had one. *)
Class Collaborators : Type :=
  { SeverityLevel : Type;
    SeverityLevel_parse : pyval -> SeverityLevel;
    SeverityLevel_NOT_SPECIFIED : SeverityLevel;
    get_complex_default : pyval;
    json_dumps : pyval -> string;     (* [json.dumps(v).encode("utf-8")] *)
    sha256 : string -> string;        (* [hashlib.sha256(b).digest()] *)
    unicode_title : string -> string; (* [s.title()], [s] not ASCII *)
    unicode_title_separators :
      forall (s : string) (c : ascii),
        c = "."%char \/ c = "_"%char ->
        In c (list_ascii_of_string (unicode_title s)) ->
        In c (list_ascii_of_string s) }.

(** An executable choice of collaborators: the fingerprint is the
    serialised key itself, and text that is not ASCII is titled as it
    is. *)
Fixpoint sample_dumps (v : pyval) : string :=
  match v with
  | PNone => "null"
  | PBool true => "true"
  | PBool false => "false"
  | PInt z => "i" +:+ pretty z
  | PStr s => "s" +:+ pretty (String.length s) +:+ ":" +:+ s
  | PList items =>
      "[" +:+ (fix all items :=
                 match items with
                 | [] => ""
                 | x :: rest => sample_dumps x +:+ "," +:+ all rest
                 end) items +:+ "]"
  | PDict entries =>
      "{" +:+ (fix all entries :=
                 match entries with
                 | [] => ""
                 | (k, x) :: rest =>
                     pretty (String.length k) +:+ ":" +:+ k +:+ "="
                     +:+ sample_dumps x +:+ "," +:+ all rest
                 end) entries +:+ "}"
  end.

Definition sample_collaborators : Collaborators :=
  {| SeverityLevel := pyval;
     SeverityLevel_parse := fun level => level;
     SeverityLevel_NOT_SPECIFIED := PNone;
     get_complex_default := PStr "";
     json_dumps := sample_dumps;
     sha256 := fun b => b;
     unicode_title := fun s => s;
     unicode_title_separators := fun s c _ Hin => Hin |}.

Section Database.

Context `{Collaborators}.

Record Finding : Type :=
  { title : pyval;
    normalized_title : pyval;
    state : WorkItemState;
    file : File;
    tool : Tool;
    project_version : ProjectVersion;
    file_line : pyval;
    severity_level : SeverityLevel;
    analyst_severity_level : SeverityLevel;
    confidence : ConfidenceLevel;
    created_by : User;
    updated_by : User }.

(** The tables the importer reads or writes. *)
Record Store : Type :=
  { users : list User;
    tools : list Tool;
    findings : list Finding;
    assertion_packages : list AssertionsPerPackage;
    assertions : list Assertion }.

(** *** Computations over the store that may raise *)

Definition M (A : Type) : Type := Store -> Result A * Store.

Definition ret {A} (a : A) : M A := fun st => (Ok a, st).

Definition raise {A} (e : exn) : M A := fun st => (Raise e, st).

Definition bind {A B} (c : M A) (k : A -> M B) : M B :=
  fun st =>
    match c st with
    | (Ok a, st') => k a st'
    | (Raise e, st') => (Raise e, st')
    end.

Definition lift {A} (r : Result A) : M A := fun st => (r, st).

(** [try: c  except Exception: return fallback]. *)
Definition catch {A} (c : M A) (fallback : A) : M A :=
  fun st =>
    match c st with
    | (Ok a, st') => (Ok a, st')
    | (Raise _, st') => (Ok fallback, st')
    end.

End Database.

Notation "x <- c ;; k" := (bind c (fun x => k))
  (at level 100, c at next level, right associativity).
Notation "c ;;; k" := (bind c (fun _ => k))
  (at level 100, right associativity).

(** ** The importer: [class SARIFImporter] *)

(** Modelled from the spec: [triage.util.general.get_complex] is not among
    the sources.  The importer reads every optional field of the document
    through it, with a dotted key and a default: it walks the key through
    nested dicts and yields the default as soon as a step is missing or the
    value at hand is not a dict. *)
Fixpoint get_path (obj : pyval) (keys : list string) : option pyval :=
  match keys with
  | [] => Some obj
  | k :: keys' =>
      match obj with
      | PDict entries =>
          match lookup_key k entries with
          | Some v => get_path v keys'
          | None => None
          end
      | _ => None
      end
  end.

Definition get_complex (obj : pyval) (key : string) (default_value : pyval)
  : pyval :=
  match get_path obj (Str.split "." key) with
  | Some v => v
  | None => default_value
  end.

(** The body of the [try] block of [normalize_file_path]. *)
Definition normalize_file_path_try (path : pyval) : Result pyval :=
  match path with
  | PStr s =>
      match Str.split "/" s !! 2%nat with
      | Some segment =>
          if String.eqb segment "package"
          then Ok (PStr (Str.join "/" (drop 2 (Str.split "/" s))))
          else Ok path
      | None => Raise IndexError
      end
  | _ => Raise AttributeError   (* no [split] on a value that is no [str] *)
  end.

(** Normalizes a file path to be relative to the root. *)
Definition normalize_file_path (path : pyval) : pyval :=
  match normalize_file_path_try path with
  | Ok result => result
  | Raise _ => path
  end.

(** The table [norm] of [normalize_title], in the order it is written. *)
Definition norm : list (string * string) :=
  [ ("^Bracket object notation with user input is present.*",
     "Bracket object notation");
    ("^Object injection via bracket notation.*", "Object injection");
    ("^`ref` usage found.*", "Use of `ref`") ].

(** The loop over [norm.items()]. *)
Fixpoint first_replacement (items : list (string * string)) (title : string)
  : option string :=
  match items with
  | [] => None
  | (regex, replacement) :: rest =>
      if re.match_ignorecase regex title then Some replacement
      else first_replacement rest title
  end.

Definition normalize_title (title : pyval) : Result pyval :=
  match title with
  | PStr s =>
      Ok (PStr (match first_replacement norm s with
                | Some replacement => replacement
                | None => s
                end))
  | _ => Raise TypeError   (* [re.match] on a value that is no [str] *)
  end.

(** [project_version.files.filter(path__endswith=...)], with the
    case-sensitive suffix test. *)
Definition possible_files_of (project_version : ProjectVersion)
    (file_path : string) : list File :=
  filter (fun f => Str.endswith (path f) (os_path.basename file_path) = true)
         (files project_version).

(** The target of step [i] of the suffix loop. *)
Definition target_of (parts : list string) (i : nat) : string :=
  String os_path.sep (Str.join (String os_path.sep "") (drop i parts)).

(** The inner loop with its [break]: the first candidate, in the given
    order, whose path ends with the target. *)
Definition first_ending_with (possible_files : list File) (target : string)
  : option File :=
  find (fun possible_file => Str.endswith (path possible_file) target)
       possible_files.

(** One round of the outer loop: a candidate found by the inner loop
    replaces the best option. *)
Definition suffix_step (possible_files : list File) (parts : list string)
    (best_option : option File) (i : nat) : option File :=
  let target := target_of parts i in
  match first_ending_with possible_files target with
  | Some possible_file => Some possible_file
  | None => best_option
  end.

(** Returns the most likely source file for a given issue. *)
Definition get_most_likely_source (project_version : ProjectVersion)
    (file_path : pyval) : Result (option File) :=
  match file_path with
  | PStr file_path =>
      let possible_files := possible_files_of project_version file_path in
      match possible_files with
      | [] => Ok None
      | [only] => Ok (Some only)
      | _ =>
          let file_path := Str.strip os_path.sep file_path in
          let parts := Str.split os_path.sep file_path in
          Ok (fold_left (suffix_step possible_files parts)
                        (rev (seq 0 (length parts))) None)
      end
  | _ => Raise TypeError   (* [os.path.basename] on a value that is no [str] *)
  end.

(** [s.title()]: computed by [Str.title] on ASCII text, the library's
    function on any other text. *)
Definition str_title `{Collaborators} (s : string) : string :=
  if Str.isascii s then Str.title s else unicode_title s.

(** Normalizes the assertion name. *)
Definition normalize_assertion_name `{Collaborators} (name : pyval)
  : Result string :=
  match name with
  | PStr s =>
      let parts := Str.split "." s in
      let last_part := List.last parts "" in
      Ok (str_title (Str.replace "_" " " last_part))
  | _ => Raise AttributeError
  end.

(** [str(src_root).upper() in ["%SRCROOT%", "SRCROOT"]].  The text of
    [None], of a boolean, a number, a list or a dict starts with a
    character that neither marker starts with. *)
Definition in_source_root (src_root : pyval) : bool :=
  match src_root with
  | PStr s =>
      let u := Str.upper s in
      String.eqb u "%SRCROOT%" || String.eqb u "SRCROOT"
  | _ => false
  end.

(** The loop [for rule in ...] that fills [rule_description_map]. *)
Fixpoint rule_descriptions (default_value : pyval) (rules : list pyval)
    (rule_description_map : list (pyval * pyval))
  : Result (list (pyval * pyval)) :=
  match rules with
  | [] => Ok rule_description_map
  | rule :: rest =>
      let rule_id := get_complex rule "id" default_value in
      let rule_description :=
        get_complex rule "shortDescription.text" default_value in
      if truthy rule_id && truthy rule_description then
        if hashable rule_id then
          rule_descriptions default_value rest
            ((rule_id, rule_description)
               :: filter (fun e => pyval_eqb (fst e) rule_id = false)
                         rule_description_map)
        else Raise TypeError
      else rule_descriptions default_value rest rule_description_map
  end.

(** The local variables of [import_sarif_file] that the loops update. *)
Record Locals : Type :=
  { num_imported : nat;
    processed : gset string }.

Definition count_one (locals : Locals) : Locals :=
  {| num_imported := S (num_imported locals);
     processed := processed locals |}.

Definition add_processed (key : string) (locals : Locals) : Locals :=
  {| num_imported := num_imported locals;
     processed := {[ key ]} ∪ processed locals |}.

Section Importer.

Context `{Collaborators}.

(** [for x in xs: acc = body(x, acc)], leaving at the first exception. *)
Fixpoint for_each {X A : Type} (xs : list X) (body : X -> A -> M A)
    (acc : A) : M A :=
  match xs with
  | [] => ret acc
  | x :: rest => acc' <- body x acc ;; for_each rest body acc'
  end.

(** *** The queries *)

(** [get_user_model().objects.get(id=1)]. *)
Definition User_get (id : Z) : M User :=
  fun st =>
    match find (fun u => Z.eqb (user_id u) id) (users st) with
    | Some u => (Ok u, st)
    | None => (Raise DoesNotExist, st)
    end.

Definition same_tool (name version : pyval) (t : Tool) : bool :=
  pyval_eqb (tool_name t) name && pyval_eqb (tool_version t) version.

(** [Tool.objects.get_or_create(name=..., version=..., defaults=...)[0]]. *)
Definition Tool_get_or_create (name version : pyval) (user : User) : M Tool :=
  fun st =>
    match find (same_tool name version) (tools st) with
    | Some t => (Ok t, st)
    | None =>
        let t := {| tool_name := name;
                    tool_version := version;
                    tool_type := STATIC_ANALYSIS;
                    tool_created_by := user;
                    tool_updated_by := user |} in
        (Ok t, {| users := users st;
                  tools := tools st ++ [t];
                  findings := findings st;
                  assertion_packages := assertion_packages st;
                  assertions := assertions st |})
    end.

(** The row filter of the existence check: [title], [file], [file_line]
    and [project_version] of the row are those of [finding]; the two
    references are compared by primary key. *)
Definition same_finding (finding row : Finding) : bool :=
  pyval_eqb (title row) (title finding)
  && Z.eqb (file_id (file row)) (file_id (file finding))
  && pyval_eqb (file_line row) (file_line finding)
  && Z.eqb (project_version_id (project_version row))
           (project_version_id (project_version finding)).

(** [Finding.objects.filter(title=finding.title, file=finding.file,
    file_line=finding.file_line,
    project_version=finding.project_version).exists()]. *)
Definition Finding_exists (finding : Finding) : M bool :=
  fun st => (Ok (existsb (same_finding finding) (findings st)), st).

(** [finding.save()]. *)
Definition Finding_save (finding : Finding) : M unit :=
  fun st =>
    (Ok tt, {| users := users st;
               tools := tools st;
               findings := findings st ++ [finding];
               assertion_packages := assertion_packages st;
               assertions := assertions st |}).

Definition AssertionsPerPackage_save (row : AssertionsPerPackage) : M unit :=
  fun st =>
    (Ok tt, {| users := users st;
               tools := tools st;
               findings := findings st;
               assertion_packages := assertion_packages st ++ [row];
               assertions := assertions st |}).

Definition Assertion_save (row : Assertion) : M unit :=
  fun st =>
    (Ok tt, {| users := users st;
               tools := tools st;
               findings := findings st;
               assertion_packages := assertion_packages st;
               assertions := assertions st ++ [row] |}).

(** *** [add_assertion] *)

(** The body of the [try] block. *)
Definition add_assertion_try (assertion_data : pyval) : M bool :=
  total_assertions <- lift (py_len assertion_data) ;;
  first <- lift (py_first assertion_data) ;;
  subject <- lift (dict_get first "subject" PNone) ;;
  package_uuid <- lift (dict_get subject "uuid" PNone) ;;
  first <- lift (py_first assertion_data) ;;
  subject <- lift (dict_get first "subject" PNone) ;;
  package_name <- lift (dict_get subject "identifier" PNone) ;;
  let package_assertions :=
    {| package_uuid := package_uuid;
       package_name := package_name;
       total_assertions := total_assertions |} in
  AssertionsPerPackage_save package_assertions ;;;
  found <- lift (py_iter assertion_data) ;;
  for_each found
    (fun assertion_found (_ : unit) =>
       uuid <- lift (dict_get assertion_found "uuid" PNone) ;;
       generator <- lift (dict_get assertion_found "generator" PNone) ;;
       name <- lift (dict_get generator "name" PNone) ;;
       assertion_name <- lift (normalize_assertion_name name) ;;
       Assertion_save {| assertion_uuid := uuid;
                         assertion_name := assertion_name;
                         assertions_per_package := package_assertions |})
    tt ;;;
  ret true.

(** Adds details of the assertion data. *)
Definition add_assertion (assertion_data : pyval) : M bool :=
  catch (add_assertion_try assertion_data) false.

(** *** [import_sarif_file] *)

(** The fingerprint of one location. *)
Definition dedup_key (message uri line_number : pyval) : string :=
  sha256 (json_dumps (PDict [ ("title", message);
                              ("path", uri);
                              ("line_number", line_number) ])).

(** The body of [for location in ...]. *)
Definition import_location (project_version : ProjectVersion) (user : User)
    (tool : Tool) (message level location : pyval) (locals : Locals)
  : M Locals :=
  let artifact_location :=
    get_complex location "physicalLocation.artifactLocation"
                get_complex_default in
  let src_root :=
    get_complex artifact_location "uriBaseId" (PStr "%SRCROOT%") in
  if negb (in_source_root src_root) then ret locals   (* continue *)
  else
    let uri := get_complex artifact_location "uri" get_complex_default in
    let key :=
      dedup_key message uri
        (get_complex location "physicalLocation.region.startLine"
                     get_complex_default) in
    if bool_decide (key ∉ processed locals) then
      let locals := add_processed key locals in
      let file_path :=
        get_complex artifact_location "uri" get_complex_default in
      let file_path := normalize_file_path file_path in
      found <- lift (get_most_likely_source project_version file_path) ;;
      match found with
      | None => ret locals   (* continue *)
      | Some source_file =>
          normalized_title <- lift (normalize_title message) ;;
          let finding :=
            {| title := message;
               normalized_title := normalized_title;
               state := NEW;
               file := source_file;
               tool := tool;
               project_version := project_version;
               file_line :=
                 get_complex location "physicalLocation.region.startLine"
                             PNone;
               severity_level := SeverityLevel_parse level;
               analyst_severity_level := SeverityLevel_NOT_SPECIFIED;
               confidence := Confidence_NOT_SPECIFIED;
               created_by := user;
               updated_by := user |} in
          duplicate <- Finding_exists finding ;;
          if duplicate then ret locals   (* continue *)
          else
            Finding_save finding ;;;
            ret (count_one locals)
      end
    else ret (count_one locals).

(** The body of [for result in ...]. *)
Definition import_result (project_version : ProjectVersion) (user : User)
    (tool : Tool) (result : pyval) (locals : Locals) : M Locals :=
  rule_id <- lift (dict_get result "ruleId" PNone) ;;
  let message := get_complex result "message.text" get_complex_default in
  let level := get_complex result "level" get_complex_default in
  locations <-
    lift (py_iter (get_complex result "locations" get_complex_default)) ;;
  for_each locations
    (import_location project_version user tool message level) locals.

(** The body of [for run in ...]. *)
Definition import_run (project_version : ProjectVersion) (user : User)
    (run : pyval) (locals : Locals) : M Locals :=
  let tool_name := get_complex run "tool.driver.name" get_complex_default in
  let tool_version :=
    get_complex run "tool.driver.version" get_complex_default in
  tool <- Tool_get_or_create tool_name tool_version user ;;
  rules <-
    lift (py_iter (get_complex run "tool.driver.rules"
                               get_complex_default)) ;;
  rule_description_map <-
    lift (rule_descriptions get_complex_default rules []) ;;
  results <- lift (dict_get run "results" (PList [])) ;;
  results <- lift (py_iter results) ;;
  for_each results (import_result project_version user tool) locals.

(** Imports a SARIF file containing tool findings into the database. *)
Definition import_sarif_file (sarif : pyval)
    (project_version : option ProjectVersion) (user : option User)
  : M bool :=
  match sarif with
  | PNone => raise (ValueError "The sarif content must not be None.")
  | PDict entries =>
      let version :=
        match lookup_key "version" entries with
        | Some v => v
        | None => PNone
        end in
      if negb (pyval_eqb version (PStr "2.1.0")) then
        raise (ValueError "Only SARIF version 2.1.0 is supported.")
      else
        match project_version with
        | None => raise (ValueError "The project version must not be None.")
        | Some project_version =>
            user <- match user with
                    | None => User_get 1
                    | Some user => ret user
                    end ;;
            assertion_data <- lift (dict_get sarif "assertion_data" PNone) ;;
            match assertion_data with
            | PNone => ret false
            | _ => add_assertion assertion_data
            end ;;;
            runs <- lift (dict_get sarif "runs" (PList [])) ;;
            runs <- lift (py_iter runs) ;;
            locals <- for_each runs (import_run project_version user)
                        {| num_imported := 0; processed := ∅ |} ;;
            ret (negb (Nat.eqb (num_imported locals) 0))
        end
  | _ => raise (ValueError "The sarif content must be a dict.")
  end.

End Importer.

(** ** Sample documents and stores *)

Definition alice : User := {| user_id := 1 |}.

Definition index_a : File := {| file_id := 1; path := "/repo/a/index.js" |}.
Definition index_b : File := {| file_id := 2; path := "/repo/b/index.js" |}.
Definition main_c : File := {| file_id := 3; path := "/repo/src/main.c" |}.

Definition sample_version : ProjectVersion :=
  {| project_version_id := 7; files := [index_a; index_b; main_c] |}.

(** A location with [uri] and [startLine] and without [uriBaseId]. *)
Definition location_at (uri : string) (line : Z) : pyval :=
  PDict [ ("physicalLocation",
           PDict [ ("artifactLocation", PDict [ ("uri", PStr uri) ]);
                   ("region", PDict [ ("startLine", PInt line) ]) ]) ].

Definition result_with (message : string) (locations : list pyval) : pyval :=
  PDict [ ("ruleId", PStr "rule-1");
          ("level", PStr "warning");
          ("message", PDict [ ("text", PStr message) ]);
          ("locations", PList locations) ].

(** A log with one run of the tool [scanner 1.0]. *)
Definition document_with (results : list pyval) : pyval :=
  PDict [ ("version", PStr "2.1.0");
          ("runs",
           PList [ PDict [ ("tool",
                            PDict [ ("driver",
                                     PDict [ ("name", PStr "scanner");
                                             ("version", PStr "1.0");
                                             ("rules", PList []) ]) ]);
                           ("results", PList results) ] ]) ].

(** One result that reports the same place twice, in a file the project
    version does not have. *)
Definition twice_unresolved : pyval :=
  document_with
    [ result_with "Buffer overflow"
        [ location_at "lib/missing.c" 3; location_at "lib/missing.c" 3 ] ].

(** A log whose [runs] is [null]. *)
Definition null_runs : pyval :=
  PDict [ ("version", PStr "2.1.0"); ("runs", PNone) ].

(** Two results at one place whose titles differ. *)
Definition two_titles (title1 title2 uri : string) (line : Z) : pyval :=
  document_with
    [ result_with title1 [ location_at uri line ];
      result_with title2 [ location_at uri line ] ].

Definition store_of `{Collaborators} (users : list User)
    (rows : list Finding) : Store :=
  {| users := users;
     tools := [];
     findings := rows;
     assertion_packages := [];
     assertions := [] |}.

(** The tool of [document_with], as the importer creates it for [alice]. *)
Definition scanner : Tool :=
  {| tool_name := PStr "scanner";
     tool_version := PStr "1.0";
     tool_type := STATIC_ANALYSIS;
     tool_created_by := alice;
     tool_updated_by := alice |}.

(** The local variables before the first run. *)
Definition fresh_locals : Locals :=
  {| num_imported := 0; processed := ∅ |}.

(** A store with one user and nothing else, for the sample collaborators. *)
Definition sample_store : @Store sample_collaborators :=
  store_of [alice] [].

(** The four ways in which the arguments of [import_sarif_file] are
    invalid. *)
Definition invalid_input (sarif : pyval)
    (project_version : option ProjectVersion) : Prop :=
  sarif = PNone
  \/ (forall entries, sarif <> PDict entries)
  \/ (exists entries,
        sarif = PDict entries
        /\ lookup_key "version" entries <> Some (PStr "2.1.0"))
  \/ project_version = None.

(** The messages of the validation errors. *)
Definition validation_messages : list string :=
  [ "The sarif content must not be None.";
    "The sarif content must be a dict.";
    "Only SARIF version 2.1.0 is supported.";
    "The project version must not be None." ].

(** ** What one location contributes *)

Section Location.

Context `{Collaborators}.

(** The [artifactLocation] of a location. *)
Definition artifact_location_of (location : pyval) : pyval :=
  get_complex location "physicalLocation.artifactLocation"
              get_complex_default.

(** The value tested against the source-root markers. *)
Definition src_root_of (location : pyval) : pyval :=
  get_complex (artifact_location_of location) "uriBaseId"
              (PStr "%SRCROOT%").

(** The fingerprint [import_location] computes. *)
Definition key_of (message location : pyval) : string :=
  dedup_key message
    (get_complex (artifact_location_of location) "uri" get_complex_default)
    (get_complex location "physicalLocation.region.startLine"
                 get_complex_default).

(** The file the resolver is asked for. *)
Definition source_of (project_version : ProjectVersion) (location : pyval)
  : Result (option File) :=
  get_most_likely_source project_version
    (normalize_file_path
       (get_complex (artifact_location_of location) "uri"
                    get_complex_default)).

(** The finding [import_location] builds. *)
Definition finding_of (project_version : ProjectVersion) (user : User)
    (tool : Tool) (message level location : pyval) (source_file : File)
    (normalized_title : pyval) : Finding :=
  {| title := message;
     normalized_title := normalized_title;
     state := NEW;
     file := source_file;
     tool := tool;
     project_version := project_version;
     file_line :=
       get_complex location "physicalLocation.region.startLine" PNone;
     severity_level := SeverityLevel_parse level;
     analyst_severity_level := SeverityLevel_NOT_SPECIFIED;
     confidence := Confidence_NOT_SPECIFIED;
     created_by := user;
     updated_by := user |}.

(** The store after [finding.save()]. *)
Definition with_finding (st : Store) (finding : Finding) : Store :=
  {| users := users st;
     tools := tools st;
     findings := findings st ++ [finding];
     assertion_packages := assertion_packages st;
     assertions := assertions st |}.

(** What [import_location] does with a location under the source root:
    the body of the loop from line 110 on. *)
Definition import_in_root (project_version : ProjectVersion) (user : User)
    (tool : Tool) (message level location : pyval) (locals : Locals)
  : M Locals :=
  let key := key_of message location in
  if bool_decide (key ∉ processed locals) then
    let locals := add_processed key locals in
    found <- lift (source_of project_version location) ;;
    match found with
    | None => ret locals   (* continue *)
    | Some source_file =>
        normalized_title <- lift (normalize_title message) ;;
        let finding :=
          finding_of project_version user tool message level location
                     source_file normalized_title in
        duplicate <- Finding_exists finding ;;
        if duplicate then ret locals   (* continue *)
        else
          Finding_save finding ;;;
          ret (count_one locals)
    end
  else ret (count_one locals).

(** The filter of the existence check, on the values it is given: the
    row has this title, file, line and project version. *)
Definition stored_as (message : pyval) (source_file : File) (line : pyval)
    (project_version0 : ProjectVersion) (row : Finding) : bool :=
  pyval_eqb (title row) message
  && Z.eqb (file_id (file row)) (file_id source_file)
  && pyval_eqb (file_line row) line
  && Z.eqb (project_version_id (project_version row))
           (project_version_id project_version0).

End Location.

(** ** Relations between runs of the importer *)

Section Runs.

Context `{Collaborators}.

(** Every exception of the computation satisfies [P]. *)
Definition raises_only {A} (P : exn -> Prop) (c : M A) : Prop :=
  forall st e st', c st = (Raise e, st') -> P e.

(** Whatever the existence check finds in [rows], it finds in [rows']. *)
Definition covers (rows' rows : list Finding) : Prop :=
  forall finding,
    existsb (same_finding finding) rows = true ->
    existsb (same_finding finding) rows' = true.

(** The computation keeps the users and loses no finding. *)
Definition grows {A} (c : M A) : Prop :=
  forall st,
    users (snd (c st)) = users st
    /\ covers (findings (snd (c st))) (findings st).

(** The computation keeps the users and the findings. *)
Definition keeps {A} (c : M A) : Prop :=
  forall st,
    users (snd (c st)) = users st
    /\ findings (snd (c st)) = findings st.

(** Two outcomes agree: the same exception, or results related by [R]. *)
Definition agree {A} (R : A -> A -> Prop) (r1 r2 : Result A) : Prop :=
  match r1, r2 with
  | Ok a1, Ok a2 => R a1 a2
  | Raise e1, Raise e2 => e1 = e2
  | _, _ => False
  end.

(** [c2] replays [c1]: started on findings that cover those [c1] ends
    with, and on the same users, [c2] saves no finding and ends as [c1]
    does. *)
Definition replays {A} (R : A -> A -> Prop) (c1 c2 : M A) : Prop :=
  forall st g,
    users g = users st ->
    covers (findings g) (findings (snd (c1 st))) ->
    users (snd (c2 g)) = users g
    /\ findings (snd (c2 g)) = findings g
    /\ agree R (fst (c1 st)) (fst (c2 g)).

(** The local variables of two runs that have seen the same keys. *)
Definition same_processed (locals1 locals2 : Locals) : Prop :=
  processed locals1 = processed locals2.

(** When the computation returns, the counter has not gone down, and if
    it has not gone up the findings are those it started with. *)
Definition counts (locals : Locals) (c : M Locals) : Prop :=
  forall st locals' st',
    c st = (Ok locals', st') ->
    num_imported locals <= num_imported locals'
    /\ (num_imported locals' = num_imported locals ->
        findings st' = findings st).

End Runs.

(** ** The assertion side channel, item by item *)

(** An ASCII letter. *)
Definition is_letter (c : ascii) : bool :=
  Str.is_ascii_lower c || Str.is_ascii_upper c.

(** [v.get(k)]. *)
Definition get_or_none (k : string) (entries : list (string * pyval))
  : pyval :=
  match lookup_key k entries with Some x => x | None => PNone end.

(** The item is a dict whose [generator] is a dict with a string [name];
    [uuid] is what its [uuid] key holds. *)
Definition reads_as (item uuid : pyval) (name : string) : Prop :=
  exists entries generator,
    item = PDict entries
    /\ lookup_key "generator" entries = Some (PDict generator)
    /\ lookup_key "name" generator = Some (PStr name)
    /\ uuid = get_or_none "uuid" entries.

(** The row saved for an item that reads as [uuid] and [name]. *)
Definition assertion_row `{Collaborators}
    (package_assertions : AssertionsPerPackage)
    (uuid : pyval) (name : string) : Assertion :=
  {| assertion_uuid := uuid;
     assertion_name :=
       str_title (Str.replace "_" " " (List.last (Str.split "." name) ""));
     assertions_per_package := package_assertions |}.

(** The rows of a list of items that all read well. *)
Definition rows_of `{Collaborators}
    (package_assertions : AssertionsPerPackage)
    (items : list pyval) (rows : list Assertion) : Prop :=
  Forall2 (fun item row =>
             exists uuid name,
               reads_as item uuid name
               /\ row = assertion_row package_assertions uuid name)
          items rows.

Section Edits.

Context `{Collaborators}.

(** The store with one more package row and more assertion rows. *)
Definition with_assertions (st : Store)
    (packages : list AssertionsPerPackage) (rows : list Assertion) : Store :=
  {| users := users st;
     tools := tools st;
     findings := findings st;
     assertion_packages := assertion_packages st ++ packages;
     assertions := assertions st ++ rows |}.

(** The body of the loop of [add_assertion]. *)
Definition save_found (package_assertions : AssertionsPerPackage)
    (assertion_found : pyval) (_ : unit) : M unit :=
  uuid <- lift (dict_get assertion_found "uuid" PNone) ;;
  generator <- lift (dict_get assertion_found "generator" PNone) ;;
  name <- lift (dict_get generator "name" PNone) ;;
  assertion_name <- lift (normalize_assertion_name name) ;;
  Assertion_save {| assertion_uuid := uuid;
                    assertion_name := assertion_name;
                    assertions_per_package := package_assertions |}.

(** What a computation does to the store is adding assertion rows. *)
Definition records_only {A} (c : M A) : Prop :=
  forall st, exists packages rows,
    snd (c st) = with_assertions st packages rows.

(** The store after a tool was created. *)
Definition with_tool (st : Store) (t : Tool) : Store :=
  {| users := users st;
     tools := tools st ++ [t];
     findings := findings st;
     assertion_packages := assertion_packages st;
     assertions := assertions st |}.

(** What holds of every finding the importer builds for a project
    version. *)
Definition imported_row (project_version0 : ProjectVersion) (row : Finding)
  : Prop :=
  state row = NEW
  /\ project_version row = project_version0
  /\ In (file row) (files project_version0)
  /\ (exists t, title row = PStr t)
  /\ normalize_title (title row) = Ok (normalized_title row)
  /\ analyst_severity_level row = SeverityLevel_NOT_SPECIFIED
  /\ confidence row = Confidence_NOT_SPECIFIED
  /\ created_by row = updated_by row.

(** A property of the store that the three edits of the importer keep: the
    rows of the assertion tables, a tool that was looked for in vain, and a
    finding built for the project version that the existence check did not
    find. *)
Definition kept_by_edits (project_version0 : ProjectVersion)
    (I : Store -> Prop) : Prop :=
  (forall st packages rows, I st -> I (with_assertions st packages rows))
  /\ (forall st t,
        I st ->
        find (same_tool (tool_name t) (tool_version t)) (tools st) = None ->
        I (with_tool st t))
  /\ (forall st finding,
        I st ->
        imported_row project_version0 finding ->
        existsb (same_finding finding) (findings st) = false ->
        I (with_finding st finding)).

(** The computation keeps the property. *)
Definition steps {A} (I : Store -> Prop) (c : M A) : Prop :=
  forall st, I st -> I (snd (c st)).

(** No two rows agree on title, file, line and project version. *)
Definition distinct_findings (rows : list Finding) : Prop :=
  forall i j earlier later,
    i < j -> rows !! i = Some earlier -> rows !! j = Some later ->
    same_finding later earlier = false.

(** No two tools agree on name and version. *)
Definition distinct_tools (rows : list Tool) : Prop :=
  forall i j earlier later,
    i < j -> rows !! i = Some earlier -> rows !! j = Some later ->
    same_tool (tool_name later) (tool_version later) earlier = false.

(** The computation neither reads nor writes the assertion tables. *)
Definition ignores_assertions {A} (c : M A) : Prop :=
  forall st packages rows,
    c (with_assertions st packages rows)
    = (fst (c st), with_assertions (snd (c st)) packages rows).

(** The part of [import_sarif_file] that follows the assertion data. *)
Definition import_runs (entries : list (string * pyval))
    (project_version0 : ProjectVersion) (user : User) : M bool :=
  runs <- lift (dict_get (PDict entries) "runs" (PList [])) ;;
  runs <- lift (py_iter runs) ;;
  locals <- for_each runs (import_run project_version0 user)
              {| num_imported := 0; processed := ∅ |} ;;
  ret (negb (Nat.eqb (num_imported locals) 0)).

End Edits.

(** ** More sample data *)

(** A project version without files. *)
Definition empty_version : ProjectVersion :=
  {| project_version_id := 8; files := [] |}.

(** A location with a [uriBaseId]. *)
Definition location_under (base uri : string) (line : Z) : pyval :=
  PDict [ ("physicalLocation",
           PDict [ ("artifactLocation",
                    PDict [ ("uri", PStr uri); ("uriBaseId", PStr base) ]);
                   ("region", PDict [ ("startLine", PInt line) ]) ]) ].

(** The entries of a result whose two locations lie under another root. *)
Definition outside_result : list (string * pyval) :=
  [ ("ruleId", PStr "rule-1");
    ("message", PDict [ ("text", PStr "Buffer overflow") ]);
    ("locations",
     PList [ location_under "%TMP%" "b/index.js" 3;
             location_under "BUILD" "b/index.js" 9 ]) ].

(** The entries of a log with two results in resolvable files. *)
Definition two_findings : list (string * pyval) :=
  [ ("version", PStr "2.1.0");
    ("runs",
     PList [ PDict [ ("tool",
                      PDict [ ("driver",
                               PDict [ ("name", PStr "scanner");
                                       ("version", PStr "1.0");
                                       ("rules", PList []) ]) ]);
                     ("results",
                      PList [ result_with "Buffer overflow"
                                [ location_at "b/index.js" 3 ];
                              result_with "Use after free"
                                [ location_at "src/main.c" 7 ] ]) ] ]) ].

(** The subject of the sample assertions. *)
Definition sample_subject : list (string * pyval) :=
  [ ("uuid", PStr "p-1"); ("identifier", PStr "pkg:npm/left-pad@1.3.0") ].

(** Three assertion items: with a subject, without one, and without a
    generator. *)
Definition first_item : list (string * pyval) :=
  [ ("subject", PDict sample_subject);
    ("uuid", PStr "a-1");
    ("generator", PDict [ ("name", PStr "openssf.omega.security_review") ]) ].

Definition second_item : pyval :=
  PDict [ ("uuid", PStr "a-2");
          ("generator", PDict [ ("name", PStr "openssf.omega.code_review") ]) ].

Definition unreadable_item : pyval := PDict [ ("uuid", PStr "a-3") ].

(** The package row of [n] sample assertions. *)
Definition sample_package (n : nat) : AssertionsPerPackage :=
  {| package_uuid := PStr "p-1";
     package_name := PStr "pkg:npm/left-pad@1.3.0";
     total_assertions := n |}.

Definition first_row (n : nat) : Assertion :=
  {| assertion_uuid := PStr "a-1";
     assertion_name := "Security Review";
     assertions_per_package := sample_package n |}.

Definition second_row (n : nat) : Assertion :=
  {| assertion_uuid := PStr "a-2";
     assertion_name := "Code Review";
     assertions_per_package := sample_package n |}.

(** Two rows for line 3 of [index_b]: one whose normalised title is not
    what the table gives for its title, and one whose title is already the
    canonical title of the object-injection pattern. *)
Definition legacy_row : @Finding sample_collaborators :=
  finding_of sample_version alice scanner
    (PStr "Object injection via bracket notation: a[b]") (PStr "warning")
    (location_at "b/index.js" 3) index_b (PStr "Legacy title").

Definition canonical_row : @Finding sample_collaborators :=
  finding_of sample_version alice scanner
    (PStr "Object injection") (PStr "warning")
    (location_at "b/index.js" 3) index_b (PStr "Object injection").

Definition titled_store : @Store sample_collaborators :=
  store_of [alice] [legacy_row; canonical_row].

(** * Properties *)

(** ** Python values *)

Lemma pyval_eqb_refl (v : pyval) : pyval_eqb v v = true.
Proof.
  revert v. fix IH 1. intros [ | b | z | s | items | entries ]; simpl.
  - reflexivity.
  - apply eqb_reflx.
  - apply Z.eqb_refl.
  - apply String.eqb_refl.
  - induction items as [ | x items IHitems ]; [ reflexivity | ].
    rewrite IH, IHitems. reflexivity.
  - induction entries as [ | [k x] entries IHentries ]; [ reflexivity | ].
    rewrite String.eqb_refl, IH, IHentries. reflexivity.
Qed.

Lemma pyval_eqb_eq (a b : pyval) : pyval_eqb a b = true -> a = b.
Proof.
  revert a b. fix IH 1.
  intros [ | x | x | x | x | x ] [ | y | y | y | y | y ]; simpl;
    try discriminate; try reflexivity.
  - intros E. apply eqb_prop in E. congruence.
  - intros E. apply Z.eqb_eq in E. congruence.
  - intros E. apply String.eqb_eq in E. congruence.
  - intros E. f_equal. revert y E.
    induction x as [ | p x IHx ]; intros [ | q y ] E;
      try discriminate; [ reflexivity | ].
    apply andb_prop in E as [E1 E2].
    f_equal; [ apply IH, E1 | apply IHx, E2 ].
  - intros E. f_equal. revert y E.
    induction x as [ | [k p] x IHx ]; intros [ | [l q] y ] E;
      try discriminate; [ reflexivity | ].
    apply andb_prop in E as [E12 E3]. apply andb_prop in E12 as [E1 E2].
    apply String.eqb_eq in E1. apply IH in E2. apply IHx in E3.
    congruence.
Qed.

Lemma pyval_eqb_neq (a b : pyval) : a <> b -> pyval_eqb a b = false.
Proof.
  intros Hne. destruct (pyval_eqb a b) eqn:E; [ | reflexivity ].
  exfalso. apply Hne, pyval_eqb_eq, E.
Qed.

(** ** Python strings *)

Lemma split_not_empty (sep : ascii) (s : string) : Str.split sep s <> [].
Proof.
  destruct s as [ | c r ]; simpl; [ discriminate | ].
  destruct (Ascii.eqb c sep); [ discriminate | ].
  destruct (Str.split sep r); discriminate.
Qed.

(** Joining the segments of a split gives the string back. *)
Lemma join_split (sep : ascii) (s : string) :
  Str.join (String sep "") (Str.split sep s) = s.
Proof.
  unfold Str.join. induction s as [ | c r IH ]; [ reflexivity | ].
  pose proof (split_not_empty sep r) as Hne. simpl.
  destruct (Str.split sep r) as [ | seg segs ]; [ contradiction | ].
  destruct (Ascii.eqb_spec c sep) as [-> | Hc].
  - change (String.concat (String sep "") ("" :: seg :: segs))
      with (String sep (String.concat (String sep "") (seg :: segs))).
    rewrite IH. reflexivity.
  - destruct segs as [ | seg' segs ].
    + simpl in *. rewrite IH. reflexivity.
    + change (String.concat (String sep "") (String c seg :: seg' :: segs))
        with (String c (String.concat (String sep "") (seg :: seg' :: segs))).
      rewrite IH. reflexivity.
Qed.

Lemma append_cons (c : ascii) (s t : string) :
  String c s +:+ t = String c (s +:+ t).
Proof. reflexivity. Qed.

Lemma substring_all (s : string) : substring 0 (String.length s) s = s.
Proof.
  induction s as [ | c r IH ]; [ reflexivity | ]. simpl. rewrite IH.
  reflexivity.
Qed.

Lemma substring_after (p t : string) :
  substring (String.length p) (String.length t) (p +:+ t) = t.
Proof.
  induction p as [ | c r IH ]; [ apply substring_all | ].
  rewrite append_cons. simpl. exact IH.
Qed.

Lemma substring_split (s : string) (k : nat) :
  (k <= String.length s)%nat ->
  s = substring 0 k s +:+ substring k (String.length s - k) s.
Proof.
  revert k. induction s as [ | c r IH ]; intros k Hk.
  - destruct k; [ reflexivity | simpl in Hk; lia ].
  - destruct k as [ | k ].
    + simpl. rewrite substring_all. reflexivity.
    + simpl in *. rewrite append_cons. f_equal. apply IH. lia.
Qed.

Lemma length_append (p t : string) :
  String.length (p +:+ t) = (String.length p + String.length t)%nat.
Proof.
  induction p as [ | c r IH ]; [ reflexivity | ].
  rewrite append_cons. simpl. rewrite IH. reflexivity.
Qed.

(** [Str.endswith] is the suffix test. *)
Lemma endswith_suffix (s t : string) :
  Str.endswith s t = true <-> exists p, s = p +:+ t.
Proof.
  unfold Str.endswith. split.
  - intros E. apply andb_prop in E as [Hlen Heq].
    apply Nat.leb_le in Hlen. apply String.eqb_eq in Heq.
    exists (substring 0 (String.length s - String.length t) s).
    pose proof (substring_split s (String.length s - String.length t)) as Hs.
    replace (String.length s - (String.length s - String.length t))%nat
      with (String.length t) in Hs by lia.
    rewrite Heq in Hs. apply Hs. lia.
  - intros [p ->]. rewrite length_append.
    apply andb_true_intro. split; [ apply Nat.leb_le; lia | ].
    replace (String.length p + String.length t - String.length t)%nat
      with (String.length p) by lia.
    rewrite substring_after. apply String.eqb_refl.
Qed.

Example split_abs : Str.split "/" "/a/b/package/src/x.js"
                    = [""; "a"; "b"; "package"; "src"; "x.js"].
Proof. reflexivity. Qed.

Example split_empty : Str.split "/" "" = [""].
Proof. reflexivity. Qed.

Example strip_both : Str.strip "/" "//a/b/" = "a/b".
Proof. reflexivity. Qed.

Example endswith_yes : Str.endswith "/repo/b/index.js" "/b/index.js" = true.
Proof. reflexivity. Qed.

Example endswith_no : Str.endswith "/repo/a/index.js" "/b/index.js" = false.
Proof. reflexivity. Qed.

Example endswith_empty : Str.endswith "x" "" = true.
Proof. reflexivity. Qed.

Example basename_dir : os_path.basename "a/b/" = "".
Proof. reflexivity. Qed.

Example basename_file : os_path.basename "b/index.js" = "index.js".
Proof. reflexivity. Qed.

Example upper_long_s : Str.upper (Str.long_s +:+ "rcRoot") = "SRCROOT".
Proof. reflexivity. Qed.

Example chars_mixed : Str.chars ("a" +:+ Str.kelvin +:+ "b")
                      = ["a"; Str.kelvin; "b"].
Proof. reflexivity. Qed.

Example title_words : Str.title "security review" = "Security Review".
Proof. reflexivity. Qed.

(** ** The path normaliser *)

Lemma normalize_file_path_short (s : string) :
  length (Str.split "/" s) < 3 -> normalize_file_path (PStr s) = PStr s.
Proof.
  intros Hlen. unfold normalize_file_path, normalize_file_path_try.
  destruct (Str.split "/" s !! 2%nat) as [segment | ] eqn:E; [ | reflexivity ].
  apply lookup_lt_Some in E. lia.
Qed.

Lemma normalize_file_path_raised (path0 : pyval) (e : exn) :
  normalize_file_path_try path0 = Raise e -> normalize_file_path path0 = path0.
Proof. intros E. unfold normalize_file_path. rewrite E. reflexivity. Qed.

Lemma normalize_file_path_marker (s : string) :
  Str.split "/" s !! 2%nat = Some "package" ->
  normalize_file_path (PStr s)
  = PStr (Str.join "/" (drop 2 (Str.split "/" s))).
Proof.
  intros E. unfold normalize_file_path, normalize_file_path_try.
  rewrite E. reflexivity.
Qed.

Lemma normalize_file_path_other (s segment : string) :
  Str.split "/" s !! 2%nat = Some segment -> segment <> "package" ->
  normalize_file_path (PStr s) = PStr s.
Proof.
  intros E Hne. unfold normalize_file_path, normalize_file_path_try.
  rewrite E. apply String.eqb_neq in Hne. rewrite Hne. reflexivity.
Qed.

(** C3, as the code has it.  A path with a leading slash starts with an
    empty segment, so in ["/a/b/package/src/x.js"] the segment at index 2 is
    ["b"] and the path is returned as it is; ["a/b/package/src/x.js"]
    becomes ["package/src/x.js"]; and whenever the segment at index 2 is
    ["package"] the result is the join of the segments from index 2 on. *)
Theorem normalize_file_path_index_two :
  normalize_file_path (PStr "/a/b/package/src/x.js")
  = PStr "/a/b/package/src/x.js"
  /\ normalize_file_path (PStr "a/b/package/src/x.js")
     = PStr "package/src/x.js"
  /\ forall s,
       Str.split "/" s !! 2%nat = Some "package" ->
       normalize_file_path (PStr s)
       = PStr (Str.join "/" (drop 2 (Str.split "/" s))).
Proof.
  split; [ reflexivity | ].
  split; [ reflexivity | ].
  exact normalize_file_path_marker.
Qed.

Lemma normalize_file_path_index_two_witness :
  Str.split "/" "x/y/package/lib/util.js" !! 2%nat = Some "package"
  /\ normalize_file_path (PStr "x/y/package/lib/util.js")
     = PStr "package/lib/util.js".
Proof.
  split; [ reflexivity | ].
  exact (proj2 (proj2 normalize_file_path_index_two)
               "x/y/package/lib/util.js" eq_refl).
Defined.

(** C3 as stated fails: the normaliser does not map
    ["/a/b/package/src/x.js"] to ["package/src/x.js"]. *)
Lemma normalize_file_path_leading_slash :
  normalize_file_path (PStr "/a/b/package/src/x.js")
  <> PStr "package/src/x.js".
Proof. discriminate. Qed.

(** C6.  The path normaliser is a total function that hands back its
    argument whenever the path has fewer than three segments and whenever
    the manipulation raises; ["a/b"] is returned as it is, and the result
    for a string is a string. *)
Theorem normalize_file_path_total :
  (forall s, length (Str.split "/" s) < 3 ->
             normalize_file_path (PStr s) = PStr s)
  /\ (forall path0 e, normalize_file_path_try path0 = Raise e ->
                      normalize_file_path path0 = path0)
  /\ normalize_file_path (PStr "a/b") = PStr "a/b"
  /\ (forall s, exists s', normalize_file_path (PStr s) = PStr s').
Proof.
  split; [ exact normalize_file_path_short | ].
  split; [ exact normalize_file_path_raised | ].
  split; [ reflexivity | ].
  intros s. unfold normalize_file_path, normalize_file_path_try.
  destruct (Str.split "/" s !! 2%nat) as [segment | ]; [ | eauto ].
  destruct (String.eqb segment "package"); eauto.
Qed.

Lemma normalize_file_path_total_witness :
  (length (Str.split "/" "src/x.js") < 3
   /\ normalize_file_path (PStr "src/x.js") = PStr "src/x.js")
  /\ (normalize_file_path_try (PInt 7) = Raise AttributeError
      /\ normalize_file_path (PInt 7) = PInt 7).
Proof.
  split.
  - split; [ simpl; lia | ].
    apply (proj1 normalize_file_path_total). simpl. lia.
  - split; [ reflexivity | ].
    apply (proj1 (proj2 normalize_file_path_total) (PInt 7) AttributeError).
    reflexivity.
Defined.

(** ** The source-file resolver *)

Section Resolver.

Variable possible_files : list File.
Variable parts : list string.

Local Abbreviation hit i :=
  (first_ending_with possible_files (target_of parts i)).

Lemma find_all_false {X} (f : X -> bool) (l : list X) :
  (forall x, In x l -> f x = false) -> find f l = None.
Proof.
  induction l as [ | x l IHl ]; intros Hall; [ reflexivity | ].
  simpl. rewrite (Hall x (or_introl eq_refl)).
  apply IHl. intros y Hy. apply Hall. right. exact Hy.
Qed.

Lemma suffix_step_hit (best_option : option File) (i : nat) :
  suffix_step possible_files parts best_option i
  = match hit i with Some f => Some f | None => best_option end.
Proof. reflexivity. Qed.

(** Walking the indices downwards with [fold_left] is reading them
    upwards with [fold_right]. *)
Lemma suffix_loop_upwards (indices : list nat) (best_option : option File) :
  fold_left (suffix_step possible_files parts) (rev indices) best_option
  = fold_right (fun i best => suffix_step possible_files parts best i)
               best_option indices.
Proof.
  induction indices as [ | i indices IH ]; [ reflexivity | ].
  simpl. rewrite fold_left_app. simpl. rewrite IH. reflexivity.
Qed.

Lemma suffix_loop_none (a n : nat) :
  (forall i, a <= i < a + n -> hit i = None) ->
  fold_right (fun i best => suffix_step possible_files parts best i)
             None (seq a n) = None.
Proof.
  revert a. induction n as [ | n IH ]; intros a Hnone; [ reflexivity | ].
  simpl. rewrite suffix_step_hit, (Hnone a) by lia.
  apply IH. intros i Hi. apply Hnone. lia.
Qed.

Lemma suffix_loop_first (a n i : nat) (f : File) :
  a <= i < a + n ->
  hit i = Some f ->
  (forall j, a <= j < i -> hit j = None) ->
  fold_right (fun i best => suffix_step possible_files parts best i)
             None (seq a n) = Some f.
Proof.
  revert a. induction n as [ | n IH ]; intros a Hi Hhit Hlonger; [ lia | ].
  simpl. rewrite suffix_step_hit.
  destruct (decide (i = a)) as [-> | Hne].
  - rewrite Hhit. reflexivity.
  - rewrite (Hlonger a) by lia.
    apply IH; [ lia | exact Hhit | intros j Hj; apply Hlonger; lia ].
Qed.

End Resolver.

Lemma get_most_likely_source_loop (project_version0 : ProjectVersion)
    (file_path : string) :
  2 <= length (possible_files_of project_version0 file_path) ->
  get_most_likely_source project_version0 (PStr file_path)
  = Ok (fold_left
          (suffix_step (possible_files_of project_version0 file_path)
                       (Str.split "/" (Str.strip "/" file_path)))
          (rev (seq 0 (length (Str.split "/" (Str.strip "/" file_path)))))
          None).
Proof.
  intros Hlen. unfold get_most_likely_source.
  destruct (possible_files_of project_version0 file_path)
    as [ | f1 [ | f2 rest ] ]; simpl in Hlen; try lia.
  reflexivity.
Qed.

Lemma elem_of_possible_files (project_version0 : ProjectVersion)
    (file_path : string) (f : File) :
  In f (possible_files_of project_version0 file_path)
  <-> In f (files project_version0)
      /\ Str.endswith (path f) (os_path.basename file_path) = true.
Proof.
  unfold possible_files_of.
  rewrite <- !list_elem_of_In, list_elem_of_filter. tauto.
Qed.

(** C8.  The candidates are the files of the project version whose path
    ends with the basename of the reported path; without a candidate the
    resolver returns [None], and a single candidate is returned at once. *)
Theorem get_most_likely_source_candidates
    (project_version0 : ProjectVersion) (file_path : string) :
  (forall f,
     In f (possible_files_of project_version0 file_path)
     <-> In f (files project_version0)
         /\ Str.endswith (path f)
              (List.last (Str.split "/" file_path) "") = true)
  /\ (possible_files_of project_version0 file_path = [] ->
      get_most_likely_source project_version0 (PStr file_path) = Ok None)
  /\ (forall only,
        possible_files_of project_version0 file_path = [only] ->
        get_most_likely_source project_version0 (PStr file_path)
        = Ok (Some only)).
Proof.
  split; [ intros f; apply elem_of_possible_files | ].
  split.
  - intros E. unfold get_most_likely_source. rewrite E. reflexivity.
  - intros only E. unfold get_most_likely_source. rewrite E. reflexivity.
Qed.

Lemma get_most_likely_source_candidates_witness :
  (possible_files_of sample_version "lib/missing.c" = []
   /\ get_most_likely_source sample_version (PStr "lib/missing.c") = Ok None)
  /\ (possible_files_of sample_version "elsewhere/main.c" = [main_c]
      /\ get_most_likely_source sample_version (PStr "elsewhere/main.c")
         = Ok (Some main_c)).
Proof.
  split.
  - split; [ reflexivity | ].
    apply (proj1 (proj2 (get_most_likely_source_candidates
                           sample_version "lib/missing.c"))).
    reflexivity.
  - split; [ reflexivity | ].
    apply (proj2 (proj2 (get_most_likely_source_candidates
                           sample_version "elsewhere/main.c"))).
    reflexivity.
Defined.

(** C2.  With two candidates or more the resolver runs the suffix loop
    from the last segment to the full path; its result is the first
    candidate, in the given order, that ends with the longest target any
    candidate ends with, and [None] when no candidate ends with any
    target. *)
Theorem get_most_likely_source_longest_suffix
    (project_version0 : ProjectVersion) (file_path : string) :
  let possible_files := possible_files_of project_version0 file_path in
  let parts := Str.split "/" (Str.strip "/" file_path) in
  2 <= length possible_files ->
  get_most_likely_source project_version0 (PStr file_path)
  = Ok (fold_left (suffix_step possible_files parts)
                  (rev (seq 0 (length parts))) None)
  /\ (forall i f,
        i < length parts ->
        first_ending_with possible_files (target_of parts i) = Some f ->
        (forall j c, j < i -> In c possible_files ->
                     Str.endswith (path c) (target_of parts j) = false) ->
        get_most_likely_source project_version0 (PStr file_path)
        = Ok (Some f))
  /\ ((forall i c, i < length parts -> In c possible_files ->
                   Str.endswith (path c) (target_of parts i) = false) ->
      get_most_likely_source project_version0 (PStr file_path) = Ok None).
Proof.
  intros possible_files parts Hlen.
  pose proof (get_most_likely_source_loop project_version0 file_path Hlen)
    as Hloop.
  fold possible_files parts in Hloop.
  split; [ exact Hloop | ].
  rewrite Hloop, suffix_loop_upwards. split.
  - intros i f Hi Hhit Hlonger. f_equal.
    apply (suffix_loop_first possible_files parts 0 (length parts) i f);
      [ lia | exact Hhit | ].
    intros j Hj. apply find_all_false. intros c Hc.
    apply (Hlonger j c); [ lia | exact Hc ].
  - intros Hnone. f_equal. apply suffix_loop_none.
    intros i Hi. apply find_all_false. intros c Hc.
    apply (Hnone i c); [ lia | exact Hc ].
Qed.

Lemma get_most_likely_source_longest_suffix_witness :
  possible_files_of sample_version "b/index.js" = [index_a; index_b]
  /\ get_most_likely_source sample_version (PStr "b/index.js")
     = Ok (Some index_b).
Proof.
  split; [ reflexivity | ].
  refine (proj1 (proj2 (get_most_likely_source_longest_suffix
                          sample_version "b/index.js" _)) 0 index_b _ _ _).
  - simpl. lia.
  - simpl. lia.
  - reflexivity.
  - intros j c Hj. lia.
Defined.

(** ** The title normaliser *)

Lemma first_replacement_first_match (earlier later : list (string * string))
    (regex replacement title : string) :
  (forall e, In e earlier -> re.match_ignorecase (fst e) title = false) ->
  re.match_ignorecase regex title = true ->
  first_replacement (earlier ++ (regex, replacement) :: later) title
  = Some replacement.
Proof.
  intros Hearlier Hmatch.
  induction earlier as [ | [regex' replacement'] earlier IH ]; simpl.
  - rewrite Hmatch. reflexivity.
  - pose proof (Hearlier (regex', replacement') (or_introl eq_refl)) as Hno.
    simpl in Hno. rewrite Hno.
    apply IH. intros e He. apply Hearlier. right. exact He.
Qed.

Lemma first_replacement_no_match (items : list (string * string))
    (title : string) :
  (forall e, In e items -> re.match_ignorecase (fst e) title = false) ->
  first_replacement items title = None.
Proof.
  induction items as [ | [regex replacement] items IH ]; intros Hnone;
    [ reflexivity | ].
  pose proof (Hnone (regex, replacement) (or_introl eq_refl)) as Hno.
  simpl in Hno. simpl. rewrite Hno.
  apply IH. intros e He. apply Hnone. right. exact He.
Qed.

(** A pattern that starts with a character not under a star needs that
    character at the start of the text. *)
Lemma match_here_head (p q : string) (rest text : list string) :
  q <> "*" ->
  re.match_here (p :: q :: rest) text = true ->
  exists t text', text = t :: text' /\ re.char_ignorecase p t = true.
Proof.
  intros Hq Hmatch. simpl in Hmatch.
  apply String.eqb_neq in Hq. rewrite Hq in Hmatch.
  destruct text as [ | t text' ]; [ discriminate | ].
  apply andb_prop in Hmatch as [Hp _]. eauto.
Qed.

Lemma match_ignorecase_head (regex title p q : string) (rest : list string) :
  Str.chars regex = "^" :: p :: q :: rest ->
  q <> "*" ->
  re.match_ignorecase regex title = true ->
  exists t text', Str.chars title = t :: text'
                  /\ re.char_ignorecase p t = true.
Proof.
  intros Hregex Hq Hmatch. unfold re.match_ignorecase in Hmatch.
  rewrite Hregex in Hmatch. simpl in Hmatch.
  exact (match_here_head p q rest _ Hq Hmatch).
Qed.

(** A pattern made of literals followed by [.*] matches the texts that
    start with the literals, character by character and ignoring case. *)
Lemma match_here_literals (literals text : list string) :
  Forall (fun p => p <> "." /\ p <> "*") literals ->
  re.match_here (literals ++ [ "."; "*" ]) text = true
  <-> exists pre rest,
        text = (pre ++ rest)%list
        /\ Forall2 (fun p t => re.literal_ignorecase p t = true) literals pre.
Proof.
  intros Hlit. revert text.
  induction Hlit as [ | p literals [Hdot Hstar] Hlit IH ]; intros text.
  - split.
    + intros _. exists [], text. split; [ reflexivity | constructor ].
    + intros _. destruct text; reflexivity.
  - assert (Hone : re.match_here ((p :: literals) ++ [ "."; "*" ]) text
                   = match text with
                     | t :: text' =>
                         re.literal_ignorecase p t
                         && re.match_here (literals ++ [ "."; "*" ]) text'
                     | [] => false
                     end).
    { simpl. unfold re.char_ignorecase.
      apply String.eqb_neq in Hdot. rewrite Hdot.
      destruct literals as [ | q literals' ]; simpl.
      - reflexivity.
      - inversion Hlit as [ | ? ? [_ Hq] _ ]; subst.
        apply String.eqb_neq in Hq. rewrite Hq. reflexivity. }
    rewrite Hone. split.
    + destruct text as [ | t text' ]; [ discriminate | ].
      intros E. apply andb_prop in E as [Hp Hrest].
      apply IH in Hrest as (pre & rest & -> & Hall).
      exists (t :: pre), rest. split; [ reflexivity | ].
      constructor; assumption.
    + intros (pre & rest & -> & Hall).
      inversion Hall as [ | ? t ? pre' Hp Hall' ]; subst. simpl.
      rewrite Hp. simpl. apply IH. eauto.
Qed.

Lemma literal_characters (literals : list string) :
  forallb (fun p => negb (String.eqb p ".") && negb (String.eqb p "*"))
          literals = true ->
  Forall (fun p => p <> "." /\ p <> "*") literals.
Proof.
  induction literals as [ | p literals IH ]; simpl; intros E;
    constructor.
  - apply andb_prop in E as [E _]. apply andb_prop in E as [Hdot Hstar].
    apply negb_true_iff in Hdot, Hstar.
    apply String.eqb_neq in Hdot, Hstar. tauto.
  - apply IH. apply andb_prop in E as [_ E]. exact E.
Qed.

Lemma match_ignorecase_literals (regex title : string)
    (literals : list string) :
  Str.chars regex = "^" :: (literals ++ [ "."; "*" ])%list ->
  Forall (fun p => p <> "." /\ p <> "*") literals ->
  re.match_ignorecase regex title = true
  <-> exists pre rest,
        Str.chars title = (pre ++ rest)%list
        /\ Forall2 (fun p t => re.literal_ignorecase p t = true) literals pre.
Proof.
  intros Hregex Hlit. unfold re.match_ignorecase. rewrite Hregex.
  change (String.eqb "^" "^") with true. cbv iota.
  apply match_here_literals, Hlit.
Qed.

(** The second pattern of the table excludes the first. *)
Lemma object_injection_not_bracket (title : string) :
  re.match_ignorecase "^Object injection via bracket notation.*" title = true ->
  re.match_ignorecase
    "^Bracket object notation with user input is present.*" title = false.
Proof.
  intros Hobject.
  destruct (re.match_ignorecase
              "^Bracket object notation with user input is present.*" title)
    eqn:Hbracket; [ exfalso | reflexivity ].
  eapply match_ignorecase_head in Hobject as (t & text' & Ht & Ho);
    [ | reflexivity | discriminate ].
  eapply match_ignorecase_head in Hbracket as (t' & text'' & Ht' & Hb);
    [ | reflexivity | discriminate ].
  rewrite Ht in Ht'. injection Ht' as <- _.
  unfold re.char_ignorecase, re.literal_ignorecase in Ho, Hb.
  simpl in Ho, Hb. rewrite !orb_false_r in Ho, Hb.
  apply String.eqb_eq in Ho, Hb. rewrite Ho in Hb.
  vm_compute in Hb. discriminate.
Qed.

(** C7.  The table is read in order and the replacement of the first
    pattern that matches, ignoring case, is returned; a title that matches
    the pattern of ["Object injection via bracket notation"], which is a
    title that starts with that text up to case, becomes
    ["Object injection"]; a title that matches no pattern is returned as it
    is. *)
Theorem normalize_title_first_match (title0 : string) :
  (forall earlier regex replacement later,
     norm = (earlier ++ (regex, replacement) :: later)%list ->
     (forall e, In e earlier -> re.match_ignorecase (fst e) title0 = false) ->
     re.match_ignorecase regex title0 = true ->
     normalize_title (PStr title0) = Ok (PStr replacement))
  /\ (re.match_ignorecase "^Object injection via bracket notation.*" title0
      = true ->
      normalize_title (PStr title0) = Ok (PStr "Object injection"))
  /\ (forall pre rest,
        Str.chars title0 = (pre ++ rest)%list ->
        Forall2 (fun p t => re.literal_ignorecase p t = true)
                (Str.chars "Object injection via bracket notation") pre ->
        normalize_title (PStr title0) = Ok (PStr "Object injection"))
  /\ ((forall e, In e norm -> re.match_ignorecase (fst e) title0 = false) ->
      normalize_title (PStr title0) = Ok (PStr title0)).
Proof.
  assert (Hobject :
            re.match_ignorecase "^Object injection via bracket notation.*"
                                title0 = true ->
            normalize_title (PStr title0) = Ok (PStr "Object injection")).
  { intros Hmatch. unfold normalize_title, norm, first_replacement.
    rewrite (object_injection_not_bracket title0 Hmatch), Hmatch.
    reflexivity. }
  split; [ | split; [ exact Hobject | split ] ].
  - intros earlier regex replacement later Hnorm Hearlier Hmatch.
    unfold normalize_title. rewrite Hnorm.
    rewrite (first_replacement_first_match earlier later regex replacement
               title0 Hearlier Hmatch).
    reflexivity.
  - intros pre rest Hchars Hpre. apply Hobject.
    apply (match_ignorecase_literals
             "^Object injection via bracket notation.*" title0
             (Str.chars "Object injection via bracket notation"));
      [ reflexivity | apply literal_characters; reflexivity | eauto ].
  - intros Hnone. unfold normalize_title.
    rewrite (first_replacement_no_match norm title0 Hnone). reflexivity.
Qed.

Lemma normalize_title_first_match_witness :
  normalize_title (PStr "OBJECT injection via Bracket Notation: obj[key]")
  = Ok (PStr "Object injection")
  /\ normalize_title (PStr "`REF` usage found in component")
     = Ok (PStr "Use of `ref`")
  /\ normalize_title (PStr "SQL injection") = Ok (PStr "SQL injection").
Proof.
  split; [ | split ].
  - apply (proj1 (proj2 (normalize_title_first_match
                           "OBJECT injection via Bracket Notation: obj[key]"))).
    reflexivity.
  - apply (proj1 (normalize_title_first_match "`REF` usage found in component")
             [ ("^Bracket object notation with user input is present.*",
                "Bracket object notation");
               ("^Object injection via bracket notation.*",
                "Object injection") ]
             "^`ref` usage found.*" "Use of `ref`" []).
    + reflexivity.
    + intros e [<- | [<- | []]]; reflexivity.
    + reflexivity.
  - apply (proj2 (proj2 (proj2 (normalize_title_first_match "SQL injection")))).
    intros e [<- | [<- | [<- | []]]]; reflexivity.
Defined.

(** ** The local variables *)

Lemma count_one_changes (locals : Locals) : count_one locals <> locals.
Proof.
  intros E. apply (f_equal num_imported) in E. simpl in E. lia.
Qed.

Lemma add_processed_changes (key : string) (locals : Locals) :
  key ∉ processed locals -> add_processed key locals <> locals.
Proof.
  intros Hnew E. apply (f_equal processed) in E. simpl in E.
  apply Hnew. rewrite <- E. apply elem_of_union_l, elem_of_singleton.
  reflexivity.
Qed.

Lemma count_one_add_processed_changes (key : string) (locals : Locals) :
  count_one (add_processed key locals) <> locals.
Proof.
  intros E. apply (f_equal num_imported) in E. simpl in E. lia.
Qed.

(** ** The source-root gate *)

Lemma in_source_root_marker : in_source_root (PStr "%SRCROOT%") = true.
Proof. reflexivity. Qed.

Lemma in_source_root_upper (v : pyval) :
  in_source_root v = true
  <-> exists s, v = PStr s
                /\ (Str.upper s = "%SRCROOT%" \/ Str.upper s = "SRCROOT").
Proof.
  split.
  - destruct v as [ | b | z | s | items | entries ]; simpl; try discriminate.
    intros E. exists s. split; [ reflexivity | ].
    apply orb_prop in E as [E | E]; apply String.eqb_eq in E; tauto.
  - intros (s & -> & [E | E]); simpl; rewrite E; reflexivity.
Qed.

Lemma get_complex_uriBaseId (artifact_location : pyval) :
  get_complex artifact_location "uriBaseId" (PStr "%SRCROOT%")
  = match get_path artifact_location ["uriBaseId"] with
    | Some v => v
    | None => PStr "%SRCROOT%"
    end.
Proof. reflexivity. Qed.

Section Gate.

Context `{Collaborators}.

Variable project_version0 : ProjectVersion.
Variable user : User.
Variable tool0 : Tool.
Variables message level location : pyval.

Local Abbreviation artifact_location :=
  (get_complex location "physicalLocation.artifactLocation"
               get_complex_default).

Lemma import_location_skipped (locals : Locals) (st : Store) :
  in_source_root
    (get_complex artifact_location "uriBaseId" (PStr "%SRCROOT%")) = false ->
  import_location project_version0 user tool0 message level location
    locals st = (Ok locals, st).
Proof.
  intros Hout. unfold import_location. rewrite Hout. reflexivity.
Qed.

Lemma import_location_entered (locals : Locals) (st : Store) :
  in_source_root
    (get_complex artifact_location "uriBaseId" (PStr "%SRCROOT%")) = true ->
  import_location project_version0 user tool0 message level location
    locals st <> (Ok locals, st).
Proof.
  intros Hin. unfold import_location. rewrite Hin. simpl.
  case_bool_decide as Hnew.
  - unfold bind, lift, ret.
    destruct (get_most_likely_source _ _) as [ [source_file | ] | e ].
    + destruct (normalize_title message) as [ normalized | e ];
        [ | discriminate ].
      unfold Finding_exists.
      destruct (existsb _ _).
      * intros E. injection E as E.
        exact (add_processed_changes _ _ Hnew E).
      * unfold Finding_save. intros E. injection E as E _.
        exact (count_one_add_processed_changes _ _ E).
    + intros E. injection E as E.
      exact (add_processed_changes _ _ Hnew E).
    + discriminate.
  - unfold ret. intros E. injection E as E.
    exact (count_one_changes _ E).
Qed.

End Gate.

(** ** The branches of [import_location] *)

Section Branches.

Context `{Collaborators}.

Variable project_version0 : ProjectVersion.
Variable user : User.
Variable tool0 : Tool.
Variables message level location : pyval.
Variable locals : Locals.
Variable st : Store.

Hypothesis in_root : in_source_root (src_root_of location) = true.

(** A key seen before is counted and nothing else happens. *)
Lemma import_location_repeated :
  key_of message location ∈ processed locals ->
  import_location project_version0 user tool0 message level location
    locals st = (Ok (count_one locals), st).
Proof.
  intros Hseen. pose proof in_root as Hroot.
  unfold src_root_of, artifact_location_of in Hroot.
  unfold key_of, artifact_location_of in Hseen.
  unfold import_location, key_of, artifact_location_of.
  cbv zeta. rewrite Hroot.
  change (negb true) with false. cbv iota.
  rewrite bool_decide_eq_false_2; [ reflexivity | ].
  intros Hnew. exact (Hnew Hseen).
Qed.

Hypothesis new_key : key_of message location ∉ processed locals.

Lemma import_location_new :
  import_location project_version0 user tool0 message level location
    locals st
  = (found <- lift (source_of project_version0 location) ;;
     match found with
     | None => ret (add_processed (key_of message location) locals)
     | Some source_file =>
         normalized <- lift (normalize_title message) ;;
         let finding :=
           finding_of project_version0 user tool0 message level location
                      source_file normalized in
         duplicate <- Finding_exists finding ;;
         if duplicate
         then ret (add_processed (key_of message location) locals)
         else Finding_save finding ;;;
              ret (count_one
                     (add_processed (key_of message location) locals))
     end) st.
Proof.
  pose proof in_root as Hroot. pose proof new_key as Hnew.
  unfold src_root_of, artifact_location_of in Hroot.
  unfold key_of, artifact_location_of in Hnew.
  unfold import_location, source_of, key_of, finding_of,
    artifact_location_of.
  cbv zeta. rewrite Hroot.
  change (negb true) with false. cbv iota.
  rewrite bool_decide_eq_true_2 by exact Hnew. reflexivity.
Qed.

(** A new key whose file is not found is remembered, not counted. *)
Lemma import_location_unresolved :
  source_of project_version0 location = Ok None ->
  import_location project_version0 user tool0 message level location
    locals st
  = (Ok (add_processed (key_of message location) locals), st).
Proof.
  intros Hnone. rewrite import_location_new.
  unfold bind, lift. rewrite Hnone. reflexivity.
Qed.

(** A new key whose finding is stored already is remembered, not
    counted. *)
Lemma import_location_duplicate (source_file : File) (normalized : pyval) :
  source_of project_version0 location = Ok (Some source_file) ->
  normalize_title message = Ok normalized ->
  existsb (same_finding
             (finding_of project_version0 user tool0 message level location
                         source_file normalized))
          (findings st) = true ->
  import_location project_version0 user tool0 message level location
    locals st
  = (Ok (add_processed (key_of message location) locals), st).
Proof.
  intros Hfile Hnorm Hdup. rewrite import_location_new.
  unfold bind, lift, Finding_exists. rewrite Hfile, Hnorm, Hdup.
  reflexivity.
Qed.

(** A new key whose finding is not stored yet is saved and counted. *)
Lemma import_location_saved (source_file : File) (normalized : pyval) :
  source_of project_version0 location = Ok (Some source_file) ->
  normalize_title message = Ok normalized ->
  existsb (same_finding
             (finding_of project_version0 user tool0 message level location
                         source_file normalized))
          (findings st) = false ->
  import_location project_version0 user tool0 message level location
    locals st
  = (Ok (count_one (add_processed (key_of message location) locals)),
     with_finding st
       (finding_of project_version0 user tool0 message level location
                   source_file normalized)).
Proof.
  intros Hfile Hnorm Hdup. rewrite import_location_new.
  unfold bind, lift, Finding_exists. rewrite Hfile, Hnorm, Hdup.
  reflexivity.
Qed.

End Branches.

(** ** Which locations the gate lets through *)

Section SourceRoot.

Context `{Collaborators}.

Variable project_version0 : ProjectVersion.
Variable user : User.
Variable tool0 : Tool.
Variables message level location : pyval.

Local Abbreviation artifact_location :=
  (get_complex location "physicalLocation.artifactLocation"
               get_complex_default).

Lemma in_source_root_neither (v : pyval) :
  in_source_root v = false
  <-> forall s, v = PStr s ->
                Str.upper s <> "%SRCROOT%" /\ Str.upper s <> "SRCROOT".
Proof.
  split.
  - intros Hout s -> .
    split; intros E;
      assert (Hin : in_source_root (PStr s) = true)
        by (apply in_source_root_upper; exists s; tauto);
      congruence.
  - intros Hneither. destruct (in_source_root v) eqn:Hin; [ | reflexivity ].
    apply in_source_root_upper in Hin as (s & -> & Hmarker).
    destruct (Hneither s eq_refl). tauto.
Qed.

Lemma import_location_in_root (locals : Locals) (st : Store) :
  in_source_root (src_root_of location) = true ->
  import_location project_version0 user tool0 message level location
    locals st
  = import_in_root project_version0 user tool0 message level location
      locals st.
Proof.
  intros Hroot. unfold import_in_root. cbv zeta.
  case_bool_decide as Hkey.
  - apply import_location_new; assumption.
  - apply import_location_repeated; [ assumption | ].
    destruct (decide (key_of message location ∈ processed locals));
      tauto.
Qed.

Lemma import_in_root_remembers (locals locals' : Locals) (st st' : Store) :
  import_in_root project_version0 user tool0 message level location
    locals st = (Ok locals', st') ->
  key_of message location ∈ processed locals'.
Proof.
  unfold import_in_root. cbv zeta.
  assert (Hadded : key_of message location
                   ∈ processed (add_processed (key_of message location)
                                              locals))
    by (simpl; apply elem_of_union_l, elem_of_singleton; reflexivity).
  case_bool_decide as Hkey.
  - unfold bind, lift, ret.
    destruct (source_of project_version0 location)
      as [ [source_file | ] | e ].
    + destruct (normalize_title message) as [ normalized | e ];
        [ | discriminate ].
      unfold Finding_exists. destruct (existsb _ _).
      * intros [= <- _]. exact Hadded.
      * unfold Finding_save. intros [= <- _]. exact Hadded.
    + intros [= <- _]. exact Hadded.
    + discriminate.
  - unfold ret. intros [= <- _]. simpl.
    destruct (decide (key_of message location ∈ processed locals));
      tauto.
Qed.

(** C9.  A location is skipped, leaving the local variables and the
    store as they are, exactly when its artifact location carries a
    [uriBaseId] whose text in upper case is neither ["%SRCROOT%"] nor
    ["SRCROOT"].  Without the field the value read is ["%SRCROOT%"].  A
    location without the field, or with one of the two markers in any
    case, is not skipped: it goes through the rest of the loop body, and
    its fingerprint is among the processed ones afterwards. *)
Theorem location_without_uriBaseId_not_skipped
    (locals : Locals) (st : Store) :
  (import_location project_version0 user tool0 message level location
     locals st = (Ok locals, st)
   <-> exists v, get_path artifact_location ["uriBaseId"] = Some v
                 /\ forall s, v = PStr s ->
                              Str.upper s <> "%SRCROOT%"
                              /\ Str.upper s <> "SRCROOT")
  /\ (get_path artifact_location ["uriBaseId"] = None ->
      get_complex artifact_location "uriBaseId" (PStr "%SRCROOT%")
      = PStr "%SRCROOT%")
  /\ (get_path artifact_location ["uriBaseId"] = None
      \/ (exists s, get_path artifact_location ["uriBaseId"] = Some (PStr s)
                    /\ (Str.upper s = "%SRCROOT%"
                        \/ Str.upper s = "SRCROOT")) ->
      import_location project_version0 user tool0 message level location
        locals st <> (Ok locals, st)
      /\ import_location project_version0 user tool0 message level location
           locals st
         = import_in_root project_version0 user tool0 message level location
             locals st
      /\ forall locals' st',
           import_location project_version0 user tool0 message level
             location locals st = (Ok locals', st') ->
           key_of message location ∈ processed locals').
Proof.
  split; [ | split ].
  - split.
    + intros Hskip.
      destruct (in_source_root
                  (get_complex artifact_location "uriBaseId"
                               (PStr "%SRCROOT%"))) eqn:Hroot.
      * exfalso.
        exact (import_location_entered _ _ _ _ _ _ locals st Hroot Hskip).
      * rewrite get_complex_uriBaseId in Hroot.
        destruct (get_path artifact_location ["uriBaseId"]) as [v | ];
          [ | discriminate ].
        exists v. split; [ reflexivity | ].
        apply in_source_root_neither, Hroot.
    + intros (v & Hv & Hout). apply import_location_skipped.
      rewrite get_complex_uriBaseId, Hv.
      apply in_source_root_neither, Hout.
  - intros Hmissing. rewrite get_complex_uriBaseId, Hmissing. reflexivity.
  - intros Hinside.
    assert (Hroot : in_source_root (src_root_of location) = true).
    { unfold src_root_of, artifact_location_of.
      rewrite get_complex_uriBaseId.
      destruct Hinside as [-> | (s & -> & Hmarker)]; [ reflexivity | ].
      apply in_source_root_upper. exists s. tauto. }
    split; [ | split ].
    + apply import_location_entered. exact Hroot.
    + apply import_location_in_root, Hroot.
    + intros locals' st'. rewrite (import_location_in_root _ _ Hroot).
      apply import_in_root_remembers.
Qed.

End SourceRoot.

Lemma location_without_uriBaseId_not_skipped_witness :
  (get_path (get_complex (location_at "b/index.js" 3)
                         "physicalLocation.artifactLocation" (PStr ""))
            ["uriBaseId"] = None
   /\ import_location sample_version alice scanner (PStr "Buffer overflow")
        (PStr "warning") (location_at "b/index.js" 3) fresh_locals
        sample_store
      <> (Ok fresh_locals, sample_store)
   /\ findings
        (snd (import_location sample_version alice scanner
                (PStr "Buffer overflow") (PStr "warning")
                (location_at "b/index.js" 3) fresh_locals sample_store))
      = [ finding_of sample_version alice scanner (PStr "Buffer overflow")
            (PStr "warning") (location_at "b/index.js" 3) index_b
            (PStr "Buffer overflow") ])
  /\ (in_source_root (PStr "%TMP%") = false
      /\ import_location sample_version alice scanner
           (PStr "Buffer overflow") (PStr "warning")
           (location_under "%TMP%" "b/index.js" 3) fresh_locals sample_store
         = (Ok fresh_locals, sample_store))
  /\ (in_source_root (PStr "srcroot") = true
      /\ import_location sample_version alice scanner
           (PStr "Buffer overflow") (PStr "warning")
           (location_under "srcroot" "b/index.js" 3) fresh_locals
           sample_store
         <> (Ok fresh_locals, sample_store)
      /\ findings
           (snd (import_location sample_version alice scanner
                   (PStr "Buffer overflow") (PStr "warning")
                   (location_under "srcroot" "b/index.js" 3) fresh_locals
                   sample_store))
         = [ finding_of sample_version alice scanner
               (PStr "Buffer overflow") (PStr "warning")
               (location_under "srcroot" "b/index.js" 3) index_b
               (PStr "Buffer overflow") ])
  /\ (in_source_root (PStr "%SrcRoot%") = true
      /\ import_location sample_version alice scanner
           (PStr "Buffer overflow") (PStr "warning")
           (location_under "%SrcRoot%" "b/index.js" 3) fresh_locals
           sample_store
         <> (Ok fresh_locals, sample_store)).
Proof.
  split; [ | split; [ | split ] ].
  - split; [ reflexivity | split; [ | reflexivity ] ].
    apply (proj2 (proj2 (location_without_uriBaseId_not_skipped
                           (H := sample_collaborators) sample_version alice
                           scanner (PStr "Buffer overflow") (PStr "warning")
                           (location_at "b/index.js" 3) fresh_locals
                           sample_store))).
    left. reflexivity.
  - split; [ reflexivity | ].
    apply (proj1 (location_without_uriBaseId_not_skipped
                    (H := sample_collaborators) sample_version alice
                    scanner (PStr "Buffer overflow") (PStr "warning")
                    (location_under "%TMP%" "b/index.js" 3) fresh_locals
                    sample_store)).
    exists (PStr "%TMP%"). split; [ reflexivity | ].
    intros s [= <-]. split; discriminate.
  - split; [ reflexivity | split; [ | reflexivity ] ].
    apply (proj2 (proj2 (location_without_uriBaseId_not_skipped
                           (H := sample_collaborators) sample_version alice
                           scanner (PStr "Buffer overflow") (PStr "warning")
                           (location_under "srcroot" "b/index.js" 3)
                           fresh_locals sample_store))).
    right. exists "srcroot". split; [ reflexivity | right; reflexivity ].
  - split; [ reflexivity | ].
    apply (proj2 (proj2 (location_without_uriBaseId_not_skipped
                           (H := sample_collaborators) sample_version alice
                           scanner (PStr "Buffer overflow") (PStr "warning")
                           (location_under "%SrcRoot%" "b/index.js" 3)
                           fresh_locals sample_store))).
    right. exists "%SrcRoot%". split; [ reflexivity | left; reflexivity ].
Defined.

(** ** Running the loops *)

Section Running.

Context `{Collaborators}.

Lemma bind_ok {A B} (c : M A) (k : A -> M B) (st st' : Store) (a : A) :
  c st = (Ok a, st') -> bind c k st = k a st'.
Proof. intros E. unfold bind. rewrite E. reflexivity. Qed.

Lemma bind_raise {A B} (c : M A) (k : A -> M B) (st st' : Store) (e : exn) :
  c st = (Raise e, st') -> bind c k st = (Raise e, st').
Proof. intros E. unfold bind. rewrite E. reflexivity. Qed.

Lemma for_each_two {X A} (x y : X) (body : X -> A -> M A) (acc acc' acc'' : A)
    (st st' st'' : Store) :
  body x acc st = (Ok acc', st') ->
  body y acc' st' = (Ok acc'', st'') ->
  for_each [x; y] body acc st = (Ok acc'', st'').
Proof.
  intros Ex Ey. simpl.
  rewrite (bind_ok _ _ _ _ _ Ex), (bind_ok _ _ _ _ _ Ey). reflexivity.
Qed.

Lemma for_each_one {X A} (x : X) (body : X -> A -> M A) (acc acc' : A)
    (st st' : Store) :
  body x acc st = (Ok acc', st') ->
  for_each [x] body acc st = (Ok acc', st').
Proof. intros Ex. simpl. rewrite (bind_ok _ _ _ _ _ Ex). reflexivity. Qed.

(** A result that is a dict with iterable locations runs the location
    loop. *)
Lemma import_result_locations (project_version0 : ProjectVersion)
    (user : User) (tool0 : Tool) (entries : list (string * pyval))
    (locations : list pyval) (locals : Locals) (st : Store) :
  py_iter (get_complex (PDict entries) "locations" get_complex_default)
  = Ok locations ->
  import_result project_version0 user tool0 (PDict entries) locals st
  = for_each locations
      (import_location project_version0 user tool0
         (get_complex (PDict entries) "message.text" get_complex_default)
         (get_complex (PDict entries) "level" get_complex_default))
      locals st.
Proof.
  intros Hlocations. unfold import_result, dict_get.
  unfold bind at 1, lift at 1.
  unfold bind at 1, lift at 1. rewrite Hlocations. reflexivity.
Qed.

(** A run that is a dict with iterable rules and results runs the result
    loop with its tool. *)
Lemma import_run_results (project_version0 : ProjectVersion) (user : User)
    (entries : list (string * pyval)) (tool0 : Tool)
    (rules results : list pyval) (map0 : list (pyval * pyval))
    (locals : Locals) (st st' : Store) :
  Tool_get_or_create
    (get_complex (PDict entries) "tool.driver.name" get_complex_default)
    (get_complex (PDict entries) "tool.driver.version" get_complex_default)
    user st = (Ok tool0, st') ->
  py_iter (get_complex (PDict entries) "tool.driver.rules"
                       get_complex_default) = Ok rules ->
  rule_descriptions get_complex_default rules [] = Ok map0 ->
  py_iter (match lookup_key "results" entries with
           | Some v => v
           | None => PList []
           end) = Ok results ->
  import_run project_version0 user (PDict entries) locals st
  = for_each results (import_result project_version0 user tool0) locals st'.
Proof.
  intros Htool Hrules Hmap Hresults. unfold import_run.
  rewrite (bind_ok _ _ _ _ _ Htool).
  unfold bind at 1, lift at 1. rewrite Hrules.
  unfold bind at 1, lift at 1. rewrite Hmap.
  unfold bind at 1, lift at 1, dict_get.
  unfold bind at 1, lift at 1. rewrite Hresults. reflexivity.
Qed.

(** A log of version 2.1.0 without assertion data, for a given project
    version and user, runs the run loop and reports the counter. *)
Lemma import_sarif_file_runs (entries : list (string * pyval))
    (project_version0 : ProjectVersion) (user : User) (runs : list pyval)
    (st : Store) :
  lookup_key "version" entries = Some (PStr "2.1.0") ->
  lookup_key "assertion_data" entries = None ->
  py_iter (match lookup_key "runs" entries with
           | Some v => v
           | None => PList []
           end) = Ok runs ->
  import_sarif_file (PDict entries) (Some project_version0) (Some user) st
  = (locals <- for_each runs (import_run project_version0 user)
                 fresh_locals ;;
     ret (negb (Nat.eqb (num_imported locals) 0))) st.
Proof.
  intros Hversion Hassertion Hruns. unfold import_sarif_file.
  rewrite Hversion. simpl pyval_eqb. simpl negb. cbv iota.
  unfold bind at 1, ret at 1.
  unfold bind at 1, lift at 1, dict_get. rewrite Hassertion.
  unfold bind at 1, ret at 1.
  unfold bind at 1, lift at 1.
  unfold bind at 1, lift at 1. rewrite Hruns. reflexivity.
Qed.

End Running.

(** ** What the computations leave in the store *)

Section Frames.

Context `{Collaborators}.

Lemma covers_refl (rows : list Finding) : covers rows rows.
Proof. intros finding E. exact E. Qed.

Lemma covers_trans (rows1 rows2 rows3 : list Finding) :
  covers rows1 rows2 -> covers rows2 rows3 -> covers rows1 rows3.
Proof. intros H12 H23 finding E. apply H12, H23, E. Qed.

Lemma covers_saved (rows : list Finding) (finding : Finding) :
  covers (rows ++ [finding]) rows.
Proof.
  intros finding' E. rewrite existsb_app, E. reflexivity.
Qed.

Lemma same_finding_refl (finding : Finding) :
  same_finding finding finding = true.
Proof.
  unfold same_finding. rewrite !pyval_eqb_refl, !Z.eqb_refl. reflexivity.
Qed.

Lemma saved_is_found (rows : list Finding) (finding : Finding) :
  existsb (same_finding finding) (rows ++ [finding]) = true.
Proof.
  rewrite existsb_app. simpl. rewrite same_finding_refl.
  rewrite orb_true_r. reflexivity.
Qed.

(** *** Computations that lose no finding *)

Lemma keeps_grows {A} (c : M A) : keeps c -> grows c.
Proof.
  intros Hc st. destruct (Hc st) as [Hu Hf].
  split; [ exact Hu | ]. rewrite Hf. apply covers_refl.
Qed.

Lemma keeps_ret {A} (a : A) : keeps (ret a).
Proof. intros st. split; reflexivity. Qed.

Lemma keeps_lift {A} (r : Result A) : keeps (lift r).
Proof. intros st. split; reflexivity. Qed.

Lemma keeps_bind {A B} (c : M A) (k : A -> M B) :
  keeps c -> (forall a, keeps (k a)) -> keeps (bind c k).
Proof.
  intros Hc Hk st. unfold bind.
  destruct (Hc st) as [Hu Hf].
  destruct (c st) as [ [a | e] st0 ]; simpl in *.
  - destruct (Hk a st0) as [Hu' Hf']. split; congruence.
  - split; assumption.
Qed.

Lemma keeps_for_each {X A} (xs : list X) (body : X -> A -> M A) (acc : A) :
  (forall x a, keeps (body x a)) -> keeps (for_each xs body acc).
Proof.
  intros Hbody. revert acc.
  induction xs as [ | x xs IH ]; intros acc; simpl.
  - apply keeps_ret.
  - apply keeps_bind; [ apply Hbody | exact IH ].
Qed.

Lemma keeps_catch {A} (c : M A) (fallback : A) :
  keeps c -> keeps (catch c fallback).
Proof.
  intros Hc st. unfold catch. destruct (Hc st) as [Hu Hf].
  destruct (c st) as [ [a | e] st0 ]; split; assumption.
Qed.

Lemma keeps_User_get (id : Z) : keeps (User_get id).
Proof.
  intros st. unfold User_get. destruct (find _ _); split; reflexivity.
Qed.

Lemma keeps_Tool_get_or_create (name version : pyval) (user : User) :
  keeps (Tool_get_or_create name version user).
Proof.
  intros st. unfold Tool_get_or_create.
  destruct (find _ _); split; reflexivity.
Qed.

Lemma keeps_Finding_exists (finding : Finding) :
  keeps (Finding_exists finding).
Proof. intros st. split; reflexivity. Qed.

Lemma keeps_add_assertion (assertion_data : pyval) :
  keeps (add_assertion assertion_data).
Proof.
  unfold add_assertion, add_assertion_try. apply keeps_catch.
  repeat first
    [ apply keeps_ret
    | apply keeps_lift
    | apply keeps_for_each; intros ? ?
    | apply keeps_bind; [ | intros ? ]
    | (intros st; split; reflexivity) ].
Qed.

Lemma grows_bind {A B} (c : M A) (k : A -> M B) :
  grows c -> (forall a, grows (k a)) -> grows (bind c k).
Proof.
  intros Hc Hk st. unfold bind.
  destruct (Hc st) as [Hu Hf].
  destruct (c st) as [ [a | e] st0 ]; simpl in *.
  - destruct (Hk a st0) as [Hu' Hf'].
    split; [ congruence | ].
    exact (covers_trans _ _ _ Hf' Hf).
  - split; assumption.
Qed.

Lemma grows_for_each {X A} (xs : list X) (body : X -> A -> M A) (acc : A) :
  (forall x a, grows (body x a)) -> grows (for_each xs body acc).
Proof.
  intros Hbody. revert acc.
  induction xs as [ | x xs IH ]; intros acc; simpl.
  - apply keeps_grows, keeps_ret.
  - apply grows_bind; [ apply Hbody | exact IH ].
Qed.

Lemma grows_Finding_save (finding : Finding) : grows (Finding_save finding).
Proof.
  intros st. split; [ reflexivity | ]. simpl. apply covers_saved.
Qed.

End Frames.

(** One step of a proof that a computation loses no finding. *)
Ltac grows_step :=
  first
    [ apply keeps_grows, keeps_ret
    | apply keeps_grows, keeps_lift
    | apply keeps_grows, keeps_Finding_exists
    | apply keeps_grows, keeps_Tool_get_or_create
    | apply keeps_grows, keeps_User_get
    | apply keeps_grows, keeps_add_assertion
    | apply grows_Finding_save
    | apply grows_bind; [ | intros ? ]
    | match goal with
      | |- grows (if ?b then _ else _) => destruct b
      | |- grows (match ?x with _ => _ end) => destruct x
      end ].

Section Growth.

Context `{Collaborators}.

Lemma grows_import_location (project_version0 : ProjectVersion)
    (user : User) (tool0 : Tool) (message level location : pyval)
    (locals : Locals) :
  grows (import_location project_version0 user tool0 message level location
                         locals).
Proof. unfold import_location. repeat grows_step. Qed.

Lemma grows_import_result (project_version0 : ProjectVersion)
    (user : User) (tool0 : Tool) (result : pyval) (locals : Locals) :
  grows (import_result project_version0 user tool0 result locals).
Proof.
  unfold import_result. repeat grows_step.
  apply grows_for_each. intros location locals'.
  apply grows_import_location.
Qed.

Lemma grows_import_run (project_version0 : ProjectVersion) (user : User)
    (run : pyval) (locals : Locals) :
  grows (import_run project_version0 user run locals).
Proof.
  unfold import_run. repeat grows_step.
  apply grows_for_each. intros result locals'.
  apply grows_import_result.
Qed.

Lemma grows_import_sarif_file (sarif : pyval)
    (project_version0 : option ProjectVersion) (user : option User) :
  grows (import_sarif_file sarif project_version0 user).
Proof.
  unfold import_sarif_file, raise.
  destruct sarif; try (intros st; split; [ reflexivity | apply covers_refl ]).
  destruct (negb _);
    [ intros st; split; [ reflexivity | apply covers_refl ] | ].
  destruct project_version0 as [pv | ];
    [ | intros st; split; [ reflexivity | apply covers_refl ] ].
  apply grows_bind; [ destruct user; grows_step | intros user' ].
  apply grows_bind; [ grows_step | intros assertion_data ].
  apply grows_bind; [ destruct assertion_data; grows_step | intros _ ].
  apply grows_bind; [ grows_step | intros runs ].
  apply grows_bind; [ grows_step | intros runs' ].
  apply grows_bind; [ | intros locals; grows_step ].
  apply grows_for_each. intros run locals. apply grows_import_run.
Qed.

End Growth.

(** ** The counter of [import_sarif_file] *)

(** C1 at a failing input.  One result reports twice the same place in a
    file that the project version does not have: the first location is
    dropped, the second is counted as a repeat, and the call returns [True]
    with no finding saved. *)
Theorem import_true_without_new_finding `{Collaborators} :
  import_sarif_file twice_unresolved (Some sample_version) (Some alice)
    (store_of [alice] [])
  = (Ok true,
     {| users := [alice];
        tools := [scanner];
        findings := [];
        assertion_packages := [];
        assertions := [] |}).
Proof.
  unfold twice_unresolved, document_with.
  erewrite import_sarif_file_runs;
    [ | reflexivity | reflexivity | reflexivity ].
  erewrite bind_ok; cycle 1.
  { apply for_each_one.
    erewrite import_run_results;
      [ | reflexivity | reflexivity | reflexivity | reflexivity ].
    apply for_each_one. unfold result_with.
    erewrite import_result_locations; [ | reflexivity ].
    eapply for_each_two.
    - apply import_location_unresolved.
      + reflexivity.
      + apply not_elem_of_empty.
      + reflexivity.
    - apply import_location_repeated.
      + reflexivity.
      + apply elem_of_union_l, elem_of_singleton. reflexivity. }
  reflexivity.
Qed.

Section Counter.

Context `{Collaborators}.

Lemma counts_ret (locals locals' : Locals) :
  num_imported locals' = num_imported locals -> counts locals (ret locals').
Proof.
  intros E st l st' Hret. injection Hret as <- <-.
  split; [ lia | reflexivity ].
Qed.

Lemma counts_for_each {X} (xs : list X) (body : X -> Locals -> M Locals)
    (locals : Locals) :
  (forall x l, counts l (body x l)) ->
  counts locals (for_each xs body locals).
Proof.
  intros Hbody. revert locals.
  induction xs as [ | x xs IH ]; intros locals; simpl.
  - apply counts_ret. reflexivity.
  - intros st locals' st' E. unfold bind in E.
    destruct (body x locals st) as [ [l1 | e] st1 ] eqn:Ebody;
      [ | discriminate ].
    destruct (Hbody x locals st l1 st1 Ebody) as [Hle1 Hsame1].
    destruct (IH l1 st1 locals' st' E) as [Hle2 Hsame2].
    split; [ lia | ].
    intros Heq. rewrite Hsame2 by lia. apply Hsame1. lia.
Qed.

Lemma counts_import_location (project_version0 : ProjectVersion)
    (user : User) (tool0 : Tool) (message level location : pyval)
    (locals : Locals) :
  counts locals
    (import_location project_version0 user tool0 message level location
                     locals).
Proof.
  unfold import_location.
  destruct (negb _); [ apply counts_ret; reflexivity | ].
  case_bool_decide.
  - intros st locals' st'. unfold bind, lift, ret, Finding_exists.
    destruct (get_most_likely_source _ _) as [ [source_file | ] | e ];
      [ | | discriminate ].
    + destruct (normalize_title message) as [ normalized | e ];
        [ | discriminate ].
      destruct (existsb _ _); unfold Finding_save; intros E;
        injection E as <- <-; simpl; split; try lia; try reflexivity.
    + intros E. injection E as <- <-. simpl. split; [ lia | reflexivity ].
  - intros st locals' st' E. injection E as <- <-. simpl.
    split; [ lia | lia ].
Qed.

Lemma counts_import_result (project_version0 : ProjectVersion)
    (user : User) (tool0 : Tool) (result : pyval) (locals : Locals) :
  counts locals (import_result project_version0 user tool0 result locals).
Proof.
  unfold import_result. intros st locals' st'. unfold bind at 1, lift at 1.
  destruct (dict_get result "ruleId" PNone); [ | discriminate ].
  unfold bind at 1, lift at 1.
  destruct (py_iter _) as [ locations | e ]; [ | discriminate ].
  apply counts_for_each. intros location l. apply counts_import_location.
Qed.

Lemma counts_import_run (project_version0 : ProjectVersion) (user : User)
    (run : pyval) (locals : Locals) :
  counts locals (import_run project_version0 user run locals).
Proof.
  unfold import_run. intros st locals' st'. unfold bind at 1.
  destruct (keeps_Tool_get_or_create
              (get_complex run "tool.driver.name" get_complex_default)
              (get_complex run "tool.driver.version" get_complex_default)
              user st) as [_ Hf].
  destruct (Tool_get_or_create _ _ user st) as [ [tool0 | e] st0 ];
    [ | discriminate ].
  simpl in Hf. rewrite <- Hf.
  unfold bind at 1, lift at 1.
  destruct (py_iter _) as [ rules | e ]; [ | discriminate ].
  unfold bind at 1, lift at 1.
  destruct (rule_descriptions _ _ _) as [ map0 | e ]; [ | discriminate ].
  unfold bind at 1, lift at 1.
  destruct (dict_get run "results" _) as [ results | e ]; [ | discriminate ].
  unfold bind at 1, lift at 1.
  destruct (py_iter results) as [ results' | e ]; [ | discriminate ].
  apply counts_for_each. intros result l. apply counts_import_result.
Qed.

(** X15.  A call that returns [False] has saved no finding. *)
Lemma import_false_saves_nothing (sarif : pyval)
    (project_version0 : option ProjectVersion) (user : option User)
    (st st' : Store) :
  import_sarif_file sarif project_version0 user st = (Ok false, st') ->
  findings st' = findings st.
Proof.
  unfold import_sarif_file, raise.
  destruct sarif as [ | b | z | s | items | entries ]; try discriminate.
  destruct (negb _); [ discriminate | ].
  destruct project_version0 as [pv | ]; [ | discriminate ].
  unfold bind at 1.
  assert (Huser : keeps (match user with
                         | Some user0 => ret user0
                         | None => User_get 1
                         end))
    by (destruct user; [ apply keeps_ret | apply keeps_User_get ]).
  destruct (Huser st) as [_ Hf1].
  destruct (match user with Some user0 => ret user0 | None => User_get 1 end
              st) as [ [user' | e] st1 ]; [ | discriminate ].
  simpl in Hf1. rewrite <- Hf1.
  unfold bind at 1, lift at 1, dict_get.
  unfold bind at 1.
  set (assertion_data := match lookup_key "assertion_data" entries with
                         | Some x => x
                         | None => PNone
                         end).
  assert (Hassertion : keeps (match assertion_data with
                              | PNone => ret false
                              | _ => add_assertion assertion_data
                              end))
    by (destruct assertion_data;
        first [ apply keeps_ret | apply keeps_add_assertion ]).
  destruct (Hassertion st1) as [_ Hf2].
  destruct (match assertion_data with
            | PNone => ret false
            | _ => add_assertion assertion_data
            end st1) as [ [done | e] st2 ]; [ | discriminate ].
  simpl in Hf2. rewrite <- Hf2.
  unfold bind at 1, lift at 1.
  unfold bind at 1, lift at 1.
  destruct (py_iter _) as [ runs | e ]; [ | discriminate ].
  unfold bind at 1.
  destruct (for_each runs (import_run pv user')
              {| num_imported := 0; processed := ∅ |} st2)
    as [ [locals | e] st3 ] eqn:Eruns; [ | discriminate ].
  destruct (counts_for_each runs (import_run pv user')
              {| num_imported := 0; processed := ∅ |}
              (fun run l => counts_import_run pv user' run l)
              st2 locals st3 Eruns) as [_ Hsame].
  unfold ret. intros E. injection E as Hzero <-.
  apply Hsame. simpl.
  destruct (num_imported locals); [ reflexivity | discriminate ].
Qed.

End Counter.

(** ** Titles and deduplication *)

Section Titles.

Context `{Collaborators}.

Lemma Tool_get_or_create_keeps (name version : pyval) (user : User)
    (st : Store) :
  exists tool0 st',
    Tool_get_or_create name version user st = (Ok tool0, st')
    /\ users st' = users st /\ findings st' = findings st.
Proof.
  unfold Tool_get_or_create.
  destruct (find (same_tool name version) (tools st)) as [t | ];
    eexists _, _; split; try reflexivity; split; reflexivity.
Qed.

Lemma same_finding_stored_as (project_version0 : ProjectVersion)
    (user : User) (tool0 : Tool) (message level location : pyval)
    (source_file : File) (normalized : pyval) (row : Finding) :
  same_finding
    (finding_of project_version0 user tool0 message level location
                source_file normalized) row
  = stored_as message source_file
      (get_complex location "physicalLocation.region.startLine" PNone)
      project_version0 row.
Proof. reflexivity. Qed.

(** What [import_location] does with a location under the source root
    whose file is found. *)
Lemma import_location_decided (project_version0 : ProjectVersion)
    (user : User) (tool0 : Tool) (message level location : pyval)
    (source_file : File) (normalized : pyval) (locals : Locals)
    (st : Store) :
  in_source_root (src_root_of location) = true ->
  source_of project_version0 location = Ok (Some source_file) ->
  normalize_title message = Ok normalized ->
  import_location project_version0 user tool0 message level location
    locals st
  = if bool_decide (key_of message location ∈ processed locals)
    then (Ok (count_one locals), st)
    else if existsb
              (stored_as message source_file
                 (get_complex location "physicalLocation.region.startLine"
                              PNone)
                 project_version0)
              (findings st)
         then (Ok (add_processed (key_of message location) locals), st)
         else (Ok (count_one
                     (add_processed (key_of message location) locals)),
               with_finding st
                 (finding_of project_version0 user tool0 message level
                             location source_file normalized)).
Proof.
  intros Hroot Hfile Hnorm. case_bool_decide as Hkey.
  - apply import_location_repeated; assumption.
  - destruct (existsb _ (findings st)) eqn:Hstored.
    + apply import_location_duplicate
        with (source_file := source_file) (normalized := normalized);
        assumption.
    + apply import_location_saved; assumption.
Qed.

Lemma stored_as_other_title (message : pyval) (source_file : File)
    (line : pyval) (project_version0 : ProjectVersion) (row : Finding) :
  title row <> message ->
  stored_as message source_file line project_version0 row = false.
Proof.
  intros Hne. unfold stored_as. rewrite (pyval_eqb_neq _ _ Hne).
  reflexivity.
Qed.

(** A log with two results at one place, under two titles, in a file
    that is found: each is saved unless a row with its own title, that
    file, that line and the project version is stored. *)
Lemma two_titles_imported (title1 title2 uri : string) (line : Z)
    (project_version0 : ProjectVersion) (user : User) (source_file : File)
    (st : Store) :
  title1 <> title2 ->
  normalize_title (PStr title1) = normalize_title (PStr title2) ->
  dedup_key (PStr title1) (PStr uri) (PInt line)
  <> dedup_key (PStr title2) (PStr uri) (PInt line) ->
  get_most_likely_source project_version0 (normalize_file_path (PStr uri))
  = Ok (Some source_file) ->
  exists st' finding1 finding2,
    import_sarif_file (two_titles title1 title2 uri line)
      (Some project_version0) (Some user) st
    = (Ok (negb (existsb (stored_as (PStr title1) source_file (PInt line)
                            project_version0) (findings st)
                 && existsb (stored_as (PStr title2) source_file (PInt line)
                               project_version0) (findings st))),
       st')
    /\ findings st'
       = (findings st
          ++ (if existsb (stored_as (PStr title1) source_file (PInt line)
                            project_version0) (findings st)
              then [] else [finding1])
          ++ (if existsb (stored_as (PStr title2) source_file (PInt line)
                            project_version0) (findings st)
              then [] else [finding2]))%list
    /\ title finding1 = PStr title1
    /\ title finding2 = PStr title2
    /\ Ok (normalized_title finding1) = normalize_title (PStr title1)
    /\ normalized_title finding1 = normalized_title finding2.
Proof.
  intros Htitles Hnorm Hkeys Hfile.
  destruct (Tool_get_or_create_keeps (PStr "scanner") (PStr "1.0") user st)
    as (tool0 & st0 & Htool & _ & Hfindings0).
  assert (exists n1, normalize_title (PStr title1) = Ok (PStr n1))
    as [n1 Hn1] by (eexists; reflexivity).
  assert (Hn2 : normalize_title (PStr title2) = Ok (PStr n1))
    by (rewrite <- Hnorm; exact Hn1).
  set (finding1 := finding_of project_version0 user tool0 (PStr title1)
                     (PStr "warning") (location_at uri line) source_file
                     (PStr n1)).
  set (finding2 := finding_of project_version0 user tool0 (PStr title2)
                     (PStr "warning") (location_at uri line) source_file
                     (PStr n1)).
  set (key1 := key_of (PStr title1) (location_at uri line)).
  set (key2 := key_of (PStr title2) (location_at uri line)).
  set (stored1 := existsb (stored_as (PStr title1) source_file (PInt line)
                             project_version0) (findings st)).
  set (stored2 := existsb (stored_as (PStr title2) source_file (PInt line)
                             project_version0) (findings st)).
  set (locals1 := if stored1 then add_processed key1 fresh_locals
                  else count_one (add_processed key1 fresh_locals)).
  set (st1 := if stored1 then st0 else with_finding st0 finding1).
  set (locals2 := if stored2 then add_processed key2 locals1
                  else count_one (add_processed key2 locals1)).
  set (st2 := if stored2 then st1 else with_finding st1 finding2).
  assert (Hfirst :
            import_location project_version0 user tool0 (PStr title1)
              (PStr "warning") (location_at uri line) fresh_locals st0
            = (Ok locals1, st1)).
  { rewrite (import_location_decided _ _ _ _ _ _ source_file (PStr n1));
      [ | reflexivity | exact Hfile | exact Hn1 ].
    rewrite bool_decide_eq_false_2 by apply not_elem_of_empty.
    rewrite Hfindings0.
    change (existsb _ (findings st)) with stored1.
    unfold locals1, st1. destruct stored1; reflexivity. }
  assert (Hprocessed : processed locals1 = {[ key1 ]} ∪ ∅)
    by (unfold locals1; destruct stored1; reflexivity).
  assert (Hfindings1 :
            existsb (stored_as (PStr title2) source_file (PInt line)
                       project_version0) (findings st1) = stored2).
  { unfold st1. destruct stored1; simpl; rewrite Hfindings0;
      [ reflexivity | ].
    rewrite existsb_app. simpl. rewrite orb_false_r.
    rewrite stored_as_other_title; [ apply orb_false_r | ].
    simpl. intros E. injection E as E. exact (Htitles E). }
  assert (Hsecond :
            import_location project_version0 user tool0 (PStr title2)
              (PStr "warning") (location_at uri line) locals1 st1
            = (Ok locals2, st2)).
  { rewrite (import_location_decided _ _ _ _ _ _ source_file (PStr n1));
      [ | reflexivity | exact Hfile | exact Hn2 ].
    rewrite bool_decide_eq_false_2; cycle 1.
    { rewrite Hprocessed. intros Hin.
      apply elem_of_union in Hin as [Hin | Hin].
      - apply elem_of_singleton in Hin. apply Hkeys. symmetry. exact Hin.
      - exact (not_elem_of_empty _ Hin). }
    change (get_complex (location_at uri line)
              "physicalLocation.region.startLine" PNone) with (PInt line).
    rewrite Hfindings1.
    unfold locals2, st2. destruct stored2; reflexivity. }
  exists st2, finding1, finding2.
  split; [ | split; [ | split; [ | split; [ | split ] ] ] ];
    try reflexivity.
  - unfold two_titles, document_with.
    erewrite import_sarif_file_runs;
      [ | reflexivity | reflexivity | reflexivity ].
    erewrite bind_ok; cycle 1.
    { apply for_each_one.
      erewrite import_run_results;
        [ | exact Htool | reflexivity | reflexivity | reflexivity ].
      unfold result_with. eapply for_each_two.
      - erewrite import_result_locations; [ | reflexivity ].
        apply for_each_one. exact Hfirst.
      - erewrite import_result_locations; [ | reflexivity ].
        apply for_each_one. exact Hsecond. }
    unfold ret, locals2, locals1.
    destruct stored1, stored2; reflexivity.
  - unfold st2, st1.
    destruct stored1, stored2; simpl; rewrite Hfindings0;
      rewrite ?app_nil_r, <- ?app_assoc; reflexivity.
  - symmetry. exact Hn1.
Qed.

(** C10.  Title normalisation has no part in deduplication.  For every
    location under the source root whose file is found, the fingerprint
    is the digest of the reported title, the uri and the line; a
    fingerprint seen before is only counted; otherwise the finding is
    saved exactly when no stored row has the reported title, the file,
    the line and the project version, whatever the normalised titles of
    the stored rows are.  The saved finding keeps the reported title, and
    the normalised title fills [normalized_title] and nothing else.  So of
    two results at one place whose reported titles differ and normalise
    to one title, each is saved unless a row with its own reported title
    is stored there. *)
Theorem distinct_titles_both_persisted :
  (forall (project_version0 : ProjectVersion) (user : User) (tool0 : Tool)
          (message level location : pyval) (source_file : File)
          (normalized : pyval) (locals : Locals) (st : Store),
     let uri :=
       get_complex (artifact_location_of location) "uri"
                   get_complex_default in
     let key :=
       sha256 (json_dumps
                 (PDict [ ("title", message);
                          ("path", uri);
                          ("line_number",
                           get_complex location
                             "physicalLocation.region.startLine"
                             get_complex_default) ])) in
     let line :=
       get_complex location "physicalLocation.region.startLine" PNone in
     let finding :=
       finding_of project_version0 user tool0 message level location
                  source_file normalized in
     in_source_root (src_root_of location) = true ->
     get_most_likely_source project_version0 (normalize_file_path uri)
     = Ok (Some source_file) ->
     normalize_title message = Ok normalized ->
     title finding = message
     /\ normalized_title finding = normalized
     /\ (forall other : pyval,
           finding_of project_version0 user tool0 message level location
                      source_file other
           = {| title := message;
                normalized_title := other;
                state := state finding;
                file := file finding;
                tool := tool finding;
                project_version := project_version finding;
                file_line := file_line finding;
                severity_level := severity_level finding;
                analyst_severity_level := analyst_severity_level finding;
                confidence := confidence finding;
                created_by := created_by finding;
                updated_by := updated_by finding |})
     /\ import_location project_version0 user tool0 message level location
          locals st
        = if bool_decide (key ∈ processed locals)
          then (Ok (count_one locals), st)
          else if existsb (fun row =>
                             pyval_eqb (title row) message
                             && Z.eqb (file_id (file row))
                                      (file_id source_file)
                             && pyval_eqb (file_line row) line
                             && Z.eqb (project_version_id
                                         (project_version row))
                                      (project_version_id project_version0))
                          (findings st)
               then (Ok (add_processed key locals), st)
               else (Ok (count_one (add_processed key locals)),
                     with_finding st finding))
  /\ (forall (title1 title2 uri : string) (line : Z)
             (project_version0 : ProjectVersion) (user : User)
             (source_file : File) (st : Store),
        title1 <> title2 ->
        normalize_title (PStr title1) = normalize_title (PStr title2) ->
        dedup_key (PStr title1) (PStr uri) (PInt line)
        <> dedup_key (PStr title2) (PStr uri) (PInt line) ->
        get_most_likely_source project_version0
          (normalize_file_path (PStr uri)) = Ok (Some source_file) ->
        exists st' finding1 finding2,
          import_sarif_file (two_titles title1 title2 uri line)
            (Some project_version0) (Some user) st
          = (Ok (negb (existsb (stored_as (PStr title1) source_file
                                  (PInt line) project_version0)
                         (findings st)
                       && existsb (stored_as (PStr title2) source_file
                                     (PInt line) project_version0)
                            (findings st))),
             st')
          /\ findings st'
             = (findings st
                ++ (if existsb (stored_as (PStr title1) source_file
                                  (PInt line) project_version0)
                         (findings st)
                    then [] else [finding1])
                ++ (if existsb (stored_as (PStr title2) source_file
                                  (PInt line) project_version0)
                         (findings st)
                    then [] else [finding2]))%list
          /\ title finding1 = PStr title1
          /\ title finding2 = PStr title2
          /\ Ok (normalized_title finding1) = normalize_title (PStr title1)
          /\ normalized_title finding1 = normalized_title finding2).
Proof.
  split.
  - intros project_version0 user tool0 message level location source_file
      normalized locals st uri key line finding Hroot Hfile Hnorm.
    split; [ reflexivity | ]. split; [ reflexivity | ].
    split; [ reflexivity | ].
    apply import_location_decided; assumption.
  - apply two_titles_imported.
Qed.

End Titles.

Lemma distinct_titles_both_persisted_witness :
  findings
    (snd (import_sarif_file (H := sample_collaborators)
            (two_titles "Object injection via bracket notation: a[b]"
                        "Object injection via bracket notation: c[d]"
                        "b/index.js" 3)
            (Some sample_version) (Some alice) titled_store))
  = [ legacy_row; canonical_row;
      finding_of sample_version alice scanner
        (PStr "Object injection via bracket notation: c[d]")
        (PStr "warning") (location_at "b/index.js" 3) index_b
        (PStr "Object injection") ]
  /\ import_location (H := sample_collaborators) sample_version alice scanner
    (PStr "Object injection via bracket notation: a[b]") (PStr "warning")
    (location_at "b/index.js" 3) fresh_locals titled_store
  = (Ok (add_processed
           (key_of (H := sample_collaborators) (PStr "Object injection via bracket notation: a[b]")
                   (location_at "b/index.js" 3))
           fresh_locals),
     titled_store)
  /\ import_location (H := sample_collaborators) sample_version alice
       scanner (PStr "Object injection via bracket notation: c[d]")
       (PStr "warning") (location_at "b/index.js" 3) fresh_locals
       titled_store
     = (Ok (count_one
              (add_processed
                 (key_of (H := sample_collaborators) (PStr "Object injection via bracket notation: c[d]")
                         (location_at "b/index.js" 3))
                 fresh_locals)),
        with_finding titled_store
          (finding_of sample_version alice scanner
             (PStr "Object injection via bracket notation: c[d]")
             (PStr "warning") (location_at "b/index.js" 3) index_b
             (PStr "Object injection")))
  /\ (exists (st' : @Store sample_collaborators)
             (finding1 finding2 : @Finding sample_collaborators),
        import_sarif_file (H := sample_collaborators)
          (two_titles "Object injection via bracket notation: a[b]"
                      "Object injection via bracket notation: c[d]"
                      "b/index.js" 3)
          (Some sample_version) (Some alice) titled_store = (Ok true, st')
        /\ findings st' = [ legacy_row; canonical_row; finding2 ]
        /\ title finding1
           = PStr "Object injection via bracket notation: a[b]"
        /\ title finding2
           = PStr "Object injection via bracket notation: c[d]"
        /\ Ok (normalized_title finding1)
           = normalize_title
               (PStr "Object injection via bracket notation: a[b]")
        /\ normalized_title finding1 = normalized_title finding2)
  /\ (exists (st' : @Store sample_collaborators)
             (finding1 finding2 : @Finding sample_collaborators),
        import_sarif_file (H := sample_collaborators)
          (two_titles "Object injection via bracket notation: a[b]"
                      "Object injection via bracket notation: c[d]"
                      "b/index.js" 3)
          (Some sample_version) (Some alice) sample_store = (Ok true, st')
        /\ findings st' = [ finding1; finding2 ]
        /\ title finding1
           = PStr "Object injection via bracket notation: a[b]"
        /\ title finding2
           = PStr "Object injection via bracket notation: c[d]"
        /\ Ok (normalized_title finding1)
           = normalize_title
               (PStr "Object injection via bracket notation: a[b]")
        /\ normalized_title finding1 = normalized_title finding2).
Proof.
  split; [ reflexivity | ]. split; [ | split; [ | split ] ].
  - apply (proj1 (distinct_titles_both_persisted (H := sample_collaborators))
             sample_version alice scanner
             (PStr "Object injection via bracket notation: a[b]")
             (PStr "warning") (location_at "b/index.js" 3) index_b
             (PStr "Object injection") fresh_locals titled_store);
      reflexivity.
  - apply (proj1 (distinct_titles_both_persisted (H := sample_collaborators))
             sample_version alice scanner
             (PStr "Object injection via bracket notation: c[d]")
             (PStr "warning") (location_at "b/index.js" 3) index_b
             (PStr "Object injection") fresh_locals titled_store);
      reflexivity.
  - apply (proj2 (distinct_titles_both_persisted (H := sample_collaborators))
             "Object injection via bracket notation: a[b]"
             "Object injection via bracket notation: c[d]"
             "b/index.js" 3%Z sample_version alice index_b titled_store).
    + discriminate.
    + reflexivity.
    + vm_compute. discriminate.
    + reflexivity.
  - apply (proj2 (distinct_titles_both_persisted (H := sample_collaborators))
             "Object injection via bracket notation: a[b]"
             "Object injection via bracket notation: c[d]"
             "b/index.js" 3%Z sample_version alice index_b sample_store).
    + discriminate.
    + reflexivity.
    + vm_compute. discriminate.
    + reflexivity.
Defined.

(** ** Which exceptions the importer raises *)

Lemma py_iter_raises (v : pyval) (e : exn) :
  py_iter v = Raise e -> e = TypeError.
Proof. destruct v; simpl; congruence. Qed.

Lemma dict_get_raises (v : pyval) (k : string) (d : pyval) (e : exn) :
  dict_get v k d = Raise e -> e = AttributeError.
Proof. destruct v; simpl; congruence. Qed.

Lemma normalize_title_raises (v : pyval) (e : exn) :
  normalize_title v = Raise e -> e = TypeError.
Proof. destruct v; simpl; congruence. Qed.

Lemma get_most_likely_source_raises (project_version0 : ProjectVersion)
    (v : pyval) (e : exn) :
  get_most_likely_source project_version0 v = Raise e -> e = TypeError.
Proof.
  destruct v as [ | b | z | s | items | entries ]; simpl; try congruence.
  destruct (possible_files_of project_version0 s) as [ | f1 [ | f2 rest ] ];
    discriminate.
Qed.

Lemma rule_descriptions_raises (default_value : pyval) (rules : list pyval)
    (map0 : list (pyval * pyval)) (e : exn) :
  rule_descriptions default_value rules map0 = Raise e -> e = TypeError.
Proof.
  revert map0. induction rules as [ | rule rules IH ]; intros map0; simpl;
    [ discriminate | ].
  destruct (truthy _ && truthy _); [ | apply IH ].
  destruct (hashable _); [ apply IH | congruence ].
Qed.

Section Raising.

Context `{Collaborators}.

Variable P : exn -> Prop.

Lemma raises_only_ret {A} (a : A) : raises_only P (ret a).
Proof. intros st e st' E. discriminate. Qed.

Lemma raises_only_lift {A} (r : Result A) :
  (forall e, r = Raise e -> P e) -> raises_only P (lift r).
Proof.
  intros Hr st e st' E. unfold lift in E. injection E as E _. auto.
Qed.

Lemma raises_only_bind {A B} (c : M A) (k : A -> M B) :
  raises_only P c -> (forall a, raises_only P (k a)) ->
  raises_only P (bind c k).
Proof.
  intros Hc Hk st e st' E. unfold bind in E.
  destruct (c st) as [ [a | e0] st0 ] eqn:Ec.
  - exact (Hk a st0 e st' E).
  - injection E as <- _. exact (Hc st e0 st0 Ec).
Qed.

Lemma raises_only_for_each {X A} (xs : list X) (body : X -> A -> M A)
    (acc : A) :
  (forall x a, raises_only P (body x a)) ->
  raises_only P (for_each xs body acc).
Proof.
  intros Hbody. revert acc.
  induction xs as [ | x xs IH ]; intros acc; simpl.
  - apply raises_only_ret.
  - apply raises_only_bind; [ apply Hbody | exact IH ].
Qed.

Lemma raises_only_catch {A} (c : M A) (fallback : A) :
  raises_only P (catch c fallback).
Proof.
  intros st e st' E. unfold catch in E.
  destruct (c st) as [ [a | e0] st0 ]; discriminate.
Qed.

End Raising.

Section Validation.

Context `{Collaborators}.

Local Abbreviation no_value_error :=
  (fun e : exn => forall msg, e <> ValueError msg).

Lemma import_location_raises (project_version0 : ProjectVersion)
    (user : User) (tool0 : Tool) (message level location : pyval)
    (locals : Locals) :
  raises_only no_value_error
    (import_location project_version0 user tool0 message level location
                     locals).
Proof.
  unfold import_location.
  destruct (negb _); [ apply raises_only_ret | ].
  case_bool_decide; [ | apply raises_only_ret ].
  apply raises_only_bind.
  - apply raises_only_lift. intros e E msg.
    apply get_most_likely_source_raises in E. congruence.
  - intros [source_file | ]; [ | apply raises_only_ret ].
    apply raises_only_bind.
    + apply raises_only_lift. intros e E msg.
      apply normalize_title_raises in E. congruence.
    + intros normalized. apply raises_only_bind.
      * intros st e st' E. discriminate.
      * intros [ | ]; [ apply raises_only_ret | ].
        apply raises_only_bind; [ | intros _; apply raises_only_ret ].
        intros st e st' E. discriminate.
Qed.

Lemma import_result_raises (project_version0 : ProjectVersion)
    (user : User) (tool0 : Tool) (result : pyval) (locals : Locals) :
  raises_only no_value_error
    (import_result project_version0 user tool0 result locals).
Proof.
  unfold import_result. apply raises_only_bind.
  - apply raises_only_lift. intros e E msg.
    apply dict_get_raises in E. congruence.
  - intros _. apply raises_only_bind.
    + apply raises_only_lift. intros e E msg.
      apply py_iter_raises in E. congruence.
    + intros locations. apply raises_only_for_each.
      intros location locals'. apply import_location_raises.
Qed.

Lemma import_run_raises (project_version0 : ProjectVersion) (user : User)
    (run : pyval) (locals : Locals) :
  raises_only no_value_error (import_run project_version0 user run locals).
Proof.
  unfold import_run. apply raises_only_bind.
  - intros st e st' E. unfold Tool_get_or_create in E.
    destruct (find _ _); discriminate.
  - intros tool0. apply raises_only_bind.
    + apply raises_only_lift. intros e E msg.
      apply py_iter_raises in E. congruence.
    + intros rules. apply raises_only_bind.
      * apply raises_only_lift. intros e E msg.
        apply rule_descriptions_raises in E. congruence.
      * intros _. apply raises_only_bind.
        -- apply raises_only_lift. intros e E msg.
           apply dict_get_raises in E. congruence.
        -- intros results. apply raises_only_bind.
           ++ apply raises_only_lift. intros e E msg.
              apply py_iter_raises in E. congruence.
           ++ intros results'. apply raises_only_for_each.
              intros result locals'. apply import_result_raises.
Qed.

(** Once the arguments are valid, no [ValueError] is raised. *)
Lemma import_sarif_file_valid_raises (entries : list (string * pyval))
    (project_version0 : ProjectVersion) (user : option User) :
  lookup_key "version" entries = Some (PStr "2.1.0") ->
  raises_only no_value_error
    (import_sarif_file (PDict entries) (Some project_version0) user).
Proof.
  intros Hversion. unfold import_sarif_file. rewrite Hversion.
  simpl pyval_eqb. simpl negb. cbv iota.
  apply raises_only_bind.
  - destruct user as [user | ]; [ apply raises_only_ret | ].
    intros st e st' E msg. unfold User_get in E.
    destruct (find _ _); [ discriminate | ]. injection E as <- _.
    discriminate.
  - intros user'. apply raises_only_bind.
    + apply raises_only_lift. intros e E msg.
      apply dict_get_raises in E. congruence.
    + intros assertion_data. apply raises_only_bind.
      * destruct assertion_data; try apply raises_only_catch.
        apply raises_only_ret.
      * intros _. apply raises_only_bind.
        -- apply raises_only_lift. intros e E msg.
           apply dict_get_raises in E. congruence.
        -- intros runs. apply raises_only_bind.
           ++ apply raises_only_lift. intros e E msg.
              apply py_iter_raises in E. congruence.
           ++ intros runs'. apply raises_only_bind.
              ** apply raises_only_for_each. intros run locals.
                 apply import_run_raises.
              ** intros locals. apply raises_only_ret.
Qed.

Lemma version_mismatch (entries : list (string * pyval)) :
  lookup_key "version" entries <> Some (PStr "2.1.0") ->
  pyval_eqb (match lookup_key "version" entries with
             | Some v => v
             | None => PNone
             end) (PStr "2.1.0") = false.
Proof.
  intros Hne. destruct (lookup_key "version" entries) as [v | ];
    [ | reflexivity ].
  apply pyval_eqb_neq. congruence.
Qed.

Lemma version_match (entries : list (string * pyval)) :
  pyval_eqb (match lookup_key "version" entries with
             | Some v => v
             | None => PNone
             end) (PStr "2.1.0") = true ->
  lookup_key "version" entries = Some (PStr "2.1.0").
Proof.
  destruct (lookup_key "version" entries) as [v | ]; [ | discriminate ].
  intros E. apply pyval_eqb_eq in E. congruence.
Qed.

(** C5, as the code has it.  In each of the four invalid cases the call
    raises one of the validation errors and leaves the store as it is;
    and a validation error is raised in these cases only.  (A call with
    valid arguments can still raise another exception.) *)
Theorem import_sarif_file_validation (sarif : pyval)
    (project_version0 : option ProjectVersion) (user : option User)
    (st : Store) :
  (invalid_input sarif project_version0 ->
   exists msg,
     In msg validation_messages
     /\ import_sarif_file sarif project_version0 user st
        = (Raise (ValueError msg), st))
  /\ (forall msg st',
        In msg validation_messages ->
        import_sarif_file sarif project_version0 user st
        = (Raise (ValueError msg), st') ->
        invalid_input sarif project_version0).
Proof.
  split.
  - intros Hinvalid. unfold import_sarif_file, validation_messages, raise.
    destruct sarif as [ | b | z | s | items | entries ];
      try (eexists; split; [ | reflexivity ]; simpl; tauto).
    destruct (pyval_eqb _ (PStr "2.1.0")) eqn:Hversion; simpl;
      [ | eexists; split; [ | reflexivity ]; simpl; tauto ].
    destruct project_version0 as [pv | ];
      [ | eexists; split; [ | reflexivity ]; simpl; tauto ].
    exfalso. apply version_match in Hversion.
    destruct Hinvalid as [E | [E | [(entries' & E & Hv) | E]]];
      try discriminate.
    + exact (E entries eq_refl).
    + injection E as <-. exact (Hv Hversion).
  - intros msg st' _ Hraise. unfold invalid_input.
    destruct sarif as [ | b | z | s | items | entries ];
      try (right; left; discriminate).
    destruct (pyval_eqb (match lookup_key "version" entries with
                         | Some v => v
                         | None => PNone
                         end) (PStr "2.1.0")) eqn:Hversion.
    + destruct project_version0 as [pv | ]; [ | tauto ].
      exfalso. apply version_match in Hversion.
      exact (import_sarif_file_valid_raises entries pv user Hversion
               st _ st' Hraise msg eq_refl).
    + right. right. left. exists entries. split; [ reflexivity | ].
      intros E. rewrite E in Hversion. discriminate.
Qed.

End Validation.

Lemma import_sarif_file_validation_witness :
  invalid_input (PDict [ ("version", PStr "2.0.0"); ("runs", PList []) ])
                (Some sample_version)
  /\ exists msg,
       In msg validation_messages
       /\ import_sarif_file (H := sample_collaborators)
            (PDict [ ("version", PStr "2.0.0"); ("runs", PList []) ])
            (Some sample_version) (Some alice) sample_store
          = (Raise (ValueError msg), sample_store).
Proof.
  assert (Hinvalid : invalid_input
                       (PDict [ ("version", PStr "2.0.0");
                                ("runs", PList []) ])
                       (Some sample_version)).
  { right. right. left. eexists. split; [ reflexivity | ].
    simpl. discriminate. }
  split; [ exact Hinvalid | ].
  exact (proj1 (import_sarif_file_validation (H := sample_collaborators)
                  _ _ (Some alice) sample_store) Hinvalid).
Defined.

(** C5 as stated fails: a log of version 2.1.0 whose [runs] is [null],
    imported for a project version and a user, is none of the four invalid
    cases, and the call raises all the same. *)
Lemma import_null_runs_raises :
  ~ invalid_input null_runs (Some sample_version)
  /\ import_sarif_file (H := sample_collaborators) null_runs
       (Some sample_version) (Some alice) sample_store
     = (Raise TypeError, sample_store).
Proof.
  split; [ | reflexivity ].
  intros [E | [E | [(entries & E & Hv) | E]]]; try discriminate.
  - exact (E _ eq_refl).
  - injection E as <-. apply Hv. reflexivity.
Qed.

(** ** Importing the same log twice *)

Section Idempotence.

Context `{Collaborators}.

(** *** The second run *)

Lemma replays_keeps {A} (R : A -> A -> Prop) (c1 c2 : M A) :
  keeps c2 ->
  (forall st g, users g = users st -> agree R (fst (c1 st)) (fst (c2 g))) ->
  replays R c1 c2.
Proof.
  intros H2 Hagree st g Hu _. destruct (H2 g) as [Hu2 Hf2].
  split; [ exact Hu2 | ]. split; [ exact Hf2 | ]. apply Hagree, Hu.
Qed.

Lemma replays_ret {A} (R : A -> A -> Prop) (a1 a2 : A) :
  R a1 a2 -> replays R (ret a1) (ret a2).
Proof.
  intros HR. apply replays_keeps; [ apply keeps_ret | ].
  intros st g _. exact HR.
Qed.

Lemma replays_lift {A} (r : Result A) : replays eq (lift r) (lift r).
Proof.
  apply replays_keeps; [ apply keeps_lift | ].
  intros st g _. simpl. destruct r; reflexivity.
Qed.

Lemma replays_bind {A B} (RA : A -> A -> Prop) (RB : B -> B -> Prop)
    (c1 c2 : M A) (k1 k2 : A -> M B) :
  grows c1 -> (forall a, grows (k1 a)) ->
  replays RA c1 c2 ->
  (forall a1 a2, RA a1 a2 -> replays RB (k1 a1) (k2 a2)) ->
  replays RB (bind c1 k1) (bind c2 k2).
Proof.
  intros Hg1 Hgk Hc Hk st g Hu Hcov. unfold bind in *.
  destruct (Hg1 st) as [Hu1 _].
  specialize (Hc st g Hu).
  destruct (c1 st) as [ [a1 | e1] s1 ]; simpl in *.
  - destruct (Hgk a1 s1) as [_ Hcovk].
    destruct (Hc (covers_trans _ _ _ Hcov Hcovk)) as (Hu2 & Hf2 & Hagree).
    destruct (c2 g) as [ [a2 | e2] g1 ]; simpl in *; [ | contradiction ].
    destruct (Hk a1 a2 Hagree s1 g1) as (Hu3 & Hf3 & Hagree3).
    + congruence.
    + rewrite Hf2. exact Hcov.
    + split; [ congruence | ]. split; [ congruence | exact Hagree3 ].
  - destruct (Hc Hcov) as (Hu2 & Hf2 & Hagree).
    destruct (c2 g) as [ [a2 | e2] g1 ]; simpl in *; [ contradiction | ].
    split; [ exact Hu2 | ]. split; [ exact Hf2 | exact Hagree ].
Qed.

Lemma replays_for_each {X A} (R : A -> A -> Prop) (xs : list X)
    (body1 body2 : X -> A -> M A) (acc1 acc2 : A) :
  (forall x a, grows (body1 x a)) ->
  (forall x a1 a2, R a1 a2 -> replays R (body1 x a1) (body2 x a2)) ->
  R acc1 acc2 ->
  replays R (for_each xs body1 acc1) (for_each xs body2 acc2).
Proof.
  intros Hg Hbody. revert acc1 acc2.
  induction xs as [ | x xs IH ]; intros acc1 acc2 HR; simpl.
  - apply replays_ret, HR.
  - apply replays_bind with (RA := R).
    + apply Hg.
    + intros a. apply grows_for_each, Hg.
    + apply Hbody, HR.
    + intros a1 a2 HR'. apply IH, HR'.
Qed.

Lemma existsb_pointwise {X} (f f' : X -> bool) (l : list X) :
  (forall x, f x = f' x) -> existsb f l = existsb f' l.
Proof.
  intros Hff'. induction l as [ | x l IHl ]; [ reflexivity | ].
  simpl. rewrite Hff', IHl. reflexivity.
Qed.

(** The existence check and the save, taken together: the finding the
    first run checked is found by the second. *)
Lemma replays_save (finding1 finding2 : Finding) (locals1 locals2 : Locals) :
  (forall row, same_finding finding2 row = same_finding finding1 row) ->
  same_processed locals1 locals2 ->
  replays same_processed
    (duplicate <- Finding_exists finding1 ;;
     if duplicate then ret locals1
     else Finding_save finding1 ;;; ret (count_one locals1))
    (duplicate <- Finding_exists finding2 ;;
     if duplicate then ret locals2
     else Finding_save finding2 ;;; ret (count_one locals2)).
Proof.
  intros Hsame Hlocals st g Hu Hcov.
  assert (Hfound : existsb (same_finding finding2) (findings g) = true).
  { rewrite (existsb_pointwise _ _ _ Hsame). apply Hcov.
    unfold bind, Finding_exists, Finding_save, ret. simpl.
    destruct (existsb (same_finding finding1) (findings st)) eqn:E; simpl.
    - exact E.
    - apply saved_is_found. }
  unfold bind, Finding_exists, Finding_save, ret. rewrite Hfound. simpl.
  split; [ reflexivity | ]. split; [ reflexivity | ].
  destruct (existsb (same_finding finding1) (findings st)); simpl;
    exact Hlocals.
Qed.

Lemma replays_import_location (project_version0 : ProjectVersion)
    (user1 user2 : User) (tool1 tool2 : Tool)
    (message level location : pyval) (locals1 locals2 : Locals) :
  same_processed locals1 locals2 ->
  replays same_processed
    (import_location project_version0 user1 tool1 message level location
                     locals1)
    (import_location project_version0 user2 tool2 message level location
                     locals2).
Proof.
  intros Hlocals. unfold import_location.
  destruct (negb _); [ apply replays_ret, Hlocals | ].
  rewrite <- Hlocals.
  case_bool_decide; [ | apply replays_ret, Hlocals ].
  apply replays_bind with (RA := eq).
  - apply keeps_grows, keeps_lift.
  - intros found. repeat grows_step.
  - apply replays_lift.
  - intros found ? <-.
    destruct found as [source_file | ];
      [ | apply replays_ret; unfold same_processed; simpl; congruence ].
    apply replays_bind with (RA := eq).
    + apply keeps_grows, keeps_lift.
    + intros normalized. repeat grows_step.
    + apply replays_lift.
    + intros normalized ? <-. apply replays_save.
      * intros row. reflexivity.
      * unfold same_processed. simpl. congruence.
Qed.

Lemma replays_import_result (project_version0 : ProjectVersion)
    (user1 user2 : User) (tool1 tool2 : Tool) (result : pyval)
    (locals1 locals2 : Locals) :
  same_processed locals1 locals2 ->
  replays same_processed
    (import_result project_version0 user1 tool1 result locals1)
    (import_result project_version0 user2 tool2 result locals2).
Proof.
  intros Hlocals. unfold import_result.
  apply replays_bind with (RA := eq).
  - apply keeps_grows, keeps_lift.
  - intros rule_id. repeat grows_step.
    apply grows_for_each. intros location locals'.
    apply grows_import_location.
  - apply replays_lift.
  - intros rule_id ? <-. apply replays_bind with (RA := eq).
    + apply keeps_grows, keeps_lift.
    + intros locations. apply grows_for_each. intros location locals'.
      apply grows_import_location.
    + apply replays_lift.
    + intros locations ? <-. apply replays_for_each.
      * intros location locals'. apply grows_import_location.
      * intros location l1 l2 Hl. apply replays_import_location, Hl.
      * exact Hlocals.
Qed.

Lemma replays_import_run (project_version0 : ProjectVersion)
    (user1 user2 : User) (run : pyval) (locals1 locals2 : Locals) :
  same_processed locals1 locals2 ->
  replays same_processed
    (import_run project_version0 user1 run locals1)
    (import_run project_version0 user2 run locals2).
Proof.
  intros Hlocals. unfold import_run.
  apply replays_bind with (RA := fun _ _ => True).
  - apply keeps_grows, keeps_Tool_get_or_create.
  - intros tool0. repeat grows_step.
    apply grows_for_each. intros result locals'.
    apply grows_import_result.
  - apply replays_keeps; [ apply keeps_Tool_get_or_create | ].
    intros st g _. unfold Tool_get_or_create.
    destruct (find _ (tools st)), (find _ (tools g)); exact I.
  - intros tool1 tool2 _. apply replays_bind with (RA := eq).
    + apply keeps_grows, keeps_lift.
    + intros rules. repeat grows_step.
      apply grows_for_each. intros result locals'.
      apply grows_import_result.
    + apply replays_lift.
    + intros rules ? <-. apply replays_bind with (RA := eq).
      * apply keeps_grows, keeps_lift.
      * intros map0. repeat grows_step.
        apply grows_for_each. intros result locals'.
        apply grows_import_result.
      * apply replays_lift.
      * intros map0 ? <-. apply replays_bind with (RA := eq).
        -- apply keeps_grows, keeps_lift.
        -- intros results. repeat grows_step.
           apply grows_for_each. intros result locals'.
           apply grows_import_result.
        -- apply replays_lift.
        -- intros results ? <-. apply replays_bind with (RA := eq).
           ++ apply keeps_grows, keeps_lift.
           ++ intros results'. apply grows_for_each.
              intros result locals'. apply grows_import_result.
           ++ apply replays_lift.
           ++ intros results' ? <-. apply replays_for_each.
              ** intros result locals'. apply grows_import_result.
              ** intros result l1 l2 Hl.
                 apply replays_import_result, Hl.
              ** exact Hlocals.
Qed.


Lemma replays_raise {A} (R : A -> A -> Prop) (e : exn) :
  replays R (raise e) (raise e).
Proof.
  apply replays_keeps; [ intros st; split; reflexivity | ].
  intros st g _. reflexivity.
Qed.

Lemma replays_User_get (id : Z) : replays eq (User_get id) (User_get id).
Proof.
  apply replays_keeps; [ apply keeps_User_get | ].
  intros st g Hu. unfold User_get. rewrite Hu.
  destruct (find _ (users st)); reflexivity.
Qed.

Lemma replays_add_assertion (assertion_data : pyval) :
  replays (fun _ _ => True) (add_assertion assertion_data)
          (add_assertion assertion_data).
Proof.
  apply replays_keeps; [ apply keeps_add_assertion | ].
  intros st g _. unfold add_assertion, catch.
  destruct (add_assertion_try assertion_data st) as [ [a | e] st' ],
           (add_assertion_try assertion_data g) as [ [a' | e'] g' ];
    exact I.
Qed.

Lemma replays_import_sarif_file (sarif : pyval)
    (project_version0 : option ProjectVersion) (user : option User) :
  replays (fun _ _ => True)
    (import_sarif_file sarif project_version0 user)
    (import_sarif_file sarif project_version0 user).
Proof.
  unfold import_sarif_file.
  destruct sarif; try apply replays_raise.
  destruct (negb _); [ apply replays_raise | ].
  destruct project_version0 as [pv | ]; [ | apply replays_raise ].
  pose proof (grows_import_run pv) as Hrun.
  apply replays_bind with (RA := eq).
  - destruct user; grows_step.
  - intros user'. repeat grows_step; apply grows_for_each;
  intros run locals; apply Hrun.
  - destruct user; [ apply replays_ret; reflexivity | apply replays_User_get ].
  - intros user' ? <-. apply replays_bind with (RA := eq).
    + grows_step.
    + intros assertion_data. repeat grows_step; apply grows_for_each;
  intros run locals; apply Hrun.
    + apply replays_lift.
    + intros assertion_data ? <-.
      apply replays_bind with (RA := fun _ _ => True).
      * destruct assertion_data; grows_step.
      * intros _. repeat grows_step; apply grows_for_each;
  intros run locals; apply Hrun.
      * destruct assertion_data;
          first [ apply replays_add_assertion | apply replays_ret; exact I ].
      * intros _ _ _. apply replays_bind with (RA := eq).
        -- grows_step.
        -- intros runs. repeat grows_step; apply grows_for_each;
  intros run locals; apply Hrun.
        -- apply replays_lift.
        -- intros runs ? <-. apply replays_bind with (RA := eq).
           ++ grows_step.
           ++ intros runs'. repeat grows_step.
              apply grows_for_each. intros run locals. apply Hrun.
           ++ apply replays_lift.
           ++ intros runs' ? <-.
              apply replays_bind with (RA := same_processed).
              ** apply grows_for_each. intros run locals.
                 apply grows_import_run.
              ** intros locals. grows_step.
              ** apply replays_for_each.
                 --- intros run locals. apply grows_import_run.
                 --- intros run l1 l2 Hl. apply replays_import_run, Hl.
                 --- reflexivity.
              ** intros l1 l2 _. apply replays_ret. exact I.
Qed.

(** C4.  Importing a log a second time, for the same project version and
    user and with no write in between, saves no finding: the findings
    after the second call are those after the first. *)
Theorem import_twice_saves_nothing (sarif : pyval)
    (project_version0 : option ProjectVersion) (user : option User)
    (st : Store) :
  let first := import_sarif_file sarif project_version0 user st in
  let second := import_sarif_file sarif project_version0 user (snd first) in
  findings (snd second) = findings (snd first)
  /\ length (findings (snd second)) = length (findings (snd first)).
Proof.
  intros first second.
  assert (E : findings (snd second) = findings (snd first)).
  { destruct (replays_import_sarif_file sarif project_version0 user
                st (snd first)) as (_ & Hf & _).
    - apply (grows_import_sarif_file sarif project_version0 user st).
    - apply covers_refl.
    - exact Hf. }
  split; [ exact E | rewrite E; reflexivity ].
Qed.

End Idempotence.

(** The sample log with one resolvable place, imported twice: one finding
    after the first call, the same finding after the second. *)
Example import_twice_sample :
  let log := document_with
               [ result_with "Buffer overflow" [ location_at "b/index.js" 3 ] ]
  in
  let first := import_sarif_file (H := sample_collaborators) log
                 (Some sample_version) (Some alice) sample_store in
  let second := import_sarif_file (H := sample_collaborators) log
                  (Some sample_version) (Some alice) (snd first) in
  fst first = Ok true
  /\ length (findings (snd first)) = 1
  /\ fst second = Ok false
  /\ findings (snd second) = findings (snd first).
Proof. vm_compute. repeat split. Qed.

(** ** More on the source-file resolver *)

Lemma append_assoc (a b c : string) : (a +:+ b) +:+ c = a +:+ (b +:+ c).
Proof.
  induction a as [ | x a IH ]; [ reflexivity | ].
  rewrite !append_cons, IH. reflexivity.
Qed.

Lemma find_is_member {X} (f : X -> bool) (l : list X) (x : X) :
  find f l = Some x -> In x l /\ f x = true.
Proof.
  induction l as [ | y l IH ]; simpl; [ discriminate | ].
  destruct (f y) eqn:E.
  - intros [= <-]. tauto.
  - intros Hx. destruct (IH Hx). tauto.
Qed.

Lemma find_none_all {X} (f : X -> bool) (l : list X) :
  find f l = None -> forall x, In x l -> f x = false.
Proof.
  induction l as [ | y l IH ]; simpl; [ tauto | ].
  destruct (f y) eqn:E; [ discriminate | ].
  intros Hnone x [<- | Hx]; [ exact E | exact (IH Hnone x Hx) ].
Qed.

Section Suffixes.

Variable possible_files : list File.
Variable parts : list string.

Local Abbreviation hit i :=
  (first_ending_with possible_files (target_of parts i)).

(** What the loop returns was found by one of its rounds. *)
Lemma suffix_loop_origin (indices : list nat) (best f : option File) :
  fold_left (suffix_step possible_files parts) indices best = f ->
  f = best \/ exists i, In i indices /\ hit i = f /\ f <> None.
Proof.
  revert best. induction indices as [ | i indices IH ]; intros best; simpl.
  - intros <-. left. reflexivity.
  - intros E. apply IH in E as [-> | (j & Hj & Hhit & Hsome)].
    + unfold suffix_step. destruct (hit i) as [g | ] eqn:Ehit.
      * right. exists i. split; [ left; reflexivity | ].
        split; [ exact Ehit | discriminate ].
      * left. reflexivity.
    + right. exists j. split; [ right; exact Hj | ]. split; assumption.
Qed.

Lemma suffix_loop_keeps (indices : list nat) (best : option File) :
  best <> None ->
  fold_left (suffix_step possible_files parts) indices best <> None.
Proof.
  revert best. induction indices as [ | i indices IH ]; intros best Hbest;
    simpl; [ exact Hbest | ].
  apply IH. unfold suffix_step. destruct (hit i); [ discriminate | ].
  exact Hbest.
Qed.

(** A round that finds a candidate makes the loop return one. *)
Lemma suffix_loop_found (indices : list nat) (best : option File) (i : nat) :
  In i indices -> hit i <> None ->
  fold_left (suffix_step possible_files parts) indices best <> None.
Proof.
  revert best. induction indices as [ | j indices IH ]; intros best;
    simpl; [ tauto | ].
  intros [-> | Hi] Hhit; [ | exact (IH _ Hi Hhit) ].
  apply suffix_loop_keeps. unfold suffix_step.
  destruct (hit i); [ discriminate | tauto ].
Qed.

(** The target of a round ends with the target of the round before it. *)
Lemma target_of_next (i : nat) (x : string) :
  parts !! i = Some x -> S i < length parts ->
  target_of parts i = String "/" x +:+ target_of parts (S i).
Proof.
  intros Hx Hlen. unfold target_of, Str.join.
  rewrite (drop_S _ _ _ Hx).
  destruct (drop (S i) parts) as [ | y rest ] eqn:E.
  - apply (f_equal length) in E. rewrite length_drop in E. simpl in E. lia.
  - reflexivity.
Qed.

Lemma endswith_next (s : string) (i : nat) :
  S i < length parts ->
  Str.endswith s (target_of parts i) = true ->
  Str.endswith s (target_of parts (S i)) = true.
Proof.
  intros Hlen Hends.
  destruct (lookup_lt_is_Some_2 parts i) as [x Hx]; [ lia | ].
  rewrite (target_of_next i x Hx Hlen) in Hends.
  apply endswith_suffix in Hends as [p ->].
  apply endswith_suffix. exists (p +:+ String "/" x).
  rewrite append_assoc. reflexivity.
Qed.

Lemma endswith_shorter (s : string) (i j : nat) :
  i <= j < length parts ->
  Str.endswith s (target_of parts i) = true ->
  Str.endswith s (target_of parts j) = true.
Proof.
  intros [Hij Hj] Hends. induction Hij as [ | j Hij IH ]; [ exact Hends | ].
  apply endswith_next; [ exact Hj | ]. apply IH. lia.
Qed.

Lemma drop_to_last {X} (l : list X) (d : X) :
  l <> [] -> drop (length l - 1) l = [List.last l d].
Proof.
  induction l as [ | x l IH ]; [ tauto | ]. intros _.
  destruct l as [ | y l ]; [ reflexivity | ].
  replace (length (x :: y :: l) - 1) with (S (length (y :: l) - 1))
    by (simpl; lia).
  change (List.last (x :: y :: l) d) with (List.last (y :: l) d).
  rewrite <- IH by discriminate. reflexivity.
Qed.

Lemma target_of_last :
  parts <> [] ->
  target_of parts (length parts - 1) = String "/" (List.last parts "").
Proof.
  intros Hne. unfold target_of.
  rewrite (drop_to_last parts "" Hne). reflexivity.
Qed.

End Suffixes.

Lemma get_most_likely_source_member (project_version0 : ProjectVersion)
    (file_path : string) (f : File) :
  get_most_likely_source project_version0 (PStr file_path) = Ok (Some f) ->
  In f (files project_version0).
Proof.
  intros Hfound. apply (elem_of_possible_files project_version0 file_path).
  unfold get_most_likely_source in Hfound.
  destruct (possible_files_of project_version0 file_path)
    as [ | f1 [ | f2 rest ] ] eqn:E.
  - discriminate.
  - injection Hfound as <-. left. reflexivity.
  - injection Hfound as Hfold.
    apply suffix_loop_origin in Hfold as [Hnone | (i & _ & Hhit & _)];
      [ discriminate | ].
    apply find_is_member in Hhit as [Hin _]. exact Hin.
Qed.

(** X1.  A file the resolver returns is a file of the project version whose
    path ends with the basename of the reported path. *)
Theorem get_most_likely_source_sound (project_version0 : ProjectVersion)
    (file_path : string) (f : File) :
  get_most_likely_source project_version0 (PStr file_path) = Ok (Some f) ->
  In f (files project_version0)
  /\ Str.endswith (path f) (os_path.basename file_path) = true.
Proof.
  intros Hfound. apply elem_of_possible_files.
  unfold get_most_likely_source in Hfound.
  destruct (possible_files_of project_version0 file_path)
    as [ | f1 [ | f2 rest ] ] eqn:E.
  - discriminate.
  - injection Hfound as <-. left. reflexivity.
  - injection Hfound as Hfold.
    apply suffix_loop_origin in Hfold as [Hnone | (i & _ & Hhit & _)];
      [ discriminate | ].
    apply find_is_member in Hhit as [Hin _]. exact Hin.
Qed.

Lemma get_most_likely_source_sound_witness :
  get_most_likely_source sample_version (PStr "src/main.c") = Ok (Some main_c)
  /\ In main_c (files sample_version)
  /\ Str.endswith (path main_c) (os_path.basename "src/main.c") = true.
Proof.
  split; [ reflexivity | ].
  apply (get_most_likely_source_sound sample_version "src/main.c" main_c).
  reflexivity.
Defined.

(** X2.  With two candidates or more, a file is returned exactly when some
    candidate has the last segment of the reported path as its whole last
    segment, and the file returned is such a candidate. *)
Theorem get_most_likely_source_whole_segment
    (project_version0 : ProjectVersion) (file_path : string) :
  let possible_files := possible_files_of project_version0 file_path in
  let parts := Str.split "/" (Str.strip "/" file_path) in
  let name := String "/" (List.last parts "") in
  2 <= length possible_files ->
  (get_most_likely_source project_version0 (PStr file_path) = Ok None
   <-> forall c, In c possible_files -> Str.endswith (path c) name = false)
  /\ (forall f,
        get_most_likely_source project_version0 (PStr file_path)
        = Ok (Some f) ->
        In f possible_files /\ Str.endswith (path f) name = true).
Proof.
  intros possible_files parts name Hlen.
  pose proof (get_most_likely_source_loop project_version0 file_path Hlen)
    as Hloop.
  fold possible_files parts in Hloop. rewrite Hloop.
  assert (Hparts : parts <> []) by apply split_not_empty.
  assert (Hn : 0 < length parts) by (destruct parts; simpl; [ tauto | lia ]).
  pose proof (target_of_last parts Hparts) as Hlast. fold name in Hlast.
  split; [ split | ].
  - intros Hnone c Hc.
    destruct (Str.endswith (path c) name) eqn:Hends; [ exfalso | reflexivity ].
    injection Hnone as Hnone.
    apply (suffix_loop_found possible_files parts
             (rev (seq 0 (length parts))) None (length parts - 1));
      [ | | exact Hnone ].
    + apply in_rev. rewrite ?rev_involutive. apply in_seq. lia.
    + rewrite Hlast. unfold first_ending_with. intros Hfind.
      pose proof (find_none_all _ _ Hfind c Hc) as Hc'. simpl in Hc'.
      congruence.
  - intros Hnone. f_equal.
    destruct (fold_left _ _ _) as [f | ] eqn:Hfold; [ exfalso | reflexivity ].
    apply suffix_loop_origin in Hfold as [Hf | (i & Hi & Hhit & _)];
      [ discriminate | ].
    apply in_rev in Hi. rewrite ?rev_involutive in Hi. apply in_seq in Hi.
    apply find_is_member in Hhit as [Hin Hends].
    apply (endswith_shorter parts _ i (length parts - 1)) in Hends;
      [ | lia ].
    rewrite Hlast in Hends. rewrite (Hnone f Hin) in Hends. discriminate.
  - intros f Hf. injection Hf as Hfold.
    apply suffix_loop_origin in Hfold as [Hf | (i & Hi & Hhit & _)];
      [ discriminate | ].
    apply in_rev in Hi. rewrite ?rev_involutive in Hi. apply in_seq in Hi.
    apply find_is_member in Hhit as [Hin Hends]. split; [ exact Hin | ].
    apply (endswith_shorter parts _ i (length parts - 1)) in Hends;
      [ | lia ].
    rewrite Hlast in Hends. exact Hends.
Qed.

(** ** More on the path normaliser *)

Lemma join_two (sep a : string) (rest : list string) :
  rest <> [] ->
  Str.join sep (a :: rest) = a +:+ sep +:+ Str.join sep rest.
Proof. destruct rest; [ tauto | reflexivity ]. Qed.

Lemma prefix_append (a b : string) : String.prefix a (a +:+ b) = true.
Proof.
  induction a as [ | c a IH ]; [ destruct b; reflexivity | ].
  rewrite append_cons. simpl.
  destruct (ascii_dec c c); [ exact IH | contradiction ].
Qed.

(** X3.  The normalised path is a suffix of the reported path; when it is not
    the whole path, the two leading segments with their separators were
    dropped and what is left starts with the marker. *)
Theorem normalize_file_path_suffix (s : string) :
  exists dropped kept,
    normalize_file_path (PStr s) = PStr kept
    /\ s = dropped +:+ kept
    /\ (dropped = ""
        \/ (String.prefix "package" kept = true
            /\ exists a b, dropped = a +:+ "/" +:+ b +:+ "/"
                           /\ Str.split "/" s !! 0%nat = Some a
                           /\ Str.split "/" s !! 1%nat = Some b)).
Proof.
  destruct (Str.split "/" s !! 2%nat) as [segment | ] eqn:E.
  - destruct (String.eqb_spec segment "package") as [-> | Hne].
    + rewrite (normalize_file_path_marker s E).
      pose proof (join_split "/" s) as Hjoin.
      destruct (Str.split "/" s) as [ | a [ | b [ | c rest ] ] ];
        try discriminate.
      injection E as ->. simpl drop.
      exists (a +:+ "/" +:+ b +:+ "/"),
             (Str.join "/" ("package" :: rest)).
      split; [ reflexivity | ]. split.
      * rewrite <- Hjoin at 1.
        rewrite (join_two "/" a) by discriminate.
        rewrite (join_two "/" b) by discriminate.
        rewrite !append_assoc. reflexivity.
      * right. split; [ | eauto ].
        destruct rest as [ | d rest ]; [ reflexivity | ].
        rewrite (join_two "/" "package") by discriminate.
        apply prefix_append.
    + exists "", s. rewrite (normalize_file_path_other s segment E Hne).
      split; [ reflexivity | ]. split; [ reflexivity | left; reflexivity ].
  - exists "", s. split; [ | split; [ reflexivity | left; reflexivity ] ].
    apply normalize_file_path_short.
    apply lookup_ge_None in E. lia.
Qed.

(** ** More on the title normaliser *)

Lemma first_replacement_member (items : list (string * string))
    (title0 replacement : string) :
  first_replacement items title0 = Some replacement ->
  In replacement (map snd items).
Proof.
  induction items as [ | [regex r] items IH ]; simpl; [ discriminate | ].
  destruct (re.match_ignorecase regex title0).
  - intros [= <-]. left. reflexivity.
  - intros E. right. exact (IH E).
Qed.

(** X4.  Normalising a normalised title changes nothing. *)
Theorem normalize_title_idempotent (title0 normalized : pyval) :
  normalize_title title0 = Ok normalized ->
  normalize_title normalized = Ok normalized.
Proof.
  destruct title0 as [ | b | z | s | items | entries ];
    unfold normalize_title at 1; try discriminate.
  destruct (first_replacement norm s) as [replacement | ] eqn:E.
  - intros [= <-]. apply first_replacement_member in E.
    simpl in E. destruct E as [<- | [<- | [<- | []]]]; reflexivity.
  - intros [= <-]. unfold normalize_title. rewrite E. reflexivity.
Qed.

Lemma normalize_title_idempotent_witness :
  normalize_title (PStr "Object injection via bracket notation in f()")
  = Ok (PStr "Object injection")
  /\ normalize_title (PStr "Object injection") = Ok (PStr "Object injection").
Proof.
  split; [ reflexivity | ].
  apply (normalize_title_idempotent
           (PStr "Object injection via bracket notation in f()")).
  reflexivity.
Defined.

(** ** The assertion names *)

Section Names.

Context `{Collaborators}.

Lemma str_title_ascii (s : string) :
  Str.isascii s = true -> str_title s = Str.title s.
Proof. intros E. unfold str_title. rewrite E. reflexivity. Qed.

Lemma split_append (sep : ascii) (p s : string) :
  Str.split sep (p +:+ String sep s)
  = (Str.split sep p ++ Str.split sep s)%list.
Proof.
  induction p as [ | c p IH ].
  - change ("" +:+ String sep s) with (String sep s). simpl.
    rewrite Ascii.eqb_refl. reflexivity.
  - rewrite append_cons. simpl. rewrite IH.
    destruct (Ascii.eqb c sep); [ reflexivity | ].
    pose proof (split_not_empty sep p) as Hne.
    destruct (Str.split sep p) as [ | seg segs ]; [ contradiction | ].
    reflexivity.
Qed.

Lemma last_append {X} (l l' : list X) (d : X) :
  l' <> [] -> List.last (l ++ l')%list d = List.last l' d.
Proof.
  intros Hne. induction l as [ | x l IH ]; [ reflexivity | ].
  simpl. destruct (l ++ l')%list eqn:E; [ | exact IH ].
  apply app_eq_nil in E as [_ ->]. contradiction.
Qed.

(** X5.  Only the text after the last dot of an assertion name counts. *)
Theorem normalize_assertion_name_last_part (qualifier name : string) :
  normalize_assertion_name (PStr (qualifier +:+ "." +:+ name))
  = normalize_assertion_name (PStr name).
Proof.
  unfold normalize_assertion_name.
  change ("." +:+ name) with (String "." name).
  rewrite split_append, last_append by apply split_not_empty.
  reflexivity.
Qed.

Lemma split_segments (sep : ascii) (s segment : string) :
  In segment (Str.split sep s) -> ~ In sep (list_ascii_of_string segment).
Proof.
  revert segment. induction s as [ | c s IH ]; intros segment; simpl.
  - intros [<- | []]. simpl. tauto.
  - destruct (Ascii.eqb_spec c sep) as [-> | Hc].
    + intros [<- | Hin]; [ simpl; tauto | exact (IH _ Hin) ].
    + pose proof (split_not_empty sep s) as Hne.
      destruct (Str.split sep s) as [ | seg segs ]; [ contradiction | ].
      intros [<- | Hin].
      * simpl. intros [E | Hin]; [ congruence | ].
        exact (IH seg (or_introl eq_refl) Hin).
      * apply IH. right. exact Hin.
Qed.

Lemma last_member {X} (l : list X) (d : X) : l <> [] -> In (List.last l d) l.
Proof.
  induction l as [ | x l IH ]; [ tauto | ]. intros _.
  destruct l as [ | y l ]; [ left; reflexivity | ].
  right. apply IH. discriminate.
Qed.

Lemma replace_without (a b x : ascii) (s : string) :
  x <> b -> (x = a \/ ~ In x (list_ascii_of_string s)) ->
  ~ In x (list_ascii_of_string (Str.replace a b s)).
Proof.
  intros Hb Hx. induction s as [ | c s IH ]; simpl; [ tauto | ].
  intros [E | Hin].
  - destruct (Ascii.eqb_spec c a) as [-> | Hc]; [ congruence | ].
    subst x. destruct Hx as [-> | Hx]; [ congruence | ].
    apply Hx. left. reflexivity.
  - apply IH; [ | exact Hin ].
    destruct Hx as [-> | Hx]; [ left; reflexivity | ].
    right. intros Hs. apply Hx. right. exact Hs.
Qed.

Lemma letter_cases (c : ascii) :
  is_letter c = true ->
  is_letter (Str.ascii_upper c) = true /\ is_letter (Str.ascii_lower c) = true.
Proof.
  destruct c as [ [] [] [] [] [] [] [] [] ]; vm_compute; intros E;
    first [ discriminate | split; reflexivity ].
Qed.

Lemma title_from_without (x : ascii) (cased : bool) (s : string) :
  is_letter x = false ->
  ~ In x (list_ascii_of_string s) ->
  ~ In x (list_ascii_of_string (Str.title_from cased s)).
Proof.
  intros Hx. revert cased.
  induction s as [ | c s IH ]; intros cased Hs; simpl; [ tauto | ].
  assert (Hrest : ~ In x (list_ascii_of_string s))
    by (intros Hin; apply Hs; right; exact Hin).
  assert (Hc : c <> x) by (intros ->; apply Hs; left; reflexivity).
  fold (is_letter c). destruct (is_letter c) eqn:Hletter; simpl.
  - destruct (letter_cases c Hletter) as [Hup Hlow].
    intros [E | Hin]; [ | exact (IH true Hrest Hin) ].
    destruct cased; subst x; congruence.
  - intros [E | Hin]; [ congruence | exact (IH false Hrest Hin) ].
Qed.

(** X6.  A normalised assertion name has neither a dot nor an underscore. *)
Theorem normalize_assertion_name_separators (name : pyval) (result : string) :
  normalize_assertion_name name = Ok result ->
  ~ In "."%char (list_ascii_of_string result)
  /\ ~ In "_"%char (list_ascii_of_string result).
Proof.
  destruct name as [ | b | z | s | items | entries ]; simpl;
    try discriminate.
  intros [= <-].
  set (text := Str.replace "_" " " (List.last (Str.split "." s) "")).
  assert (Hdot : ~ In "."%char (list_ascii_of_string text)).
  { apply replace_without; [ discriminate | right ].
    apply (split_segments "." s).
    apply last_member, split_not_empty. }
  assert (Hunderscore : ~ In "_"%char (list_ascii_of_string text))
    by (apply replace_without; [ discriminate | left; reflexivity ]).
  unfold str_title. destruct (Str.isascii text).
  - unfold Str.title.
    split; (apply title_from_without; [ reflexivity | assumption ]).
  - split; intros Hin.
    + apply Hdot, (unicode_title_separators text); [ left | ]; tauto.
    + apply Hunderscore, (unicode_title_separators text); [ right | ];
        tauto.
Qed.

End Names.

Lemma normalize_assertion_name_separators_witness :
  normalize_assertion_name (H := sample_collaborators)
    (PStr "oss.security_reviews.code_review")
  = Ok "Code Review"
  /\ ~ In "."%char (list_ascii_of_string "Code Review")
  /\ ~ In "_"%char (list_ascii_of_string "Code Review").
Proof.
  split; [ reflexivity | ].
  apply (normalize_assertion_name_separators (H := sample_collaborators)
           (PStr "oss.security_reviews.code_review")).
  reflexivity.
Defined.

(** ** The assertion side channel *)

Section Assertions.

Context `{Collaborators}.

Lemma with_assertions_none (st : Store) : with_assertions st [] [] = st.
Proof.
  destruct st. unfold with_assertions. simpl. rewrite !app_nil_r.
  reflexivity.
Qed.

Lemma with_assertions_more (st : Store) (packages : list AssertionsPerPackage)
    (rows rows' : list Assertion) :
  with_assertions (with_assertions st packages rows) [] rows'
  = with_assertions st packages (rows ++ rows')%list.
Proof.
  unfold with_assertions. simpl. rewrite app_nil_r, app_assoc. reflexivity.
Qed.

Lemma save_found_reads (package_assertions : AssertionsPerPackage)
    (item uuid : pyval) (name : string) (st : Store) :
  reads_as item uuid name ->
  save_found package_assertions item tt st
  = (Ok tt,
     with_assertions st [] [assertion_row package_assertions uuid name]).
Proof.
  intros (entries & generator & -> & Hgenerator & Hname & ->).
  unfold save_found, bind, lift, dict_get, get_or_none.
  rewrite Hgenerator, Hname.
  unfold Assertion_save, with_assertions. simpl. rewrite app_nil_r.
  reflexivity.
Qed.

Lemma save_found_unreadable (package_assertions : AssertionsPerPackage)
    (item : pyval) (st : Store) :
  (forall uuid name, ~ reads_as item uuid name) ->
  exists e, save_found package_assertions item tt st = (Raise e, st).
Proof.
  intros Hbad. unfold save_found, bind, lift.
  destruct item as [ | b | z | s | items | entries ];
    try (eexists; reflexivity).
  unfold dict_get at 1 2.
  destruct (lookup_key "generator" entries) as [generator | ] eqn:Hgenerator;
    [ | eexists; reflexivity ].
  destruct generator as [ | b | z | s | items | generator ];
    try (eexists; reflexivity).
  unfold dict_get.
  destruct (lookup_key "name" generator) as [name | ] eqn:Hname;
    [ | eexists; reflexivity ].
  destruct name as [ | b | z | name | items | entries' ];
    try (eexists; reflexivity).
  exfalso. apply (Hbad (get_or_none "uuid" entries) name).
  exists entries, generator. tauto.
Qed.

Lemma save_all_found (package_assertions : AssertionsPerPackage)
    (items : list pyval) (rows : list Assertion) (st : Store) :
  rows_of package_assertions items rows ->
  for_each items (save_found package_assertions) tt st
  = (Ok tt, with_assertions st [] rows).
Proof.
  intros Hrows. revert st.
  induction Hrows as [ | item row items rows (uuid & name & Hitem & ->) _ IH ];
    intros st.
  - simpl. unfold ret. rewrite with_assertions_none. reflexivity.
  - change (for_each (item :: items) (save_found package_assertions) tt st)
      with (bind (save_found package_assertions item tt)
                 (for_each items (save_found package_assertions)) st).
    rewrite (bind_ok _ _ _ _ _ (save_found_reads _ _ _ _ st Hitem)).
    rewrite IH, with_assertions_more. reflexivity.
Qed.

Lemma save_until_unreadable (package_assertions : AssertionsPerPackage)
    (good : list pyval) (bad : pyval) (rest : list pyval)
    (rows : list Assertion) (st : Store) :
  rows_of package_assertions good rows ->
  (forall uuid name, ~ reads_as bad uuid name) ->
  exists e,
    for_each (good ++ bad :: rest)%list (save_found package_assertions) tt st
    = (Raise e, with_assertions st [] rows).
Proof.
  intros Hrows Hbad. revert st.
  induction Hrows as [ | item row items rows (uuid & name & Hitem & ->) _ IH ];
    intros st.
  - destruct (save_found_unreadable package_assertions bad st Hbad)
      as [e He].
    exists e.
    change (for_each ([] ++ bad :: rest)%list
              (save_found package_assertions) tt st)
      with (bind (save_found package_assertions bad tt)
                 (for_each rest (save_found package_assertions)) st).
    rewrite (bind_raise _ _ _ _ _ He), with_assertions_none. reflexivity.
  - destruct (IH (with_assertions st []
                    [assertion_row package_assertions uuid name]))
      as [e He].
    exists e.
    change (for_each ((item :: items) ++ bad :: rest)%list
              (save_found package_assertions) tt st)
      with (bind (save_found package_assertions item tt)
                 (for_each (items ++ bad :: rest)%list
                    (save_found package_assertions)) st).
    rewrite (bind_ok _ _ _ _ _ (save_found_reads _ _ _ _ st Hitem)).
    rewrite He, with_assertions_more. reflexivity.
Qed.

(** The start of [add_assertion] for a list whose first item has a
    [subject] dict. *)
Lemma add_assertion_try_list (first : list (string * pyval))
    (subject : list (string * pyval)) (items : list pyval) (st : Store) :
  lookup_key "subject" first = Some (PDict subject) ->
  add_assertion_try (PList (PDict first :: items)) st
  = (let package_assertions :=
       {| package_uuid := get_or_none "uuid" subject;
          package_name := get_or_none "identifier" subject;
          total_assertions := S (length items) |} in
     for_each (PDict first :: items) (save_found package_assertions) tt ;;;
     ret true)
      (with_assertions st
         [ {| package_uuid := get_or_none "uuid" subject;
              package_name := get_or_none "identifier" subject;
              total_assertions := S (length items) |} ] []).
Proof.
  intros Hsubject. unfold add_assertion_try.
  unfold bind at 1, lift at 1. simpl py_len. cbv iota.
  unfold bind at 1, lift at 1. simpl py_first. cbv iota.
  unfold bind at 1, lift at 1, dict_get at 1. rewrite Hsubject. cbv iota.
  unfold bind at 1, lift at 1, dict_get at 1.
  unfold bind at 1, lift at 1.
  unfold bind at 1, lift at 1, dict_get at 1. rewrite Hsubject. cbv iota.
  unfold bind at 1, lift at 1, dict_get at 1.
  unfold bind at 1, AssertionsPerPackage_save at 1.
  unfold bind at 1, lift at 1. simpl py_iter. cbv iota.
  unfold with_assertions, get_or_none. rewrite app_nil_r. reflexivity.
Qed.


(** X8.  A list of items that all read well, the first of them with a
    [subject], is recorded in full. *)
Theorem add_assertion_saves_all (first subject : list (string * pyval))
    (items : list pyval) (rows : list Assertion) (st : Store) :
  let package_assertions :=
    {| package_uuid := get_or_none "uuid" subject;
       package_name := get_or_none "identifier" subject;
       total_assertions := S (length items) |} in
  lookup_key "subject" first = Some (PDict subject) ->
  rows_of package_assertions (PDict first :: items) rows ->
  add_assertion (PList (PDict first :: items)) st
  = (Ok true, with_assertions st [package_assertions] rows).
Proof.
  intros package_assertions Hsubject Hrows.
  unfold add_assertion, catch.
  rewrite (add_assertion_try_list first subject items st Hsubject).
  cbv zeta. fold package_assertions.
  rewrite (bind_ok _ _ _ _ _
             (save_all_found package_assertions _ rows _ Hrows)).
  unfold ret. rewrite with_assertions_more. reflexivity.
Qed.

(** X9.  An item that does not read well ends the loop.  The package row,
    which counts every item, and the rows of the items before it stay, and
    the answer is [False]. *)
Theorem add_assertion_stops_at_unreadable
    (first subject : list (string * pyval))
    (good : list pyval) (bad : pyval) (rest : list pyval)
    (rows : list Assertion) (st : Store) :
  let package_assertions :=
    {| package_uuid := get_or_none "uuid" subject;
       package_name := get_or_none "identifier" subject;
       total_assertions := S (length (good ++ bad :: rest)%list) |} in
  lookup_key "subject" first = Some (PDict subject) ->
  rows_of package_assertions (PDict first :: good) rows ->
  (forall uuid name, ~ reads_as bad uuid name) ->
  add_assertion (PList (PDict first :: good ++ bad :: rest)%list) st
  = (Ok false, with_assertions st [package_assertions] rows).
Proof.
  intros package_assertions Hsubject Hrows Hbad.
  unfold add_assertion, catch.
  rewrite (add_assertion_try_list first subject _ st Hsubject).
  cbv zeta. fold package_assertions.
  destruct (save_until_unreadable package_assertions (PDict first :: good)
              bad rest rows
              (with_assertions st [package_assertions] []) Hrows Hbad)
    as [e He].
  change (PDict first :: good ++ bad :: rest)%list
    with ((PDict first :: good) ++ bad :: rest)%list.
  rewrite (bind_raise _ _ _ _ _ He), with_assertions_more. reflexivity.
Qed.

(** X10.  Without a first item that is a dict with a [subject] dict (an empty
    list, a dict, a string, a number) nothing is recorded and the answer is
    [False]. *)
Theorem add_assertion_without_subject (assertion_data : pyval) (st : Store) :
  (forall first subject,
     py_first assertion_data = Ok (PDict first) ->
     lookup_key "subject" first <> Some (PDict subject)) ->
  add_assertion assertion_data st = (Ok false, st).
Proof.
  intros Hnone. unfold add_assertion, catch, add_assertion_try.
  unfold bind at 1, lift at 1.
  destruct (py_len assertion_data) as [total | e]; [ | reflexivity ].
  unfold bind at 1, lift at 1.
  destruct (py_first assertion_data) as [first | e] eqn:Hfirst;
    [ | reflexivity ].
  unfold bind at 1, lift at 1.
  destruct first as [ | b | z | s | items | first ]; try reflexivity.
  unfold dict_get at 1.
  unfold bind at 1, lift at 1.
  destruct (lookup_key "subject" first) as [subject | ] eqn:Hsubject;
    [ | reflexivity ].
  destruct subject as [ | b | z | s | items | subject ]; try reflexivity.
  exfalso. exact (Hnone first subject eq_refl Hsubject).
Qed.

Lemma records_only_pure {A} (c : M A) :
  (forall st, snd (c st) = st) -> records_only c.
Proof.
  intros Hc st. exists [], []. rewrite Hc, with_assertions_none.
  reflexivity.
Qed.

Lemma records_only_bind {A B} (c : M A) (k : A -> M B) :
  records_only c -> (forall a, records_only (k a)) ->
  records_only (bind c k).
Proof.
  intros Hc Hk st. unfold bind. destruct (Hc st) as (p1 & r1 & E1).
  destruct (c st) as [ [a | e] st1 ]; simpl in E1.
  - destruct (Hk a st1) as (p2 & r2 & E2).
    exists (p1 ++ p2)%list, (r1 ++ r2)%list.
    rewrite E2, E1. unfold with_assertions. simpl.
    rewrite !app_assoc. reflexivity.
  - exists p1, r1. exact E1.
Qed.

Lemma records_only_for_each {X A} (xs : list X) (body : X -> A -> M A)
    (acc : A) :
  (forall x a, records_only (body x a)) ->
  records_only (for_each xs body acc).
Proof.
  intros Hbody. revert acc. induction xs as [ | x xs IH ]; intros acc; simpl.
  - apply records_only_pure. reflexivity.
  - apply records_only_bind; [ apply Hbody | exact IH ].
Qed.

Lemma records_only_add_assertion_try (assertion_data : pyval) :
  records_only (add_assertion_try assertion_data).
Proof.
  unfold add_assertion_try.
  repeat first
    [ apply records_only_pure; reflexivity
    | apply records_only_for_each; intros ? ?
    | apply records_only_bind; [ | intros ? ] ].
  - intros st. eexists [ _ ], [].
    unfold with_assertions. simpl. rewrite app_nil_r. reflexivity.
  - intros st. eexists [], [ _ ].
    unfold with_assertions. simpl. rewrite app_nil_r. reflexivity.
Qed.

Lemma add_assertion_records (assertion_data : pyval) (st : Store) :
  exists answer packages rows,
    add_assertion assertion_data st
    = (Ok answer, with_assertions st packages rows).
Proof.
  destruct (records_only_add_assertion_try assertion_data st)
    as (packages & rows & E).
  unfold add_assertion, catch.
  destruct (add_assertion_try assertion_data st) as [ [answer | e] st' ];
    simpl in E; subst st'; eauto.
Qed.

(** X7.  [add_assertion] never raises, and all it does to the store is
    adding rows to the two assertion tables. *)
Theorem add_assertion_never_raises (assertion_data : pyval) (st : Store) :
  exists answer packages rows,
    add_assertion assertion_data st
    = (Ok answer, with_assertions st packages rows)
    /\ users (with_assertions st packages rows) = users st
    /\ tools (with_assertions st packages rows) = tools st
    /\ findings (with_assertions st packages rows) = findings st.
Proof.
  destruct (add_assertion_records assertion_data st)
    as (answer & packages & rows & E).
  exists answer, packages, rows. rewrite E. repeat split.
Qed.

End Assertions.

(** ** Properties that the edits of the store keep *)

Section StoreEdits.

Context `{Collaborators}.

Variable project_version0 : ProjectVersion.
Variable I : Store -> Prop.
Hypothesis edits : kept_by_edits project_version0 I.

Lemma steps_pure {A} (c : M A) : (forall st, snd (c st) = st) -> steps I c.
Proof. intros Hc st Hst. rewrite Hc. exact Hst. Qed.

Lemma steps_bind {A B} (c : M A) (k : A -> M B) :
  steps I c -> (forall a, steps I (k a)) -> steps I (bind c k).
Proof.
  intros Hc Hk st Hst. unfold bind. specialize (Hc st Hst).
  destruct (c st) as [ [a | e] st1 ]; simpl in *; [ | exact Hc ].
  exact (Hk a st1 Hc).
Qed.

Lemma steps_for_each {X A} (xs : list X) (body : X -> A -> M A) (acc : A) :
  (forall x a, steps I (body x a)) -> steps I (for_each xs body acc).
Proof.
  intros Hbody. revert acc. induction xs as [ | x xs IH ]; intros acc; simpl.
  - apply steps_pure. reflexivity.
  - apply steps_bind; [ apply Hbody | exact IH ].
Qed.

Lemma steps_add_assertion (assertion_data : pyval) :
  steps I (add_assertion assertion_data).
Proof.
  intros st Hst.
  destruct (add_assertion_records assertion_data st)
    as (answer & packages & rows & E).
  rewrite E. simpl. apply (proj1 edits), Hst.
Qed.

Lemma steps_Tool_get_or_create (name version : pyval) (user : User) :
  steps I (Tool_get_or_create name version user).
Proof.
  intros st Hst. unfold Tool_get_or_create.
  destruct (find (same_tool name version) (tools st)) eqn:E; [ exact Hst | ].
  simpl. apply (proj1 (proj2 edits) st
                  {| tool_name := name;
                     tool_version := version;
                     tool_type := STATIC_ANALYSIS;
                     tool_created_by := user;
                     tool_updated_by := user |} Hst).
  exact E.
Qed.

Lemma steps_import_location (user : User) (tool0 : Tool)
    (message level location : pyval) (locals : Locals) :
  steps I (import_location project_version0 user tool0 message level
                           location locals).
Proof.
  unfold import_location.
  destruct (negb _); [ apply steps_pure; reflexivity | ].
  case_bool_decide; [ | apply steps_pure; reflexivity ].
  intros st Hst. unfold bind, lift, ret, Finding_exists, Finding_save.
  destruct (get_most_likely_source _ _) as [ [source_file | ] | e ] eqn:Hfile;
    [ | exact Hst | exact Hst ].
  destruct (normalize_title message) as [ normalized | e ] eqn:Hnorm;
    [ | exact Hst ].
  destruct (existsb _ _) eqn:Hdup; [ exact Hst | ].
  simpl. apply (proj2 (proj2 edits) st _ Hst); [ | exact Hdup ].
  unfold imported_row. simpl.
  repeat split; try reflexivity.
  - destruct (normalize_file_path _) as [ | b | z | s | items | entries ];
      try discriminate.
    apply (get_most_likely_source_member project_version0 s source_file Hfile).
  - destruct message; try discriminate. eauto.
  - exact Hnorm.
Qed.

Lemma steps_import_result (user : User) (tool0 : Tool) (result : pyval)
    (locals : Locals) :
  steps I (import_result project_version0 user tool0 result locals).
Proof.
  unfold import_result.
  apply steps_bind; [ apply steps_pure; reflexivity | intros _ ].
  apply steps_bind; [ apply steps_pure; reflexivity | intros locations ].
  apply steps_for_each. intros location l. apply steps_import_location.
Qed.

Lemma steps_import_run (user : User) (run : pyval) (locals : Locals) :
  steps I (import_run project_version0 user run locals).
Proof.
  unfold import_run.
  apply steps_bind; [ apply steps_Tool_get_or_create | intros tool0 ].
  apply steps_bind; [ apply steps_pure; reflexivity | intros rules ].
  apply steps_bind; [ apply steps_pure; reflexivity | intros map0 ].
  apply steps_bind; [ apply steps_pure; reflexivity | intros results ].
  apply steps_bind; [ apply steps_pure; reflexivity | intros results' ].
  apply steps_for_each. intros result l. apply steps_import_result.
Qed.

Lemma steps_import_sarif_file (sarif : pyval) (user : option User) :
  steps I (import_sarif_file sarif (Some project_version0) user).
Proof.
  unfold import_sarif_file, raise.
  destruct sarif; try (apply steps_pure; reflexivity).
  destruct (negb _); [ apply steps_pure; reflexivity | ].
  apply steps_bind.
  { destruct user; apply steps_pure; [ reflexivity | ].
    intros st. unfold User_get. destruct (find _ _); reflexivity. }
  intros user'.
  apply steps_bind; [ apply steps_pure; reflexivity | intros data ].
  apply steps_bind.
  { destruct data; first [ apply steps_add_assertion
                         | apply steps_pure; reflexivity ]. }
  intros _.
  apply steps_bind; [ apply steps_pure; reflexivity | intros runs ].
  apply steps_bind; [ apply steps_pure; reflexivity | intros runs' ].
  apply steps_bind; [ | intros l; apply steps_pure; reflexivity ].
  apply steps_for_each. intros run l. apply steps_import_run.
Qed.

End StoreEdits.

(** ** What an import does to the store *)

Section Invariants.

Context `{Collaborators}.

Lemma existsb_none {X} (f : X -> bool) (l : list X) :
  existsb f l = false -> forall x, In x l -> f x = false.
Proof.
  induction l as [ | y l IH ]; simpl; [ tauto | ].
  intros E. apply orb_false_elim in E as [Ey El].
  intros x [<- | Hx]; [ exact Ey | exact (IH El x Hx) ].
Qed.

(** A row appended to distinct rows that differs from each of them. *)
Lemma distinct_appended {X} (differs : X -> X -> bool) (rows : list X)
    (row : X) :
  (forall i j earlier later,
     i < j -> rows !! i = Some earlier -> rows !! j = Some later ->
     differs later earlier = false) ->
  (forall earlier, In earlier rows -> differs row earlier = false) ->
  forall i j earlier later,
    i < j -> (rows ++ [row])%list !! i = Some earlier ->
    (rows ++ [row])%list !! j = Some later ->
    differs later earlier = false.
Proof.
  intros Hrows Hrow i j earlier later Hij Hi Hj.
  assert (Hjlen : j < length (rows ++ [row])%list)
    by (apply lookup_lt_is_Some; eauto).
  rewrite length_app in Hjlen. simpl in Hjlen.
  rewrite lookup_app_l in Hi by lia.
  destruct (decide (j < length rows)) as [Hlt | Hge].
  - rewrite lookup_app_l in Hj by exact Hlt.
    exact (Hrows i j earlier later Hij Hi Hj).
  - rewrite lookup_app_r in Hj by lia.
    replace (j - length rows) with 0 in Hj by lia.
    injection Hj as <-. apply Hrow.
    apply list_elem_of_In. apply list_elem_of_lookup. eauto.
Qed.

Lemma import_without_project_version (sarif : pyval) (user : option User)
    (st : Store) :
  snd (import_sarif_file sarif None user st) = st.
Proof.
  unfold import_sarif_file, raise. destruct sarif; try reflexivity.
  destruct (negb _); reflexivity.
Qed.

(** X11.  An import only appends.  It keeps the users, the tools and the
    findings that are stored, in their order; and every finding it saves is
    new, belongs to the project version, points to one of its files, has a
    string title with the normalised title of that string, and carries no
    analyst severity or confidence. *)
Theorem import_only_appends (sarif : pyval)
    (project_version0 : ProjectVersion) (user : option User) (st : Store) :
  let st' := snd (import_sarif_file sarif (Some project_version0) user st) in
  users st' = users st
  /\ (exists created, tools st' = (tools st ++ created)%list)
  /\ (exists saved,
        findings st' = (findings st ++ saved)%list
        /\ Forall (imported_row project_version0) saved).
Proof.
  apply (steps_import_sarif_file project_version0
           (fun s =>
              users s = users st
              /\ (exists created, tools s = (tools st ++ created)%list)
              /\ (exists saved,
                    findings s = (findings st ++ saved)%list
                    /\ Forall (imported_row project_version0) saved))).
  - split; [ | split ].
    + intros s packages rows Hs. exact Hs.
    + intros s t (Hu & (created & Ht) & Hf) _. split; [ exact Hu | ].
      split; [ | exact Hf ].
      exists (created ++ [t])%list. simpl. rewrite Ht, app_assoc.
      reflexivity.
    + intros s finding (Hu & Ht & (saved & Hf & Hsaved)) Hrow _.
      split; [ exact Hu | ]. split; [ exact Ht | ].
      exists (saved ++ [finding])%list. simpl. rewrite Hf, app_assoc.
      split; [ reflexivity | ].
      apply Forall_app. split; [ exact Hsaved | ].
      constructor; [ exact Hrow | constructor ].
  - split; [ reflexivity | ]. split.
    + exists []. rewrite app_nil_r. reflexivity.
    + exists []. rewrite app_nil_r. split; [ reflexivity | constructor ].
Qed.

(** X12.  If no two stored findings agree on title, file, line and project
    version, this still holds after an import. *)
Theorem import_keeps_findings_distinct (sarif : pyval)
    (project_version0 : option ProjectVersion) (user : option User)
    (st : Store) :
  distinct_findings (findings st) ->
  distinct_findings
    (findings (snd (import_sarif_file sarif project_version0 user st))).
Proof.
  intros Hst. destruct project_version0 as [pv | ];
    [ | rewrite import_without_project_version; exact Hst ].
  apply (steps_import_sarif_file pv
           (fun s => distinct_findings (findings s))); [ | exact Hst ].
  split; [ | split ].
  - intros s packages rows Hs. exact Hs.
  - intros s t Hs _. exact Hs.
  - intros s finding Hs _ Hnew. simpl. unfold distinct_findings.
    apply (distinct_appended same_finding (findings s) finding Hs).
    apply existsb_none, Hnew.
Qed.

(** X13.  If no two stored tools agree on name and version, this still holds
    after an import. *)
Theorem import_keeps_tools_distinct (sarif : pyval)
    (project_version0 : option ProjectVersion) (user : option User)
    (st : Store) :
  distinct_tools (tools st) ->
  distinct_tools
    (tools (snd (import_sarif_file sarif project_version0 user st))).
Proof.
  intros Hst. destruct project_version0 as [pv | ];
    [ | rewrite import_without_project_version; exact Hst ].
  apply (steps_import_sarif_file pv (fun s => distinct_tools (tools s)));
    [ | exact Hst ].
  split; [ | split ].
  - intros s packages rows Hs. exact Hs.
  - intros s t Hs Hnew. simpl. unfold distinct_tools.
    apply (distinct_appended
             (fun later earlier =>
                same_tool (tool_name later) (tool_version later) earlier)
             (tools s) t Hs).
    intros earlier Hin. exact (find_none_all _ _ Hnew earlier Hin).
  - intros s finding Hs _ _. exact Hs.
Qed.

(** X14.  For a project version without files no finding is saved, whatever
    the log holds. *)
Theorem import_without_files (sarif : pyval)
    (project_version0 : ProjectVersion) (user : option User) (st : Store) :
  files project_version0 = [] ->
  findings (snd (import_sarif_file sarif (Some project_version0) user st))
  = findings st.
Proof.
  intros Hfiles.
  apply (steps_import_sarif_file project_version0
           (fun s => findings s = findings st)); [ | reflexivity ].
  split; [ | split ].
  - intros s packages rows Hs. exact Hs.
  - intros s t Hs _. exact Hs.
  - intros s finding _ (_ & _ & Hfile & _) _.
    rewrite Hfiles in Hfile. destruct Hfile.
Qed.

End Invariants.

(** ** The fallback user *)

Section Fallback.

Context `{Collaborators}.

(** X16.  A call without a user is the call for the user with id 1; where
    there is no such user, a call with valid arguments raises
    [DoesNotExist] before it writes anything. *)
Theorem import_fallback_user (sarif : pyval)
    (project_version0 : option ProjectVersion) (st : Store) :
  (forall fallback,
     find (fun u => Z.eqb (user_id u) 1) (users st) = Some fallback ->
     import_sarif_file sarif project_version0 None st
     = import_sarif_file sarif project_version0 (Some fallback) st)
  /\ (find (fun u => Z.eqb (user_id u) 1) (users st) = None ->
      ~ invalid_input sarif project_version0 ->
      import_sarif_file sarif project_version0 None st
      = (Raise DoesNotExist, st)).
Proof.
  split.
  - intros fallback Hfind. unfold import_sarif_file.
    destruct sarif as [ | b | z | s | items | entries ]; try reflexivity.
    destruct (negb _); [ reflexivity | ].
    destruct project_version0 as [pv | ]; [ | reflexivity ].
    unfold bind at 1. unfold bind at 6.
    unfold User_get, ret at 1. rewrite Hfind. reflexivity.
  - intros Hfind Hvalid. unfold import_sarif_file.
    destruct sarif as [ | b | z | s | items | entries ];
      try (exfalso; apply Hvalid; right; left; discriminate).
    destruct (pyval_eqb _ (PStr "2.1.0")) eqn:Hversion; simpl.
    + destruct project_version0 as [pv | ];
        [ | exfalso; apply Hvalid; right; right; right; reflexivity ].
      unfold bind at 1, User_get. rewrite Hfind. reflexivity.
    + exfalso. apply Hvalid. right. right. left.
      exists entries. split; [ reflexivity | ].
      intros E. rewrite E in Hversion. discriminate.
Qed.

End Fallback.

(** ** Locations outside the source root *)

Section Outside.

Context `{Collaborators}.

Lemma for_each_skipped (project_version0 : ProjectVersion) (user : User)
    (tool0 : Tool) (message level : pyval) (locations : list pyval)
    (locals : Locals) (st : Store) :
  Forall (fun location => in_source_root (src_root_of location) = false)
         locations ->
  for_each locations
    (import_location project_version0 user tool0 message level) locals st
  = (Ok locals, st).
Proof.
  intros Hout. induction Hout as [ | location locations Hl _ IH ];
    [ reflexivity | ].
  simpl.
  rewrite (bind_ok _ _ _ _ _
             (import_location_skipped project_version0 user tool0 message
                level location locals st Hl)).
  exact IH.
Qed.

(** X17.  A result whose locations all lie outside the source root leaves no
    trace: no key is remembered, nothing is counted, nothing is stored. *)
Theorem import_result_outside_root (project_version0 : ProjectVersion)
    (user : User) (tool0 : Tool) (entries : list (string * pyval))
    (locations : list pyval) (locals : Locals) (st : Store) :
  py_iter (get_complex (PDict entries) "locations" get_complex_default)
  = Ok locations ->
  Forall (fun location => in_source_root (src_root_of location) = false)
         locations ->
  import_result project_version0 user tool0 (PDict entries) locals st
  = (Ok locals, st).
Proof.
  intros Hlocations Hout.
  rewrite (import_result_locations project_version0 user tool0 entries
             locations locals st Hlocations).
  apply for_each_skipped, Hout.
Qed.

End Outside.

(** ** The assertion data and the findings *)

Section Independence.

Context `{Collaborators}.

Lemma ignores_pure {A} (r : Result A) :
  ignores_assertions (fun st => (r, st)).
Proof. intros st packages rows. reflexivity. Qed.

Lemma ignores_bind {A B} (c : M A) (k : A -> M B) :
  ignores_assertions c -> (forall a, ignores_assertions (k a)) ->
  ignores_assertions (bind c k).
Proof.
  intros Hc Hk st packages rows. unfold bind. rewrite Hc.
  destruct (c st) as [ [a | e] st1 ]; simpl; [ apply Hk | reflexivity ].
Qed.

Lemma ignores_for_each {X A} (xs : list X) (body : X -> A -> M A) (acc : A) :
  (forall x a, ignores_assertions (body x a)) ->
  ignores_assertions (for_each xs body acc).
Proof.
  intros Hbody. revert acc. induction xs as [ | x xs IH ]; intros acc; simpl.
  - apply (ignores_pure (Ok acc)).
  - apply ignores_bind; [ apply Hbody | exact IH ].
Qed.

Lemma ignores_import_location (project_version0 : ProjectVersion)
    (user : User) (tool0 : Tool) (message level location : pyval)
    (locals : Locals) :
  ignores_assertions
    (import_location project_version0 user tool0 message level location
                     locals).
Proof.
  unfold import_location.
  destruct (negb _); [ apply (ignores_pure (Ok locals)) | ].
  case_bool_decide; [ | apply (ignores_pure (Ok (count_one locals))) ].
  apply ignores_bind; [ apply ignores_pure | intros [source_file | ] ];
    [ | apply (ignores_pure (Ok _)) ].
  apply ignores_bind; [ apply ignores_pure | intros normalized ].
  apply ignores_bind.
  - intros st packages rows. reflexivity.
  - intros [ | ]; [ apply (ignores_pure (Ok _)) | ].
    apply ignores_bind; [ | intros _; apply (ignores_pure (Ok _)) ].
    intros st packages rows. reflexivity.
Qed.

Lemma ignores_import_result (project_version0 : ProjectVersion)
    (user : User) (tool0 : Tool) (result : pyval) (locals : Locals) :
  ignores_assertions
    (import_result project_version0 user tool0 result locals).
Proof.
  unfold import_result.
  apply ignores_bind; [ apply ignores_pure | intros _ ].
  apply ignores_bind; [ apply ignores_pure | intros locations ].
  apply ignores_for_each. intros location l. apply ignores_import_location.
Qed.

Lemma ignores_import_run (project_version0 : ProjectVersion) (user : User)
    (run : pyval) (locals : Locals) :
  ignores_assertions (import_run project_version0 user run locals).
Proof.
  unfold import_run. apply ignores_bind.
  - intros st packages rows. unfold Tool_get_or_create. simpl.
    destruct (find _ (tools st)); reflexivity.
  - intros tool0.
    apply ignores_bind; [ apply ignores_pure | intros rules ].
    apply ignores_bind; [ apply ignores_pure | intros map0 ].
    apply ignores_bind; [ apply ignores_pure | intros results ].
    apply ignores_bind; [ apply ignores_pure | intros results' ].
    apply ignores_for_each. intros result l. apply ignores_import_result.
Qed.

Lemma import_sarif_file_steps (entries : list (string * pyval))
    (project_version0 : ProjectVersion) (user : option User) (st : Store) :
  pyval_eqb (get_or_none "version" entries) (PStr "2.1.0") = true ->
  import_sarif_file (PDict entries) (Some project_version0) user st
  = match (match user with
           | Some user0 => ret user0
           | None => User_get 1
           end) st with
    | (Raise e, st1) => (Raise e, st1)
    | (Ok user', st1) =>
        match (match get_or_none "assertion_data" entries with
               | PNone => ret false
               | _ => add_assertion (get_or_none "assertion_data" entries)
               end) st1 with
        | (Raise e, st2) => (Raise e, st2)
        | (Ok _, st2) => import_runs entries project_version0 user' st2
        end
    end.
Proof.
  intros Hversion. unfold import_sarif_file.
  fold (get_or_none "version" entries). rewrite Hversion.
  reflexivity.
Qed.

Lemma ignores_import_runs (entries : list (string * pyval))
    (project_version0 : ProjectVersion) (user : User) :
  ignores_assertions (import_runs entries project_version0 user).
Proof.
  unfold import_runs.
  apply ignores_bind; [ apply ignores_pure | intros runs ].
  apply ignores_bind; [ apply ignores_pure | intros runs0 ].
  apply ignores_bind; [ | intros l; apply (ignores_pure (Ok _)) ].
  apply ignores_for_each. intros run l. apply ignores_import_run.
Qed.

Lemma import_runs_without_data (entries : list (string * pyval))
    (assertion_data : pyval) (project_version0 : ProjectVersion)
    (user : User) :
  import_runs (("assertion_data", assertion_data) :: entries)
              project_version0 user
  = import_runs entries project_version0 user.
Proof. reflexivity. Qed.

(** X18.  Assertion data in a log changes neither the answer of the import
    nor what it does to the users, the tools and the findings. *)
Theorem import_ignores_assertion_data (entries : list (string * pyval))
    (assertion_data : pyval) (project_version0 : option ProjectVersion)
    (user : option User) (st : Store) :
  lookup_key "assertion_data" entries = None ->
  exists packages rows,
    import_sarif_file (PDict (("assertion_data", assertion_data) :: entries))
      project_version0 user st
    = (fst (import_sarif_file (PDict entries) project_version0 user st),
       with_assertions
         (snd (import_sarif_file (PDict entries) project_version0 user st))
         packages rows).
Proof.
  intros Hnone.
  destruct (pyval_eqb (get_or_none "version" entries) (PStr "2.1.0"))
    eqn:Hversion;
    [ destruct project_version0 as [pv | ] | ].
  - rewrite (import_sarif_file_steps entries pv user st Hversion).
    rewrite (import_sarif_file_steps
               (("assertion_data", assertion_data) :: entries) pv user st
               Hversion).
    assert (Huser : forall s,
               snd (match user with
                    | Some user0 => ret user0
                    | None => User_get 1
                    end s) = s).
    { intros s. destruct user; [ reflexivity | ]. unfold User_get.
      destruct (find _ _); reflexivity. }
    specialize (Huser st).
    destruct (match user with Some user0 => ret user0 | None => User_get 1 end
                st) as [ [user' | e] st1 ]; simpl in Huser; subst st1;
      [ | exists [], []; rewrite with_assertions_none; reflexivity ].
    assert (Hdata : get_or_none "assertion_data" entries = PNone)
      by (unfold get_or_none; rewrite Hnone; reflexivity).
    rewrite Hdata.
    change (get_or_none "assertion_data"
              (("assertion_data", assertion_data) :: entries))
      with assertion_data.
    rewrite import_runs_without_data.
    unfold ret at 1.
    destruct (add_assertion_records assertion_data st)
      as (answer & packages & rows & Hadd).
    destruct assertion_data;
      try (exists packages, rows; rewrite Hadd;
           apply ignores_import_runs).
    exists [], []. unfold ret. rewrite with_assertions_none.
    destruct (import_runs entries pv user' st); reflexivity.
  - exists [], []. rewrite with_assertions_none.
    unfold import_sarif_file.
    change (lookup_key "version"
              (("assertion_data", assertion_data) :: entries))
      with (lookup_key "version" entries).
    fold (get_or_none "version" entries). rewrite Hversion. reflexivity.
  - exists [], []. rewrite with_assertions_none.
    unfold import_sarif_file.
    change (lookup_key "version"
              (("assertion_data", assertion_data) :: entries))
      with (lookup_key "version" entries).
    fold (get_or_none "version" entries). rewrite Hversion.
    destruct project_version0; reflexivity.
Qed.

End Independence.

(** ** Looking a tool up again *)

Section Tools.

Context `{Collaborators}.

Lemma find_appended {X} (f : X -> bool) (l : list X) (x : X) :
  find f l = None -> f x = true -> find f (l ++ [x])%list = Some x.
Proof.
  intros Hnone Hx. induction l as [ | y l IH ]; simpl in *.
  - rewrite Hx. reflexivity.
  - destruct (f y); [ discriminate | exact (IH Hnone) ].
Qed.

(** X19.  A tool that was fetched or created is fetched again, for any
    user, and the second call creates nothing. *)
Theorem Tool_get_or_create_twice (name version : pyval) (user user' : User)
    (st : Store) :
  exists tool0 st',
    Tool_get_or_create name version user st = (Ok tool0, st')
    /\ tool_name tool0 = name
    /\ tool_version tool0 = version
    /\ Tool_get_or_create name version user' st' = (Ok tool0, st').
Proof.
  unfold Tool_get_or_create.
  destruct (find (same_tool name version) (tools st)) as [t | ] eqn:E.
  - exists t, st. rewrite E.
    apply find_is_member in E as [_ Hsame]. unfold same_tool in Hsame.
    apply andb_prop in Hsame as [Hname Hversion].
    apply pyval_eqb_eq in Hname, Hversion. repeat split; assumption.
  - eexists _, _. split; [ reflexivity | ]. simpl.
    split; [ reflexivity | ]. split; [ reflexivity | ].
    rewrite (find_appended _ _ _ E); [ reflexivity | ].
    unfold same_tool. simpl. rewrite !pyval_eqb_refl. reflexivity.
Qed.

End Tools.

(** ** The further properties on the sample data *)

Lemma get_most_likely_source_whole_segment_witness :
  2 <= length (possible_files_of sample_version "b/index.js")
  /\ In index_b (possible_files_of sample_version "b/index.js")
  /\ Str.endswith (path index_b) "/index.js" = true.
Proof.
  assert (Hlen : 2 <= length (possible_files_of sample_version "b/index.js"))
    by (simpl; lia).
  split; [ exact Hlen | ].
  apply (proj2 (get_most_likely_source_whole_segment
                  sample_version "b/index.js" Hlen) index_b).
  reflexivity.
Defined.

Lemma add_assertion_saves_all_witness :
  lookup_key "subject" first_item = Some (PDict sample_subject)
  /\ rows_of (H := sample_collaborators) (sample_package 2) [ PDict first_item; second_item ]
             [ first_row 2; second_row 2 ]
  /\ add_assertion (H := sample_collaborators)
       (PList [ PDict first_item; second_item ]) sample_store
     = (Ok true,
        with_assertions sample_store [ sample_package 2 ]
                        [ first_row 2; second_row 2 ]).
Proof.
  assert (Hrows : rows_of (H := sample_collaborators) (sample_package 2)
                    [ PDict first_item; second_item ]
                    [ first_row 2; second_row 2 ]).
  { repeat constructor.
    - exists (PStr "a-1"), "openssf.omega.security_review".
      split; [ | reflexivity ].
      exists first_item, [ ("name", PStr "openssf.omega.security_review") ].
      repeat split.
    - exists (PStr "a-2"), "openssf.omega.code_review".
      split; [ | reflexivity ].
      eexists _, [ ("name", PStr "openssf.omega.code_review") ].
      repeat split. }
  split; [ reflexivity | ]. split; [ exact Hrows | ].
  exact (add_assertion_saves_all (H := sample_collaborators) first_item
           sample_subject [ second_item ] [ first_row 2; second_row 2 ]
           sample_store eq_refl Hrows).
Defined.

Lemma add_assertion_stops_at_unreadable_witness :
  rows_of (H := sample_collaborators) (sample_package 3) [ PDict first_item ] [ first_row 3 ]
  /\ (forall uuid name, ~ reads_as unreadable_item uuid name)
  /\ add_assertion (H := sample_collaborators)
       (PList [ PDict first_item; unreadable_item; second_item ])
       sample_store
     = (Ok false,
        with_assertions sample_store [ sample_package 3 ] [ first_row 3 ]).
Proof.
  assert (Hrows : rows_of (H := sample_collaborators) (sample_package 3) [ PDict first_item ]
                          [ first_row 3 ]).
  { repeat constructor.
    exists (PStr "a-1"), "openssf.omega.security_review".
    split; [ | reflexivity ].
    exists first_item, [ ("name", PStr "openssf.omega.security_review") ].
    repeat split. }
  assert (Hbad : forall uuid name, ~ reads_as unreadable_item uuid name).
  { intros uuid name (entries & generator & E & Hgenerator & _).
    injection E as <-. discriminate. }
  split; [ exact Hrows | ]. split; [ exact Hbad | ].
  exact (add_assertion_stops_at_unreadable (H := sample_collaborators)
           first_item sample_subject [] unreadable_item [ second_item ]
           [ first_row 3 ] sample_store eq_refl Hrows Hbad).
Defined.

Lemma add_assertion_without_subject_witness :
  add_assertion (H := sample_collaborators) (PList []) sample_store
  = (Ok false, sample_store)
  /\ add_assertion (H := sample_collaborators) (PList [ second_item ])
       sample_store
     = (Ok false, sample_store).
Proof.
  split.
  - apply (add_assertion_without_subject (H := sample_collaborators)).
    intros first subject Hfirst. discriminate.
  - apply (add_assertion_without_subject (H := sample_collaborators)).
    intros first subject Hfirst. injection Hfirst as <-. discriminate.
Defined.

Lemma import_keeps_findings_distinct_witness :
  distinct_findings (findings sample_store)
  /\ length (findings
               (snd (import_sarif_file (H := sample_collaborators)
                       (PDict two_findings) (Some sample_version)
                       (Some alice) sample_store))) = 2
  /\ distinct_findings
       (findings
          (snd (import_sarif_file (H := sample_collaborators)
                  (PDict two_findings) (Some sample_version) (Some alice)
                  sample_store))).
Proof.
  assert (Hempty : distinct_findings (findings sample_store)).
  { intros i j earlier later _ Hi. discriminate. }
  split; [ exact Hempty | ]. split; [ reflexivity | ].
  exact (import_keeps_findings_distinct (H := sample_collaborators)
           (PDict two_findings) (Some sample_version) (Some alice)
           sample_store Hempty).
Defined.

Lemma import_keeps_tools_distinct_witness :
  distinct_tools (tools sample_store)
  /\ tools (snd (import_sarif_file (H := sample_collaborators)
                   (PDict two_findings) (Some sample_version) (Some alice)
                   sample_store)) = [ scanner ]
  /\ distinct_tools
       (tools
          (snd (import_sarif_file (H := sample_collaborators)
                  (PDict two_findings) (Some sample_version) (Some alice)
                  sample_store))).
Proof.
  assert (Hempty : distinct_tools (tools sample_store)).
  { intros i j earlier later _ Hi. discriminate. }
  split; [ exact Hempty | ]. split; [ reflexivity | ].
  exact (import_keeps_tools_distinct (H := sample_collaborators)
           (PDict two_findings) (Some sample_version) (Some alice)
           sample_store Hempty).
Defined.

Lemma import_without_files_witness :
  files empty_version = []
  /\ findings
       (snd (import_sarif_file (H := sample_collaborators)
               (PDict two_findings) (Some empty_version) (Some alice)
               sample_store))
     = findings sample_store.
Proof.
  split; [ reflexivity | ].
  exact (import_without_files (H := sample_collaborators)
           (PDict two_findings) empty_version (Some alice) sample_store
           eq_refl).
Defined.

Lemma import_false_saves_nothing_witness :
  import_sarif_file (H := sample_collaborators) (document_with [])
    (Some sample_version) (Some alice) sample_store
  = (Ok false, with_tool sample_store scanner)
  /\ findings (with_tool sample_store scanner) = findings sample_store.
Proof.
  split; [ reflexivity | ].
  exact (import_false_saves_nothing (H := sample_collaborators)
           (document_with []) (Some sample_version) (Some alice)
           sample_store (with_tool sample_store scanner) eq_refl).
Defined.

Lemma import_fallback_user_witness :
  (find (fun u => Z.eqb (user_id u) 1) (users sample_store) = Some alice
   /\ import_sarif_file (H := sample_collaborators) (PDict two_findings)
        (Some sample_version) None sample_store
      = import_sarif_file (H := sample_collaborators) (PDict two_findings)
          (Some sample_version) (Some alice) sample_store)
  /\ (find (fun u => Z.eqb (user_id u) 1)
           (users (store_of (H := sample_collaborators) [] [])) = None
      /\ ~ invalid_input (PDict two_findings) (Some sample_version)
      /\ import_sarif_file (H := sample_collaborators) (PDict two_findings)
           (Some sample_version) None (store_of [] [])
         = (Raise DoesNotExist, store_of [] [])).
Proof.
  split.
  - split; [ reflexivity | ].
    exact (proj1 (import_fallback_user (H := sample_collaborators)
                    (PDict two_findings) (Some sample_version) sample_store)
                 alice eq_refl).
  - assert (Hvalid : ~ invalid_input (PDict two_findings)
                                     (Some sample_version)).
    { intros [E | [E | [(entries & E & Hv) | E]]]; try discriminate.
      - exact (E _ eq_refl).
      - injection E as <-. apply Hv. reflexivity. }
    split; [ reflexivity | ]. split; [ exact Hvalid | ].
    exact (proj2 (import_fallback_user (H := sample_collaborators)
                    (PDict two_findings) (Some sample_version)
                    (store_of [] []))
                 eq_refl Hvalid).
Defined.

Lemma import_result_outside_root_witness :
  Forall (fun location =>
            in_source_root (src_root_of (H := sample_collaborators) location)
            = false)
         [ location_under "%TMP%" "b/index.js" 3;
           location_under "BUILD" "b/index.js" 9 ]
  /\ import_result (H := sample_collaborators) sample_version alice scanner
       (PDict outside_result) fresh_locals sample_store
     = (Ok fresh_locals, sample_store).
Proof.
  assert (Hout : Forall (fun location =>
                           in_source_root
                             (src_root_of (H := sample_collaborators)
                                          location) = false)
                        [ location_under "%TMP%" "b/index.js" 3;
                          location_under "BUILD" "b/index.js" 9 ])
    by (repeat constructor).
  split; [ exact Hout | ].
  exact (import_result_outside_root (H := sample_collaborators)
           sample_version alice scanner outside_result _ fresh_locals
           sample_store eq_refl Hout).
Defined.

Lemma import_ignores_assertion_data_witness :
  lookup_key "assertion_data" two_findings = None
  /\ exists packages rows,
       import_sarif_file (H := sample_collaborators)
         (PDict (("assertion_data", PList [ PDict first_item; second_item ])
                   :: two_findings))
         (Some sample_version) (Some alice) sample_store
       = (fst (import_sarif_file (H := sample_collaborators)
                 (PDict two_findings) (Some sample_version) (Some alice)
                 sample_store),
          with_assertions
            (snd (import_sarif_file (H := sample_collaborators)
                    (PDict two_findings) (Some sample_version) (Some alice)
                    sample_store))
            packages rows).
Proof.
  split; [ reflexivity | ].
  exact (import_ignores_assertion_data (H := sample_collaborators)
           two_findings (PList [ PDict first_item; second_item ])
           (Some sample_version) (Some alice) sample_store eq_refl).
Defined.
